(** * AIRI self-learning loop and long-term memory store

    A shallow embedding of
      - [stores/modules/memory-long-term]  (the long-term memory store),
      - [stores/modules/self-learning.ts]  (topics, run ledger, schedule),
      - [composables/use-self-learning.ts] (the RETRIEVE / JUDGE / DISTILL /
        CONSOLIDATE loop),
    followed by the properties of the specification that concern them.

    Conventions.
      - A JavaScript string is a [string]; the model is exact on ASCII text
        (bytes of 128 and above are carried through unchanged: they are
        neither white space nor letters with a case).
      - A JavaScript number holding a time stamp, a count or a limit is a
        [Z]; a confidence, a rate or a threshold is a rational [Q], every
        finite double being one.  Two confidences are compared with [==].
        The arithmetic of [decayConfidence] is the double precision one,
        every operation rounded to the nearest double ([Js.double]): its
        rounding decides which entries are pruned.  The sum of
        [boostConfidence] and the difference in the comparator of
        [sortedEntries] are left exact: what is stated of them are bounds,
        signs and frames, which rounding keeps.  Infinities and [NaN] are
        not represented.
      - [Date.now()], [nanoid()] and the network are the host's: they are
        oracles over an abstract world [W], threaded through a state and
        exception monad. *)

From Stdlib Require Import ZArith QArith Qminmax Lqa List String Ascii Bool Lia.
From Stdlib Require Import Permutation Sorted DecimalString.
Import ListNotations.

Local Open Scope string_scope.

(* ===================================================================== *)
(** * JavaScript strings *)
(* ===================================================================== *)

Module Js.

(** White space of [\s] and of [trim] within ASCII: TAB, LF, VT, FF, CR and
    the space. *)
Definition isSpace (c : ascii) : bool :=
  let n := nat_of_ascii c in
  ((9 <=? n) && (n <=? 13))%nat || (n =? 32)%nat.

Definition lowerChar (c : ascii) : ascii :=
  let n := nat_of_ascii c in
  if ((65 <=? n) && (n <=? 90))%nat then ascii_of_nat (n + 32) else c.

(** [s.toLowerCase()] *)
Fixpoint toLowerCase (s : string) : string :=
  match s with
  | EmptyString => EmptyString
  | String c r => String (lowerChar c) (toLowerCase r)
  end.

(** [s.split(/\s+/)]: the pieces between the maximal runs of white space.
    [afterSpace] tells that the previous character belonged to a run, whose
    piece is then already closed.  The result is never empty: the empty
    string splits into one empty piece, and leading or trailing white space
    yields an empty first or last piece. *)
Fixpoint splitFrom (afterSpace : bool) (s : string) : list string :=
  match s with
  | EmptyString => [EmptyString]
  | String c r =>
      if isSpace c then
        if afterSpace then splitFrom true r
        else EmptyString :: splitFrom true r
      else
        match splitFrom false r with
        | w :: ws => String c w :: ws
        | [] => [String c EmptyString]
        end
  end.

Definition splitWhitespace (s : string) : list string := splitFrom false s.

(** [e.includes(w)]: [w] occurs in [e] as a substring. *)
Fixpoint includes (e w : string) : bool :=
  prefix w e ||
  match e with
  | EmptyString => false
  | String _ r => includes r w
  end.

Fixpoint trimStart (s : string) : string :=
  match s with
  | EmptyString => EmptyString
  | String c r => if isSpace c then trimStart r else s
  end.

(** Drops the trailing white space. *)
Fixpoint trimEnd (s : string) : string :=
  match s with
  | EmptyString => EmptyString
  | String c r =>
      match trimEnd r with
      | EmptyString => if isSpace c then EmptyString else String c EmptyString
      | r' => String c r'
      end
  end.

(** [s.trim()] *)
Definition trim (s : string) : string := trimEnd (trimStart s).

(** [s.slice(0, n)] on a string, for a constant [n >= 0]. *)
Definition sliceStr (n : Z) (s : string) : string :=
  substring 0 (Z.to_nat n) s.

(** [l.slice(0, n)] on an array: a negative [n] counts from the end. *)
Definition slice0 {A : Type} (n : Z) (l : list A) : list A :=
  if (n <? 0)%Z
  then firstn (Z.to_nat (Z.of_nat (List.length l) + n)) l
  else firstn (Z.to_nat n) l.

(** A string is truthy when it is not empty. *)
Definition truthy (s : string) : bool :=
  match s with EmptyString => false | _ => true end.

(** A string given by its bytes (for the non-ASCII characters of the
    source's literals, in UTF-8). *)
Definition bytes (l : list nat) : string :=
  fold_right (fun n s => String (ascii_of_nat n) s) EmptyString l.

Definition enDash : string := bytes [226; 128; 147]%nat.
Definition rightArrow : string := bytes [226; 134; 146]%nat.
Definition newline : string := bytes [10]%nat.
Definition quote : string := bytes [34]%nat.

(** ** The two regular expressions of the loop *)

Definition isChar (n : nat) (c : ascii) : bool := (nat_of_ascii c =? n)%nat.

(** Line terminators within ASCII: LF and CR. *)
Definition isLineTerminator (c : ascii) : bool := isChar 10 c || isChar 13 c.

(** The suffix of [s] that starts at its first opening bracket. *)
Fixpoint fromOpenBracket (s : string) : option string :=
  match s with
  | EmptyString => None
  | String c r => if isChar 91 c then Some s else fromOpenBracket r
  end.

(** The longest prefix of [s] that ends with a closing bracket. *)
Fixpoint uptoLastCloseBracket (s : string) : option string :=
  match s with
  | EmptyString => None
  | String c r =>
      match uptoLastCloseBracket r with
      | Some p => Some (String c p)
      | None => if isChar 93 c then Some (String c EmptyString) else None
      end
  end.

(** [text.match(/\[[\s\S]*\]/)?.[0]]: from the first opening bracket to the
    last closing bracket after it. *)
Definition matchArrayText (text : string) : option string :=
  match fromOpenBracket text with
  | Some (String c r) =>
      match uptoLastCloseBracket r with
      | Some p => Some (String c p)
      | None => None
      end
  | _ => None
  end.

Fixpoint spanSpaces (s : string) : string * string :=
  match s with
  | EmptyString => (EmptyString, EmptyString)
  | String c r =>
      if isSpace c
      then let (run, rest) := spanSpaces r in (String c run, rest)
      else (EmptyString, s)
  end.

(** The characters up to the next line terminator: what a greedy [.+]
    takes. *)
Fixpoint restOfLine (s : string) : string :=
  match s with
  | EmptyString => EmptyString
  | String c r =>
      if isLineTerminator c then EmptyString else String c (restOfLine r)
  end.

Fixpoint lastNonTerminator (s : string) : option ascii :=
  match s with
  | EmptyString => None
  | String c r =>
      match lastNonTerminator r with
      | Some d => Some d
      | None => if isLineTerminator c then None else Some c
      end
  end.

(** [#\s+(.+)] tried at the start of [s].  The run of white space is greedy;
    when it reaches the end of the text it gives characters back until the
    group finds one that is not a line terminator. *)
Definition titleAt (s : string) : option string :=
  match s with
  | String c r =>
      if isChar 35 c then
        match spanSpaces r with
        | (EmptyString, _) => None
        | (String _ run, EmptyString) =>
            option_map (fun d => String d EmptyString) (lastNonTerminator run)
        | (String _ _, rest) => Some (restOfLine rest)
        end
      else None
  | EmptyString => None
  end.

(** [content.match(/^#\s+(.+)/m)?.[1]]: the first line start where the
    pattern matches. *)
Fixpoint matchTitleFrom (lineStart : bool) (s : string) : option string :=
  match (if lineStart then titleAt s else None) with
  | Some t => Some t
  | None =>
      match s with
      | EmptyString => None
      | String c r => matchTitleFrom (isLineTerminator c) r
      end
  end.

Definition matchTitle (content : string) : option string :=
  matchTitleFrom true content.

(** [l.join(sep)] *)
Fixpoint join (sep : string) (l : list string) : string :=
  match l with
  | [] => EmptyString
  | [x] => x
  | x :: r => x ++ sep ++ join sep r
  end.

(** [s.slice(0, n)] on a string for any integer [n]: a negative [n] counts
    from the end. *)
Definition sliceTo (n : Z) (s : string) : string :=
  if (n <? 0)%Z
  then substring 0 (Z.to_nat (Z.of_nat (String.length s) + n)) s
  else substring 0 (Z.to_nat n) s.


(** An integer in a template literal. *)
Definition decimal (n : Z) : string := NilZero.string_of_int (Z.to_int n).

(** ** Numbers

    A finite double is [m * 2^e] with [|m| < 2^53] and [-1074 <= e]; counted
    in units of [2^-1074] it is an integer.  An arithmetic operation yields
    the double nearest to the exact result, a tie going to the even
    mantissa. *)

(** [a / b] rounded to the nearest integer, a tie going to the even one. *)
Definition nearestEven (a b : Z) : Z :=
  let q := (a / b)%Z in
  let r := (a mod b)%Z in
  match (2 * r ?= b)%Z with
  | Lt => q
  | Gt => (q + 1)%Z
  | Eq => if Z.even q then q else (q + 1)%Z
  end.

(** The spacing of the integers with 53 significant bits around [a / b]:
    1 below [2^53], 2 up to [2^54], and so on. *)
Definition quantum (a b : Z) : Z := (2 ^ Z.max 0 (Z.log2 (a / b) - 52))%Z.

(** [a / b] rounded to 53 significant bits. *)
Definition roundTo53 (a b : Z) : Z :=
  let u := quantum (Z.abs a) b in (nearestEven a (b * u) * u)%Z.

(** The double nearest to [x]. *)
Definition double (x : Q) : Q :=
  Qmake (roundTo53 (Qnum x * 2 ^ 1074) (Zpos (Qden x))) (2 ^ 1074)%positive.

(** [x - y], [x * y] and [x / y] on doubles. *)
Definition sub (x y : Q) : Q := double (x - y).
Definition mul (x y : Q) : Q := double (x * y).
Definition div (x y : Q) : Q := double (x / y).

(** [x] is a double. *)
Definition isDouble (x : Q) : Prop := double x == x.

End Js.

(** [m] is an integer nearest to [a / b], and the even one at a tie. *)
Definition Nearest (a b m : Z) : Prop :=
  ((2 * m - 1) * b <= 2 * a
   /\ 2 * a <= (2 * m + 1) * b
   /\ (2 * a = (2 * m + 1) * b -> Z.even m = true)
   /\ (2 * a = (2 * m - 1) * b -> Z.even m = true))%Z.

(* ===================================================================== *)
(** * The host: clock, identifiers, network, JSON *)
(* ===================================================================== *)

(** A thrown value: an [Error] with its message, or anything else with its
    [String(...)]. *)
Inductive JsError : Type :=
  | ErrorObject (message : string)
  | ThrownValue (asString : string).

(** [err instanceof Error ? err.message : String(err)] *)
Definition errorMessage (e : JsError) : string :=
  match e with
  | ErrorObject m => m
  | ThrownValue v => v
  end.

Inductive Outcome (A : Type) : Type :=
  | Returned (a : A)
  | Thrown (e : JsError).
Arguments Returned {A} a.
Arguments Thrown {A} e.

(** The values [JSON.parse] can return. *)
#[local] Unset Elimination Schemes.
Inductive Json : Type :=
  | JNull
  | JBool (b : bool)
  | JNumber (n : Q)
  | JString (s : string)
  | JArray (items : list Json)
  | JObject (fields : list (string * Json)).
#[local] Set Elimination Schemes.

Module WebSearchResult.
Record t : Type := mk { title : string; url : string; snippet : string }.
End WebSearchResult.

Definition ChatProvider : Type := string.

(** What the loop asks of its environment.  Every call may change the world;
    the network calls may throw. *)
Record Host (W : Type) : Type := mkHost {
  Date_now : W -> Z * W;
  nanoid : W -> string * W;
  getProviderInstance : string -> W -> Outcome ChatProvider * W;
  (** [webSearchStore.search(query, count)] *)
  search : string -> Z -> W -> Outcome (list WebSearchResult.t) * W;
  (** [ofetch(url, ...)] returning the body as text *)
  ofetch : string -> W -> Outcome string * W;
  (** [generateText({...chatProvider.chat(model), messages})] and its
      [result.text], which may be undefined *)
  generateText : ChatProvider -> string -> string -> W
                 -> Outcome (option string) * W;
  JSON_parse : string -> Outcome Json
}.
Arguments Date_now {W} _ _.
Arguments nanoid {W} _ _.
Arguments getProviderInstance {W} _ _ _.
Arguments search {W} _ _ _ _.
Arguments ofetch {W} _ _ _.
Arguments generateText {W} _ _ _ _ _.
Arguments JSON_parse {W} _ _.

(* ===================================================================== *)
(** * The long-term memory store *)
(* ===================================================================== *)

Inductive Source : Type := manual | self_learning.

Module MemoryEntry.
Record t : Type := mk {
  id : string;
  content : string;
  tags : list string;
  source : Source;
  confidence : Q;
  useCount : Z;
  createdAt : Z;
  updatedAt : Z
}.
End MemoryEntry.

Module Memory.

Record Store : Type := mkStore {
  enabled : bool;
  maxInjectedEntries : Z;
  entries : list MemoryEntry.t
}.

Definition setEntries (l : list MemoryEntry.t) (m : Store) : Store :=
  mkStore (enabled m) (maxInjectedEntries m) l.

(** The comparator of [sortedEntries]:
    [b.confidence !== a.confidence ? b.confidence - a.confidence
                                   : b.updatedAt - a.updatedAt]. *)
Definition compareEntries (a b : MemoryEntry.t) : Q :=
  if negb (Qeq_bool (MemoryEntry.confidence b) (MemoryEntry.confidence a))
  then MemoryEntry.confidence b - MemoryEntry.confidence a
  else inject_Z (MemoryEntry.updatedAt b - MemoryEntry.updatedAt a).

(** [Array.prototype.sort] is stable, so with a consistent comparator its
    result is the stable sorted arrangement; insertion from the right
    computes it: [x] goes before the first [y] it does not have to follow. *)
Section Sort.
Context {A : Type} (cmp : A -> A -> Q).

Fixpoint insertSorted (x : A) (l : list A) : list A :=
  match l with
  | [] => [x]
  | y :: r =>
      if Qlt_le_dec 0 (cmp x y) then y :: insertSorted x r else x :: l
  end.

Definition sortBy (l : list A) : list A := fold_right insertSorted [] l.
End Sort.

Definition sortedEntries (m : Store) : list MemoryEntry.t :=
  sortBy compareEntries (entries m).

Definition seedConfidence (src : Source) : Q :=
  match src with self_learning => 6 # 10 | manual => 8 # 10 end.

(** [addEntry(content, tags = [], source = 'manual')]: the clock is read
    first, then the identifier is drawn. *)
Definition addEntry {W : Type} (h : Host W)
    (content : string) (tags : list string) (src : Source)
    (m : Store) (w : W) : MemoryEntry.t * Store * W :=
  let (now, w1) := Date_now h w in
  let (newId, w2) := nanoid h w1 in
  let entry := MemoryEntry.mk newId (Js.trim content) tags src
                 (seedConfidence src) 0 now now in
  (entry, setEntries (entries m ++ [entry]) m, w2).

Definition boostEntry (now : Z) (delta : Q) (e : MemoryEntry.t)
  : MemoryEntry.t :=
  MemoryEntry.mk (MemoryEntry.id e) (MemoryEntry.content e)
    (MemoryEntry.tags e) (MemoryEntry.source e)
    (Qmin 1 (MemoryEntry.confidence e + delta))
    (MemoryEntry.useCount e + 1) (MemoryEntry.createdAt e) now.

(** [boostConfidence(id, delta = 0.05)]: the callback of [map] reads the
    clock for each entry it rebuilds. *)
Fixpoint boostEach {W : Type} (h : Host W) (i : string) (delta : Q)
    (l : list MemoryEntry.t) (w : W) : list MemoryEntry.t * W :=
  match l with
  | [] => ([], w)
  | e :: r =>
      if String.eqb (MemoryEntry.id e) i then
        let (now, w1) := Date_now h w in
        let (r', w2) := boostEach h i delta r w1 in
        (boostEntry now delta e :: r', w2)
      else
        let (r', w2) := boostEach h i delta r w in
        (e :: r', w2)
  end.

Definition boostConfidence {W : Type} (h : Host W) (i : string) (delta : Q)
    (m : Store) (w : W) : Store * W :=
  let (l, w') := boostEach h i delta (entries m) w in
  (setEntries l m, w').

Definition oneWeekMs : Z := 7 * 24 * 60 * 60 * 1000.

(** [(now - entry.updatedAt) / oneWeekMs] *)
Definition ageWeeks (now : Z) (e : MemoryEntry.t) : Q :=
  Js.div (Js.sub (inject_Z now) (inject_Z (MemoryEntry.updatedAt e)))
    (inject_Z oneWeekMs).

(** The default arguments [0.02] and [0.05] of [decayConfidence]. *)
Definition defaultDecayRate : Q := Js.double (2 # 100).
Definition defaultPruneBelow : Q := Js.double (5 # 100).

(** [{ ...entry, confidence: Math.max(0, decayed) }] with
    [decayed = entry.confidence - decayRate * ageWeeks]. *)
Definition decayEntry (now : Z) (decayRate : Q) (e : MemoryEntry.t)
  : MemoryEntry.t :=
  let decayed :=
    Js.sub (MemoryEntry.confidence e) (Js.mul decayRate (ageWeeks now e)) in
  MemoryEntry.mk (MemoryEntry.id e) (MemoryEntry.content e)
    (MemoryEntry.tags e) (MemoryEntry.source e)
    (Qmax 0 decayed)
    (MemoryEntry.useCount e) (MemoryEntry.createdAt e)
    (MemoryEntry.updatedAt e).

(** [decayConfidence(decayRate = 0.02, pruneBelow = 0.05)] once the clock
    has been read as [now]. *)
Definition decayConfidenceAt (now : Z) (decayRate pruneBelow : Q) (m : Store)
  : Store :=
  setEntries
    (filter (fun e => Qle_bool pruneBelow (MemoryEntry.confidence e))
       (map (decayEntry now decayRate) (entries m))) m.

Definition decayConfidence {W : Type} (h : Host W) (decayRate pruneBelow : Q)
    (m : Store) (w : W) : Store * W :=
  let (now, w') := Date_now h w in
  (decayConfidenceAt now decayRate pruneBelow m, w').

(** [getEntriesForContext()] *)
Definition getEntriesForContext (m : Store) : list MemoryEntry.t :=
  if negb (enabled m) then []
  else
    let sorted := sortedEntries m in
    if (0 <? maxInjectedEntries m)%Z
    then Js.slice0 (maxInjectedEntries m) sorted
    else sorted.

(** ** Ranking *)

(** [a] may stand before [b]: higher confidence, or the same confidence and
    an update that is not older. *)
Definition ranksBefore (a b : MemoryEntry.t) : Prop :=
  MemoryEntry.confidence b < MemoryEntry.confidence a
  \/ (MemoryEntry.confidence a == MemoryEntry.confidence b
      /\ (MemoryEntry.updatedAt b <= MemoryEntry.updatedAt a)%Z).

(** [x] ties with [k] on both keys of the comparator. *)
Definition sameRank (k x : MemoryEntry.t) : bool :=
  Qeq_bool (MemoryEntry.confidence k) (MemoryEntry.confidence x)
  && (MemoryEntry.updatedAt k =? MemoryEntry.updatedAt x)%Z.

(** The ranking with the identifier as a last key, ascending. *)
Definition ranksBeforeWithId (a b : MemoryEntry.t) : Prop :=
  MemoryEntry.confidence b < MemoryEntry.confidence a
  \/ (MemoryEntry.confidence a == MemoryEntry.confidence b
      /\ ((MemoryEntry.updatedAt b < MemoryEntry.updatedAt a)%Z
          \/ (MemoryEntry.updatedAt b = MemoryEntry.updatedAt a
              /\ String.leb (MemoryEntry.id a) (MemoryEntry.id b) = true))).

(** ** Sequences of operations on the confidence *)

Inductive Op : Type :=
  | OpAdd (content : string) (tags : list string) (src : Source)
  | OpBoost (i : string) (delta : Q)
  | OpDecay (decayRate pruneBelow : Q).

Definition applyOp {W : Type} (h : Host W) (op : Op) (m : Store) (w : W)
  : Store * W :=
  match op with
  | OpAdd content tags src =>
      let '(_, m', w') := addEntry h content tags src m w in (m', w')
  | OpBoost i delta => boostConfidence h i delta m w
  | OpDecay decayRate pruneBelow => decayConfidence h decayRate pruneBelow m w
  end.

Fixpoint applyOps {W : Type} (h : Host W) (ops : list Op) (m : Store) (w : W)
  : Store * W :=
  match ops with
  | [] => (m, w)
  | op :: r => let (m', w') := applyOp h op m w in applyOps h r m' w'
  end.

(** Boosts add and decays subtract. *)
Definition admissible (op : Op) : Prop :=
  match op with
  | OpAdd _ _ _ => True
  | OpBoost _ delta => 0 <= delta
  | OpDecay decayRate _ => 0 <= decayRate
  end.

Definition inRange (e : MemoryEntry.t) : Prop :=
  0 <= MemoryEntry.confidence e /\ MemoryEntry.confidence e <= 1.

Definition confidenceInRange (m : Store) : Prop := Forall inRange (entries m).

Definition emptyStore : Store := mkStore true 10 [].

(** A clock that never runs backwards: [time w] bounds from below what the
    clock reads from [w] on, and a reading carries over to the next world. *)
Definition MonotoneClock {W : Type} (h : Host W) (time : W -> Z) : Prop :=
  (forall w, (time w <= fst (Date_now h w))%Z
             /\ (fst (Date_now h w) <= time (snd (Date_now h w)))%Z)
  /\ (forall w, (time w <= time (snd (nanoid h w)))%Z).

(** No entry was updated later than the clock has read. *)
Definition notFromTheFuture {W : Type} (time : W -> Z) (w : W) (m : Store)
  : Prop :=
  Forall (fun e => (MemoryEntry.updatedAt e <= time w)%Z) (entries m).

(** ** The other operations of the store *)

(** [configured] *)
Definition configured (m : Store) : bool :=
  enabled m && (0 <? List.length (entries m))%nat.

Definition editEntry (now : Z) (content : string) (tags : option (list string))
    (e : MemoryEntry.t) : MemoryEntry.t :=
  MemoryEntry.mk (MemoryEntry.id e) (Js.trim content)
    (match tags with Some t => t | None => MemoryEntry.tags e end)
    (MemoryEntry.source e) (MemoryEntry.confidence e)
    (MemoryEntry.useCount e) (MemoryEntry.createdAt e) now.

(** [updateEntry(id, content, tags?)]: the callback of [map] reads the clock
    for each entry it rebuilds. *)
Fixpoint updateEach {W : Type} (h : Host W) (i content : string)
    (tags : option (list string)) (l : list MemoryEntry.t) (w : W)
  : list MemoryEntry.t * W :=
  match l with
  | [] => ([], w)
  | e :: r =>
      if String.eqb (MemoryEntry.id e) i then
        let (now, w1) := Date_now h w in
        let (r', w2) := updateEach h i content tags r w1 in
        (editEntry now content tags e :: r', w2)
      else
        let (r', w2) := updateEach h i content tags r w in
        (e :: r', w2)
  end.

Definition updateEntry {W : Type} (h : Host W) (i content : string)
    (tags : option (list string)) (m : Store) (w : W) : Store * W :=
  let (l, w') := updateEach h i content tags (entries m) w in
  (setEntries l m, w').

(** [deleteEntry(id)] *)
Definition deleteEntry (i : string) (m : Store) : Store :=
  setEntries
    (filter (fun e => negb (String.eqb (MemoryEntry.id e) i)) (entries m)) m.

(** [clearAllEntries()] *)
Definition clearAllEntries (m : Store) : Store := setEntries [] m.

(** [resetState()]: the two settings go back to their defaults, the entries
    stay. *)
Definition resetState (m : Store) : Store := mkStore true 10 (entries m).

(** The identifiers in stored order. *)
Definition ids (l : list MemoryEntry.t) : list string :=
  map MemoryEntry.id l.

End Memory.

(* ===================================================================== *)
(** * The deduplication filter *)
(* ===================================================================== *)

(** [matches.length / words.length >= 0.6].  Both lengths are integers with
    [1 <= words.length] (a split is never empty) far below [2^50], where the
    rounded quotient is at least the double [0.6] exactly when
    [5 * matches >= 3 * words]. *)
Definition ratioAtLeast60 (matches words : nat) : bool :=
  (3 * words <=? 5 * matches)%nat.

(** The words of the candidate counted by the filter against one existing
    content: [words.filter(w => w.length > 4 && e.includes(w))]. *)
Definition matchedWords (e : string) (words : list string) : list string :=
  filter (fun w => (4 <? String.length w)%nat && Js.includes e w) words.

Definition isDuplicateOf (existing : list string) (insight : string) : bool :=
  let lower := Js.toLowerCase insight in
  let words := Js.splitWhitespace lower in
  existsb (fun e =>
    ratioAtLeast60 (List.length (matchedWords e words)) (List.length words))
    existing.

(** [deduplicateInsights(insights)] against the entries of the store. *)
Definition deduplicateInsights (m : Memory.Store) (insights : list string)
  : list string :=
  let existing :=
    map (fun e => Js.toLowerCase (MemoryEntry.content e)) (Memory.entries m) in
  filter (fun insight => negb (isDuplicateOf existing insight)) insights.

(** ** The filter in the words of the specification

    Only the significant words of the candidate (longer than 4 characters)
    count, in the numerator and in the denominator; a candidate without
    significant words is never a duplicate. *)
Definition significantWords (lower : string) : list string :=
  filter (fun w => (4 <? String.length w)%nat) (Js.splitWhitespace lower).

Definition isDuplicateAsSpecified (existing : list string) (insight : string)
  : bool :=
  let significant := significantWords (Js.toLowerCase insight) in
  negb (List.length significant =? 0)%nat &&
  existsb (fun e =>
    ratioAtLeast60 (List.length (filter (Js.includes e) significant))
      (List.length significant))
    (map Js.toLowerCase existing).

Definition dedupeAsSpecified (existing insights : list string) : list string :=
  filter (fun insight => negb (isDuplicateAsSpecified existing insight))
    insights.

(** [l] with some elements left out, the others in their order. *)
Inductive Subsequence {A : Type} : list A -> list A -> Prop :=
  | Subsequence_nil : Subsequence [] []
  | Subsequence_keep x l l' : Subsequence l l' -> Subsequence (x :: l) (x :: l')
  | Subsequence_drop x l l' : Subsequence l l' -> Subsequence l (x :: l').

(* ===================================================================== *)
(** * The self-learning store: topics, run ledger, schedule *)
(* ===================================================================== *)

Inductive LearningSchedule : Type :=
  | sched_manual | sched_hourly | sched_daily | sched_weekly.

Inductive RunStatus : Type := running | done | error.

Definition RunStatus_eqb (a b : RunStatus) : bool :=
  match a, b with
  | running, running | done, done | error, error => true
  | _, _ => false
  end.

Module LearningTopic.
Record t : Type := mk {
  id : string;
  name : string;
  hint : string;
  enabled : bool;
  createdAt : Z
}.
End LearningTopic.

Module LearningRun.
Record t : Type := mk {
  id : string;
  startedAt : Z;
  completedAt : option Z;
  status : RunStatus;
  topicsProcessed : list string;
  insightsSaved : Z;
  error : option string
}.
End LearningRun.

Module SelfLearning.

Record Store : Type := mkStore {
  enabled : bool;
  schedule : LearningSchedule;
  topics : list LearningTopic.t;
  runHistory : list LearningRun.t;
  lastRunAt : option Z;
  maxPagesPerTopic : Z;
  verboseOutput : bool
}.

Definition setRunHistory (h : list LearningRun.t) (s : Store) : Store :=
  mkStore (enabled s) (schedule s) (topics s) h (lastRunAt s)
    (maxPagesPerTopic s) (verboseOutput s).

Definition setLastRunAt (t : option Z) (s : Store) : Store :=
  mkStore (enabled s) (schedule s) (topics s) (runHistory s) t
    (maxPagesPerTopic s) (verboseOutput s).

Definition configured (s : Store) : bool :=
  enabled s && existsb LearningTopic.enabled (topics s).

Definition activeTopics (s : Store) : list LearningTopic.t :=
  filter LearningTopic.enabled (topics s).

(** [runHistory.value[0] ?? null] *)
Definition latestRun (s : Store) : option LearningRun.t :=
  match runHistory s with
  | [] => None
  | r :: _ => Some r
  end.

(** [latestRun.value?.status === 'running'] *)
Definition isRunning (s : Store) : bool :=
  match latestRun s with
  | Some r => RunStatus_eqb (LearningRun.status r) running
  | None => false
  end.

(** [startRun(topicNames)]: the identifier is drawn first, then the clock
    is read. *)
Definition startRun {W : Type} (h : Host W) (topicNames : list string)
    (s : Store) (w : W) : LearningRun.t * Store * W :=
  let (newId, w1) := nanoid h w in
  let (now, w2) := Date_now h w1 in
  let run := LearningRun.mk newId now None running topicNames 0 None in
  (run, setRunHistory (Js.slice0 20 (run :: runHistory s)) s, w2).

Definition markDone (now : Z) (saved : Z) (r : LearningRun.t)
  : LearningRun.t :=
  LearningRun.mk (LearningRun.id r) (LearningRun.startedAt r) (Some now)
    done (LearningRun.topicsProcessed r) saved (LearningRun.error r).

(** [completeRun(runId, insightsSaved)] *)
Definition completeRun {W : Type} (h : Host W) (runId : string) (saved : Z)
    (s : Store) (w : W) : Store * W :=
  let (now, w') := Date_now h w in
  (setLastRunAt (Some now)
     (setRunHistory
        (map (fun r => if String.eqb (LearningRun.id r) runId
                       then markDone now saved r else r) (runHistory s)) s),
   w').

Definition markError (now : Z) (msg : string) (r : LearningRun.t)
  : LearningRun.t :=
  LearningRun.mk (LearningRun.id r) (LearningRun.startedAt r) (Some now)
    error (LearningRun.topicsProcessed r) (LearningRun.insightsSaved r)
    (Some msg).

(** [failRun(runId, error)]: the callback of [map] reads the clock for each
    record it rebuilds. *)
Fixpoint failEach {W : Type} (h : Host W) (runId msg : string)
    (l : list LearningRun.t) (w : W) : list LearningRun.t * W :=
  match l with
  | [] => ([], w)
  | r :: rest =>
      if String.eqb (LearningRun.id r) runId then
        let (now, w1) := Date_now h w in
        let (rest', w2) := failEach h runId msg rest w1 in
        (markError now msg r :: rest', w2)
      else
        let (rest', w2) := failEach h runId msg rest w in
        (r :: rest', w2)
  end.

Definition failRun {W : Type} (h : Host W) (runId msg : string)
    (s : Store) (w : W) : Store * W :=
  let (l, w') := failEach h runId msg (runHistory s) w in
  (setRunHistory l s, w').

(** The table [intervals]; [manual] is [Infinity]. *)
Definition interval (sc : LearningSchedule) : option Z :=
  match sc with
  | sched_manual => None
  | sched_hourly => Some (60 * 60 * 1000)%Z
  | sched_daily => Some (24 * 60 * 60 * 1000)%Z
  | sched_weekly => Some (7 * 24 * 60 * 60 * 1000)%Z
  end.

Definition isManual (sc : LearningSchedule) : bool :=
  match sc with sched_manual => true | _ => false end.

(** [!lastRunAt.value]: [null] and [0] are falsy. *)
Definition unset (t : option Z) : bool :=
  match t with
  | None => true
  | Some v => (v =? 0)%Z
  end.

(** [isDue()]: the clock is read only past the first test. *)
Definition isDue {W : Type} (h : Host W) (s : Store) (w : W) : bool * W :=
  if isManual (schedule s) || unset (lastRunAt s)
  then (negb (isManual (schedule s)), w)
  else
    let (now, w') := Date_now h w in
    match lastRunAt s, interval (schedule s) with
    | Some t, Some i => ((i <=? now - t)%Z, w')
    | _, _ => (false, w')
    end.

(** The next [n] readings of the clock, and the world after them. *)
Fixpoint readClock {W : Type} (h : Host W) (n : nat) (w : W) : list Z * W :=
  match n with
  | O => ([], w)
  | S k =>
      let (t, w1) := Date_now h w in
      let (l, w2) := readClock h k w1 in
      (t :: l, w2)
  end.

(** The records of the run [runId]. *)
Definition recordsOf (runId : string) (l : list LearningRun.t)
  : list LearningRun.t :=
  filter (fun r => String.eqb (LearningRun.id r) runId) l.

(** What [failRun] turns the record [r] into. *)
Definition failedFrom (runId msg : string) (r r' : LearningRun.t) : Prop :=
  if String.eqb (LearningRun.id r) runId
  then LearningRun.status r' = error
       /\ LearningRun.error r' = Some msg
       /\ (exists t, LearningRun.completedAt r' = Some t)
       /\ LearningRun.id r' = LearningRun.id r
       /\ LearningRun.startedAt r' = LearningRun.startedAt r
       /\ LearningRun.topicsProcessed r' = LearningRun.topicsProcessed r
       /\ LearningRun.insightsSaved r' = LearningRun.insightsSaved r
  else r' = r.

(** What [completeRun], reading the clock as [now], turns [r] into. *)
Definition completedFrom (runId : string) (now saved : Z)
    (r r' : LearningRun.t) : Prop :=
  if String.eqb (LearningRun.id r) runId
  then LearningRun.status r' = done
       /\ LearningRun.completedAt r' = Some now
       /\ LearningRun.insightsSaved r' = saved
       /\ LearningRun.id r' = LearningRun.id r
       /\ LearningRun.startedAt r' = LearningRun.startedAt r
       /\ LearningRun.topicsProcessed r' = LearningRun.topicsProcessed r
       /\ LearningRun.error r' = LearningRun.error r
  else r' = r.

(** ** Topics *)

Definition setTopics (t : list LearningTopic.t) (s : Store) : Store :=
  mkStore (enabled s) (schedule s) t (runHistory s) (lastRunAt s)
    (maxPagesPerTopic s) (verboseOutput s).

(** [addTopic(name, hint = '')]: the identifier is drawn first, then the
    clock is read. *)
Definition addTopic {W : Type} (h : Host W) (name hint : string)
    (s : Store) (w : W) : LearningTopic.t * Store * W :=
  let (newId, w1) := nanoid h w in
  let (now, w2) := Date_now h w1 in
  let topic := LearningTopic.mk newId (Js.trim name) (Js.trim hint) true now in
  (topic, setTopics (topics s ++ [topic]) s, w2).

(** [Partial<Pick<LearningTopic, 'name' | 'hint' | 'enabled'>>] *)
Record TopicPatch : Type := mkPatch {
  patchName : option string;
  patchHint : option string;
  patchEnabled : option bool
}.

(** [{ ...t, ...patch }] *)
Definition patchTopic (patch : TopicPatch) (t : LearningTopic.t)
  : LearningTopic.t :=
  LearningTopic.mk (LearningTopic.id t)
    (match patchName patch with Some n => n | None => LearningTopic.name t end)
    (match patchHint patch with Some x => x | None => LearningTopic.hint t end)
    (match patchEnabled patch with
     | Some b => b
     | None => LearningTopic.enabled t
     end)
    (LearningTopic.createdAt t).

(** [updateTopic(id, patch)] *)
Definition updateTopic (i : string) (patch : TopicPatch) (s : Store) : Store :=
  setTopics
    (map (fun t => if String.eqb (LearningTopic.id t) i
                   then patchTopic patch t else t) (topics s)) s.

(** [deleteTopic(id)] *)
Definition deleteTopic (i : string) (s : Store) : Store :=
  setTopics
    (filter (fun t => negb (String.eqb (LearningTopic.id t) i)) (topics s)) s.

(** [resetState()]: the settings and [lastRunAt] go back to their defaults,
    the topics and the history stay. *)
Definition resetState (s : Store) : Store :=
  mkStore false sched_manual (topics s) (runHistory s) None 2 true.

End SelfLearning.

(* ===================================================================== *)
(** * The other stores the loop reads *)
(* ===================================================================== *)

Inductive WebSearchBackend : Type := searxng | brave | duckduckgo.

Module WebSearch.

Record Store : Type := mkStore {
  enabled : bool;
  backend : WebSearchBackend;
  searxngUrl : string;
  braveApiKey : string
}.

Definition configured (s : Store) : bool :=
  if negb (enabled s) then false
  else
    match backend s with
    | searxng => Js.truthy (Js.trim (searxngUrl s))
    | brave => Js.truthy (Js.trim (braveApiKey s))
    | duckduckgo => true
    end.

(** The [limit] of [search(query, count?)]:
    [Math.max(1, Math.min(count ?? maxResults.value, 10))]. *)
Definition searchLimit (count : option Z) (maxResults : Z) : Z :=
  Z.max 1 (Z.min (match count with Some c => c | None => maxResults end) 10).

End WebSearch.

(** The consciousness store is not part of the sources at hand; the loop
    only tests its two fields for truthiness and passes them on. *)
Module Consciousness.
Record Store : Type := mkStore {
  activeProvider : string;
  activeModel : string
}.
End Consciousness.

(* ===================================================================== *)
(** * The state of the application and its monad *)
(* ===================================================================== *)

Record State (W : Type) : Type := mkState {
  selfLearningStore : SelfLearning.Store;
  memoryStore : Memory.Store;
  webSearchStore : WebSearch.Store;
  consciousnessStore : Consciousness.Store;
  world : W
}.
Arguments mkState {W} _ _ _ _ _.
Arguments selfLearningStore {W} _.
Arguments memoryStore {W} _.
Arguments webSearchStore {W} _.
Arguments consciousnessStore {W} _.
Arguments world {W} _.

(** A computation reads and writes the state and returns or throws. *)
Definition M (W A : Type) : Type := State W -> Outcome A * State W.

Section Monad.
Context {W : Type}.

Definition ret {A : Type} (a : A) : M W A := fun s => (Returned a, s).

Definition throw {A : Type} (e : JsError) : M W A := fun s => (Thrown e, s).

Definition bind {A B : Type} (c : M W A) (k : A -> M W B) : M W B :=
  fun s =>
    match c s with
    | (Returned a, s') => k a s'
    | (Thrown e, s') => (Thrown e, s')
    end.

(** [try { c } catch (err) { handler(err) }] *)
Definition tryCatch {A : Type} (c : M W A) (handler : JsError -> M W A)
  : M W A :=
  fun s =>
    match c s with
    | (Returned a, s') => (Returned a, s')
    | (Thrown e, s') => handler e s'
    end.

Definition get : M W (State W) := fun s => (Returned s, s).

(** A call to the host that may throw. *)
Definition call {A : Type} (f : W -> Outcome A * W) : M W A :=
  fun s =>
    let (o, w') := f (world s) in
    (o, mkState (selfLearningStore s) (memoryStore s) (webSearchStore s)
          (consciousnessStore s) w').

(** An operation of the memory store. *)
Definition onMemory {A : Type}
    (f : Memory.Store -> W -> A * Memory.Store * W) : M W A :=
  fun s =>
    let '(a, m', w') := f (memoryStore s) (world s) in
    (Returned a,
     mkState (selfLearningStore s) m' (webSearchStore s)
       (consciousnessStore s) w').

(** An operation of the self-learning store. *)
Definition onSelfLearning {A : Type}
    (f : SelfLearning.Store -> W -> A * SelfLearning.Store * W) : M W A :=
  fun s =>
    let '(a, sl', w') := f (selfLearningStore s) (world s) in
    (Returned a,
     mkState sl' (memoryStore s) (webSearchStore s)
       (consciousnessStore s) w').

(** [for (const x of l) acc = body(acc, x)], stopping at the first throw. *)
Fixpoint forEach {A B : Type} (body : B -> A -> M W B) (acc : B)
    (l : list A) : M W B :=
  match l with
  | [] => ret acc
  | x :: r => bind (body acc x) (fun acc' => forEach body acc' r)
  end.
End Monad.

Declare Scope js_scope.
Delimit Scope js_scope with js.
Notation "x <- c ;; k" := (bind c (fun x => k))
  (at level 61, c at next level, right associativity) : js_scope.
Notation "c ;;; k" := (bind c (fun _ => k))
  (at level 61, right associativity) : js_scope.

(* ===================================================================== *)
(** * The learning loop *)
(* ===================================================================== *)

Module PageContent.
Record t : Type := mk { url : string; title : string; content : string }.
End PageContent.

Section Loop.
Context {W : Type} (h : Host W).
Local Open Scope js_scope.

(** [readPage(url)]: the text of the page through the reader service, cut
    to 6000 characters; the empty string when the request fails. *)
Definition readPage (url : string) : M W string :=
  tryCatch
    (content <- call (ofetch h ("https://r.jina.ai/" ++ url)) ;;
     ret (Js.sliceStr 6000 content))
    (fun _ => ret "").

Definition pageBlock (p : PageContent.t) : string :=
  "### " ++
  (if Js.truthy (PageContent.title p)
   then PageContent.title p else PageContent.url p) ++
  Js.newline ++ PageContent.content p.

Definition combinedContent (pages : list PageContent.t) : string :=
  Js.sliceStr 10000
    (Js.join (Js.newline ++ Js.newline ++ "---" ++ Js.newline ++ Js.newline)
       (map pageBlock pages)).

Definition distillPrompt (topic : string) (pages : list PageContent.t)
  : string :=
  Js.join Js.newline
    [ "You are AIRI's knowledge extractor. The user wants you to learn about: "
        ++ Js.quote ++ topic ++ Js.quote ++ ".";
      "Below is content from recent web pages on this topic.";
      "Extract 3" ++ Js.enDash ++
        "8 concise, factual insights that are worth remembering long-term.";
      "Each insight should be a single sentence (max 120 characters).";
      "Return ONLY a JSON array of strings, nothing else. Example:";
      "[" ++ Js.quote ++ "Insight 1" ++ Js.quote ++ ", "
          ++ Js.quote ++ "Insight 2" ++ Js.quote ++ ", "
          ++ Js.quote ++ "Insight 3" ++ Js.quote ++ "]";
      "";
      "--- CONTENT ---";
      combinedContent pages ].

(** [typeof s === 'string' && s.trim().length > 0], then [s.trim()]. *)
Definition insightOf (j : Json) : option string :=
  match j with
  | JString s =>
      if (0 <? String.length (Js.trim s))%nat then Some (Js.trim s) else None
  | _ => None
  end.

Fixpoint keepInsights (items : list Json) : list string :=
  match items with
  | [] => []
  | j :: r =>
      match insightOf j with
      | Some t => t :: keepInsights r
      | None => keepInsights r
      end
  end.

(** [distillInsights(chatProvider, topic, pages)] *)
Definition distillInsights (chatProvider : ChatProvider) (topic : string)
    (pages : list PageContent.t) : M W (list string) :=
  if (List.length pages =? 0)%nat then ret []
  else
    let prompt := distillPrompt topic pages in
    tryCatch
      (s <- get ;;
       result <- call (generateText h chatProvider
                         (Consciousness.activeModel (consciousnessStore s))
                         prompt) ;;
       let text := Js.trim (match result with Some t => t | None => "" end) in
       if negb (Js.truthy text) then ret []
       else
         match Js.matchArrayText text with
         | None => ret []
         | Some m =>
             match JSON_parse h m with
             | Thrown e => throw e
             | Returned (JArray insights) =>
                 ret (Js.slice0 8 (keepInsights insights))
             | Returned _ =>
                 throw (ErrorObject "insights.filter is not a function")
             end
         end)
      (fun _ => ret []).

(** The pages of one topic: those whose trimmed text is longer than 200
    characters, titled by their first heading or else by their address. *)
Definition readPages (topUrls : list string) : M W (list PageContent.t) :=
  forEach
    (fun pages url =>
       content <- readPage url ;;
       if (200 <? String.length (Js.trim content))%nat then
         let title := match Js.matchTitle content with
                      | Some t => t
                      | None => url
                      end in
         ret (pages ++ [PageContent.mk url title content])%list
       else ret pages)
    [] topUrls.

Definition saveInsights (topicName : string) (total : Z)
    (novelInsights : list string) : M W Z :=
  forEach
    (fun total insight =>
       onMemory (Memory.addEntry h insight [topicName; "self-learning"]
                   self_learning) ;;;
       ret (total + 1)%Z)
    total novelInsights.

(** The body of the loop over the topics. *)
Definition learnTopic (chatProvider : ChatProvider) (totalInsights : Z)
    (topic : LearningTopic.t) : M W Z :=
  let query :=
    if Js.truthy (LearningTopic.hint topic)
    then LearningTopic.name topic ++ " " ++ LearningTopic.hint topic
    else LearningTopic.name topic in
  results <- call (search h query 4) ;;
  if (List.length results =? 0)%nat then ret totalInsights
  else
    s <- get ;;
    let topUrls :=
      filter Js.truthy
        (map WebSearchResult.url
           (Js.slice0 (SelfLearning.maxPagesPerTopic (selfLearningStore s))
              results)) in
    pages <- readPages topUrls ;;
    rawInsights <- distillInsights chatProvider (LearningTopic.name topic)
                     pages ;;
    s' <- get ;;
    let novelInsights := deduplicateInsights (memoryStore s') rawInsights in
    saveInsights (LearningTopic.name topic) totalInsights novelInsights.

Definition webSearchError : string :=
  "Web search is not configured " ++ Js.enDash ++
  " enable it in Modules " ++ Js.rightArrow ++ " Web Search".

(** What follows [startRun] inside the [try]. *)
Definition learnTopics (topicsToLearn : list LearningTopic.t)
    (run : LearningRun.t) : M W Z :=
  s <- get ;;
  chatProvider <- call (getProviderInstance h
                    (Consciousness.activeProvider (consciousnessStore s))) ;;
  totalInsights <- forEach (learnTopic chatProvider) 0%Z topicsToLearn ;;
  onSelfLearning (fun sl w =>
    let (sl', w') := SelfLearning.completeRun h (LearningRun.id run)
                       totalInsights sl w in (tt, sl', w')) ;;;
  ret totalInsights.

(** [runLearningLoop()] *)
Definition runLearningLoop : M W Z :=
  s <- get ;;
  let sl := selfLearningStore s in
  let cs := consciousnessStore s in
  if negb (SelfLearning.enabled sl) || SelfLearning.isRunning sl
  then ret 0%Z
  else if negb (Js.truthy (Consciousness.activeProvider cs))
          || negb (Js.truthy (Consciousness.activeModel cs))
  then throw (ErrorObject "No active LLM provider configured")
  else if negb (WebSearch.configured (webSearchStore s))
  then throw (ErrorObject webSearchError)
  else
    let topicsToLearn := SelfLearning.activeTopics sl in
    if (List.length topicsToLearn =? 0)%nat
    then throw (ErrorObject "No learning topics configured")
    else
      run <- onSelfLearning
               (SelfLearning.startRun h
                  (map LearningTopic.name topicsToLearn)) ;;
      tryCatch (learnTopics topicsToLearn run)
        (fun err =>
           onSelfLearning (fun sl w =>
             let (sl', w') := SelfLearning.failRun h (LearningRun.id run)
                                (errorMessage err) sl w in (tt, sl', w')) ;;;
           throw err).

(** [checkAndRunIfDue()]: a rejected run is only logged. *)
Definition checkAndRunIfDue : M W unit :=
  due <- onSelfLearning (fun sl w =>
           let (d, w') := SelfLearning.isDue h sl w in (d, sl, w')) ;;
  s <- get ;;
  if due && SelfLearning.configured (selfLearningStore s)
  then tryCatch (runLearningLoop ;;; ret tt) (fun _ => ret tt)
  else ret tt.
End Loop.

(* ===================================================================== *)
(** * Predicates on the ledger and on computations *)
(* ===================================================================== *)

Definition isRunningRecord (r : LearningRun.t) : bool :=
  RunStatus_eqb (LearningRun.status r) running.

Definition runningCount (l : list LearningRun.t) : nat :=
  List.length (filter isRunningRecord l).

(** No record is running. *)
Definition Quiet (l : list LearningRun.t) : Prop :=
  Forall (fun r => isRunningRecord r = false) l.

(** No record but the most recent one may be running. *)
Definition SingleFlight (l : list LearningRun.t) : Prop :=
  match l with
  | [] => True
  | _ :: older => Quiet older
  end.

(** The state passes the guard and the pre-flight checks of the loop. *)
Definition ready {W : Type} (s : State W) : Prop :=
  SelfLearning.enabled (selfLearningStore s) = true
  /\ SelfLearning.isRunning (selfLearningStore s) = false
  /\ Js.truthy (Consciousness.activeProvider (consciousnessStore s)) = true
  /\ Js.truthy (Consciousness.activeModel (consciousnessStore s)) = true
  /\ WebSearch.configured (webSearchStore s) = true
  /\ SelfLearning.activeTopics (selfLearningStore s) <> [].

(** What the body of the loop may change between [s] and [s']: the world,
    and the memory by entries appended at its end. *)
Definition Grows {W : Type} (s s' : State W) : Prop :=
  selfLearningStore s' = selfLearningStore s
  /\ webSearchStore s' = webSearchStore s
  /\ consciousnessStore s' = consciousnessStore s
  /\ exists added,
       memoryStore s'
       = Memory.setEntries (Memory.entries (memoryStore s) ++ added)
           (memoryStore s).

Definition Stepwise {W A : Type} (c : M W A) : Prop :=
  forall s, Grows s (snd (c s)).

(** The computation never throws. *)
Definition Returns {W A : Type} (c : M W A) : Prop :=
  forall s, exists a, fst (c s) = Returned a.

(** ** The run, cut at its two writes to the ledger *)

Section Cut.
Context {W : Type} (h : Host W).

(** The record [startRun] makes from [s], and the state it leaves. *)
Definition startedRun (s : State W) : LearningRun.t :=
  fst (fst (SelfLearning.startRun h
              (map LearningTopic.name
                 (SelfLearning.activeTopics (selfLearningStore s)))
              (selfLearningStore s) (world s))).

Definition started (s : State W) : State W :=
  let '(_, sl1, w1) :=
    SelfLearning.startRun h
      (map LearningTopic.name
         (SelfLearning.activeTopics (selfLearningStore s)))
      (selfLearningStore s) (world s) in
  mkState sl1 (memoryStore s) (webSearchStore s) (consciousnessStore s) w1.

(** The [try] block up to the end of the loop over the topics. *)
Definition loopBody (topicsToLearn : list LearningTopic.t) : M W Z :=
  bind get (fun s =>
  bind (call (getProviderInstance h
                (Consciousness.activeProvider (consciousnessStore s))))
    (fun chatProvider =>
       forEach (learnTopic h chatProvider) 0%Z topicsToLearn)).

Definition completed (run : LearningRun.t) (total : Z) (s : State W)
  : State W :=
  let (sl', w') := SelfLearning.completeRun h (LearningRun.id run) total
                     (selfLearningStore s) (world s) in
  mkState sl' (memoryStore s) (webSearchStore s) (consciousnessStore s) w'.

Definition failed (run : LearningRun.t) (e : JsError) (s : State W)
  : State W :=
  let (sl', w') := SelfLearning.failRun h (LearningRun.id run)
                     (errorMessage e) (selfLearningStore s) (world s) in
  mkState sl' (memoryStore s) (webSearchStore s) (consciousnessStore s) w'.
End Cut.

(** The three errors of the pre-flight checks. *)
Definition configurationError (e : JsError) : Prop :=
  e = ErrorObject "No active LLM provider configured"
  \/ e = ErrorObject webSearchError
  \/ e = ErrorObject "No learning topics configured".

(** Neither the provider nor the search ever fails. *)
Definition SearchNeverFails {W : Type} (h : Host W) : Prop :=
  (forall p w, exists c, fst (getProviderInstance h p w) = Returned c)
  /\ (forall q n w, exists r, fst (search h q n w) = Returned r).

(** The claim that nothing past the pre-flight checks is ever thrown and
    that every started run ends [done]. *)
Definition AbsorbsEveryFailure : Prop :=
  forall (W : Type) (h : Host W) (s : State W),
    ready s ->
    exists n,
      fst (runLearningLoop h s) = Returned n
      /\ option_map LearningRun.status
           (SelfLearning.latestRun
              (selfLearningStore (snd (runLearningLoop h s))))
         = Some done.

(* ===================================================================== *)
(** * Sample data *)
(* ===================================================================== *)

Module Sample.

Definition entryWith (content : string) : MemoryEntry.t :=
  MemoryEntry.mk "e" content [] self_learning (6 # 10) 0 0 0.

Definition storeOf (contents : list string) : Memory.Store :=
  Memory.mkStore true 10 (map entryWith contents).

Definition tokio : string :=
  "Tokio is the most widely used async runtime for Rust.".

Definition pythonStored : string :=
  "Python 3.13 removes the GIL in free-threaded builds".

Definition pythonCandidate : string :=
  "Python 3.13 removed GIL for free-threaded mode".

(** Three ranked entries: [entryA] and [entryB] tie on the confidence,
    [entryB] is the more recent. *)
Definition entryA : MemoryEntry.t :=
  MemoryEntry.mk "A" "fact a" [] manual (9 # 10) 0 1000 1000.
Definition entryB : MemoryEntry.t :=
  MemoryEntry.mk "B" "fact b" [] manual (9 # 10) 0 2000 2000.
Definition entryC : MemoryEntry.t :=
  MemoryEntry.mk "C" "fact c" [] manual (5 # 10) 0 3000 3000.

(** Two entries that tie on both keys, stored with the greater identifier
    first. *)
Definition tieFirst : MemoryEntry.t :=
  MemoryEntry.mk "b" "first stored" [] manual (8 # 10) 0 1000 1000.
Definition tieSecond : MemoryEntry.t :=
  MemoryEntry.mk "a" "second stored" [] manual (8 # 10) 0 1000 1000.
Definition tieStore : Memory.Store :=
  Memory.mkStore true 10 [tieFirst; tieSecond].

(** A host whose clock reads a given script, whatever it says. *)
Definition scriptedHost : Host (list Z) :=
  mkHost (list Z)
    (fun w => match w with t :: r => (t, r) | [] => (0%Z, []) end)
    (fun w => ("id", w))
    (fun p w => (Returned p, w))
    (fun _ _ w => (Returned [], w))
    (fun _ w => (Returned "", w))
    (fun _ _ _ w => (Returned None, w))
    (fun _ => Thrown (ErrorObject "Unexpected end of JSON input")).

(** The clock steps back by one second between the boost and the decay. *)
Definition steppedBack : list Z :=
  [1700000000000; 1700000001000; 1700000000000]%Z.

Definition boostThenDecay : list Memory.Op :=
  [ Memory.OpAdd "a fact" [] manual;
    Memory.OpBoost "id" (1 # 5);
    Memory.OpDecay Memory.defaultDecayRate Memory.defaultPruneBelow ].

(** Entries dated a number of weeks before [now]. *)
Definition aged (i : string) (confidence : Q) (now weeks : Z)
  : MemoryEntry.t :=
  MemoryEntry.mk i "a fact" [] manual confidence 0 0
    (now - weeks * Memory.oneWeekMs).

(** A host whose clock advances by one millisecond per reading. *)
Definition tickingHost : Host Z :=
  mkHost Z
    (fun w => (w, w + 1)%Z)
    (fun w => ("id", w))
    (fun p w => (Returned p, w))
    (fun _ _ w => (Returned [], w))
    (fun _ w => (Returned "", w))
    (fun _ _ _ w => (Returned None, w))
    (fun _ => Thrown (ErrorObject "Unexpected end of JSON input")).

(** A store under the schedule [sc], last run at [t]. *)
Definition scheduled (sc : LearningSchedule) (t : Z) : SelfLearning.Store :=
  SelfLearning.mkStore true sc [] [] (Some t) 2 true.

(** A store under the schedule [sc] that never ran. *)
Definition neverRun (sc : LearningSchedule) : SelfLearning.Store :=
  SelfLearning.mkStore true sc [] [] None 2 true.

(** ** The end-to-end scenario of the specification *)

Definition tokioJson : string := "[" ++ Js.quote ++ tokio ++ Js.quote ++ "]".

Fixpoint repeatChar (n : nat) (c : ascii) : string :=
  match n with
  | O => EmptyString
  | S k => String c (repeatChar k c)
  end.

(** A page of 300 characters. *)
Definition page300 : string := repeatChar 300 "x"%char.

(** The world of the stub: the clock and the queries searched so far. *)
Definition StubWorld : Type := (Z * list string)%type.

(** Stub collaborators: every search gives one result, except for the
    queries in [failing], where it throws; every page has 300 characters;
    the model always answers with the one insight.  The clock advances by
    one at each reading and each identifier drawn. *)
Definition stubHost (failing : string -> bool) : Host StubWorld :=
  mkHost StubWorld
    (fun w => (fst w, (fst w + 1, snd w))%Z)
    (fun w => ("id-" ++ NilZero.string_of_int (Z.to_int (fst w)),
               (fst w + 1, snd w))%Z)
    (fun p w => (Returned p, w))
    (fun q _ w =>
       (if failing q then Thrown (ErrorObject "fetch failed")
        else Returned [WebSearchResult.mk "A page" "https://a" ""],
        (fst w, (snd w ++ [q])%list)))
    (fun _ w => (Returned page300, w))
    (fun _ _ _ w => (Returned (Some tokioJson), w))
    (fun t => if String.eqb t tokioJson
              then Returned (JArray [JString tokio])
              else Thrown (ErrorObject "Unexpected token")).

(** Collaborators of which the search always answers, while the pages
    cannot be fetched ([fetchFails]), the model cannot be reached
    ([generateFails]) or answers something that is no JSON. *)
Definition faultyHost (fetchFails generateFails : bool) : Host StubWorld :=
  mkHost StubWorld
    (fun w => (fst w, (fst w + 1, snd w))%Z)
    (fun w => ("id-" ++ NilZero.string_of_int (Z.to_int (fst w)),
               (fst w + 1, snd w))%Z)
    (fun p w => (Returned p, w))
    (fun q _ w =>
       (Returned [WebSearchResult.mk "A page" "https://a" ""],
        (fst w, (snd w ++ [q])%list)))
    (fun _ w => (if fetchFails then Thrown (ErrorObject "timeout")
                 else Returned page300, w))
    (fun _ _ _ w => (if generateFails
                     then Thrown (ErrorObject "service unavailable")
                     else Returned (Some "[not json]"), w))
    (fun _ => Thrown (ErrorObject "Unexpected token")).

Definition reliable : string -> bool := fun _ => false.
Definition flaky : string -> bool := fun q => String.eqb q "Flaky topic".

Definition topic (name : string) : LearningTopic.t :=
  LearningTopic.mk ("topic-" ++ name) name "" true 0.

Definition stateWith (topics : list LearningTopic.t)
    (history : list LearningRun.t) : State StubWorld :=
  mkState
    (SelfLearning.mkStore true sched_manual topics history None 2 true)
    (Memory.mkStore true 10 [])
    (WebSearch.mkStore true duckduckgo "" "")
    (Consciousness.mkStore "openai" "gpt-4o")
    (1700000000000%Z, []).

Definition endToEnd : State StubWorld :=
  stateWith [topic "Rust async runtimes"] [].

(** Three topics, the second of which cannot be searched. *)
Definition threeTopics : State StubWorld :=
  stateWith
    [topic "Rust async runtimes"; topic "Flaky topic"; topic "Go schedulers"]
    [].

(** A run is in flight. *)
Definition inFlight : State StubWorld :=
  stateWith [topic "Rust async runtimes"]
    [LearningRun.mk "run-1" 1699999999000 None running
       ["Rust async runtimes"] 0 None].

End Sample.


(* ===================================================================== *)
(** * Around the stores: search results, context, feedback, forms *)
(* ===================================================================== *)

(** ** The results of the DuckDuckGo backend *)

Module DuckDuckGo.

Record RelatedTopic : Type := mkTopic {
  Text : option string;
  FirstURL : option string;
  Result : option string
}.

(** The answer of the Instant Answer API, as far as the code reads it. *)
Record Response : Type := mkResponse {
  AbstractText : option string;
  AbstractURL : option string;
  AbstractSource : option string;
  RelatedTopics : option (list RelatedTopic)
}.

(** An optional string is truthy when it is there and not empty. *)
Definition present (o : option string) : bool :=
  match o with
  | Some s => Js.truthy s
  | None => false
  end.

Definition orEmpty (o : option string) : string :=
  match o with Some s => s | None => EmptyString end.

(** The loop over the related topics: it stops once [limit] results are
    there, and skips the topics without a text or an address. *)
Fixpoint addRelated (limit : Z) (l : list RelatedTopic)
    (results : list WebSearchResult.t) : list WebSearchResult.t :=
  match l with
  | [] => results
  | t :: r =>
      if (limit <=? Z.of_nat (List.length results))%Z then results
      else if present (Text t) && present (FirstURL t)
      then addRelated limit r
             (results ++ [WebSearchResult.mk (Js.sliceTo 80 (orEmpty (Text t)))
                            (orEmpty (FirstURL t)) (orEmpty (Text t))])%list
      else addRelated limit r results
  end.

(** What [searchDuckDuckGo(query, limit)] makes of the answer [data]. *)
Definition results (data : Response) (limit : Z) : list WebSearchResult.t :=
  let abstract :=
    if present (AbstractText data) && present (AbstractURL data)
    then [WebSearchResult.mk
            (match AbstractSource data with
             | Some s => s
             | None => "DuckDuckGo"
             end)
            (orEmpty (AbstractURL data)) (orEmpty (AbstractText data))]
    else [] in
  Js.slice0 limit
    (addRelated limit
       (match RelatedTopics data with Some l => l | None => [] end)
       abstract).

End DuckDuckGo.

(** ** The context message of the long-term memory *)

(** [ContextUpdateStrategy] of the server SDK: ['replace-self'] and
    ['append-self']. *)
Inductive ContextUpdateStrategy : Type := ReplaceSelf | AppendSelf.

Module ContextMessage.
Record t : Type := mk {
  id : string;
  contextId : string;
  strategy : ContextUpdateStrategy;
  text : string;
  createdAt : Z
}.
End ContextMessage.

Definition LONG_TERM_MEMORY_CONTEXT_ID : string := "system:long-term-memory".

(** One numbered line: the content and, when there are tags, the tags in
    brackets. *)
Definition memoryLine (index : nat) (entry : MemoryEntry.t) : string :=
  let tagsNote :=
    if (0 <? List.length (MemoryEntry.tags entry))%nat
    then " [" ++ Js.join ", " (MemoryEntry.tags entry) ++ "]"
    else "" in
  Js.decimal (Z.of_nat index + 1) ++ ". " ++ MemoryEntry.content entry
  ++ tagsNote.

Fixpoint memoryLines (index : nat) (l : list MemoryEntry.t) : list string :=
  match l with
  | [] => []
  | e :: r => memoryLine index e :: memoryLines (S index) r
  end.

(** [createLongTermMemoryContext()]: [None] is [null]. *)
Definition createLongTermMemoryContext {W : Type} (h : Host W)
    (m : Memory.Store) (w : W) : option ContextMessage.t * W :=
  let entries := Memory.getEntriesForContext m in
  if (List.length entries =? 0)%nat then (None, w)
  else
    let memoriesText := Js.join Js.newline (memoryLines 0 entries) in
    let (newId, w1) := nanoid h w in
    let (now, w2) := Date_now h w1 in
    (Some (ContextMessage.mk newId LONG_TERM_MEMORY_CONTEXT_ID ReplaceSelf
             ("Long-term memories about the user (always keep these in mind):"
              ++ Js.newline ++ memoriesText)
             now),
     w2).

(** ** Feedback on a response *)

Inductive Feedback : Type := up | down.

Definition Feedback_eqb (a b : Feedback) : bool :=
  match a, b with
  | up, up | down, down => true
  | _, _ => false
  end.

Definition feedbackDelta (value : Feedback) : Q :=
  match value with up => 5 # 100 | down => - (5 # 100) end.

(** [recentEntries.forEach(entry => memoryStore.boostConfidence(entry.id,
    delta))] *)
Fixpoint boostAll {W : Type} (h : Host W) (delta : Q)
    (recent : list MemoryEntry.t) (m : Memory.Store) (w : W)
  : Memory.Store * W :=
  match recent with
  | [] => (m, w)
  | entry :: r =>
      let (m', w') := Memory.boostConfidence h (MemoryEntry.id entry) delta m w
      in boostAll h delta r m' w'
  end.

(** [giveFeedback(value)] on the feedback shown for a response. *)
Definition giveFeedback {W : Type} (h : Host W) (value : Feedback)
    (feedback : option Feedback) (m : Memory.Store) (w : W)
  : option Feedback * Memory.Store * W :=
  if match feedback with
     | Some f => Feedback_eqb f value
     | None => false
     end
  then (None, m, w)
  else
    let recentEntries := Js.slice0 5 (Memory.sortedEntries m) in
    let (m', w') := boostAll h (feedbackDelta value) recentEntries m w in
    (Some value, m', w').

(** ** The reader tool *)

(** [execute({ url, maxLength })] of [web_read_page]. *)
Definition webReadPage {W : Type} (h : Host W) (url : string)
    (maxLength : option Z) (w : W) : string * W :=
  match ofetch h ("https://r.jina.ai/" ++ url) w with
  | (Returned content, w') =>
      let limit :=
        Z.min (match maxLength with Some n => n | None => 8000%Z end) 12000 in
      (if (limit <? Z.of_nat (String.length content))%Z
       then Js.sliceTo limit content ++ Js.newline ++ Js.newline
            ++ "[Content truncated " ++ Js.enDash ++ " "
            ++ Js.decimal (Z.of_nat (String.length content) - limit)
            ++ " more characters]"
       else content,
       w')
  | (Thrown err, w') => ("Failed to read page: " ++ errorMessage err, w')
  end.

(** ** The forms of the settings pages *)

(** [addTopic()] of the self-learning page: the two input fields, the
    store. *)
Definition submitTopic {W : Type} (h : Host W)
    (newTopicName newTopicHint : string) (s : SelfLearning.Store) (w : W)
  : string * string * SelfLearning.Store * W :=
  let name := Js.trim newTopicName in
  if negb (Js.truthy name) then (newTopicName, newTopicHint, s, w)
  else
    let '(_, s', w') :=
      SelfLearning.addTopic h name (Js.trim newTopicHint) s w in
    (EmptyString, EmptyString, s', w').



(** ** More predicates *)

(** [s] has no white space at either end. *)
Definition trimmed (s : string) : Prop := Js.trim s = s.

(** What the loop saves: a self-learning entry at its seed, never used,
    tagged with a topic and ["self-learning"], with a content that is
    trimmed and not empty. *)
Definition selfLearned (e : MemoryEntry.t) : Prop :=
  MemoryEntry.source e = self_learning
  /\ MemoryEntry.confidence e = 6 # 10
  /\ MemoryEntry.useCount e = 0%Z
  /\ MemoryEntry.createdAt e = MemoryEntry.updatedAt e
  /\ (exists name, MemoryEntry.tags e = [name; "self-learning"])
  /\ trimmed (MemoryEntry.content e)
  /\ MemoryEntry.content e <> EmptyString.

(** [s'] holds the memory of [s] with [added] appended. *)
Definition AddedTo {W : Type} (s s' : State W) (added : list MemoryEntry.t)
  : Prop :=
  memoryStore s'
  = Memory.setEntries (Memory.entries (memoryStore s) ++ added)
      (memoryStore s).

(** The computation leaves the memory alone. *)
Definition KeepsMemory {W A : Type} (c : M W A) : Prop :=
  forall s, memoryStore (snd (c s)) = memoryStore s.

(** ** Where a run fails *)

(** [s] with the world [w]. *)
Definition withWorld {W : Type} (s : State W) (w : W) : State W :=
  mkState (selfLearningStore s) (memoryStore s) (webSearchStore s)
    (consciousnessStore s) w.

(** [topic.hint ? `${topic.name} ${topic.hint}` : topic.name] *)
Definition topicQuery (topic : LearningTopic.t) : string :=
  if Js.truthy (LearningTopic.hint topic)
  then LearningTopic.name topic ++ " " ++ LearningTopic.hint topic
  else LearningTopic.name topic.

(** The call of [getProviderInstance] that opens the [try] block of a run
    started from [s]. *)
Definition providerCall {W : Type} (h : Host W) (s : State W)
  : Outcome ChatProvider * W :=
  getProviderInstance h (Consciousness.activeProvider (consciousnessStore s))
    (world (started h s)).

(** In the run started from [s] the provider is obtained, the topics
    [learnt] are gone through, saving [saved] insights and leaving the state
    [s1], and then the search for the next topic [t] throws [e], leaving
    the world [w']. *)
Definition SearchFailsAt {W : Type} (h : Host W) (s : State W)
    (learnt : list LearningTopic.t) (t : LearningTopic.t) (saved : Z)
    (s1 : State W) (e : JsError) (w' : W) : Prop :=
  exists chatProvider wp rest,
    providerCall h s = (Returned chatProvider, wp)
    /\ SelfLearning.activeTopics (selfLearningStore s)
       = (learnt ++ t :: rest)%list
    /\ forEach (learnTopic h chatProvider) 0%Z learnt
         (withWorld (started h s) wp) = (Returned saved, s1)
    /\ search h (topicQuery t) 4 (world s1) = (Thrown e, w').
(* ===================================================================== *)
(** * Rounding to the nearest double *)
(* ===================================================================== *)

Section Rounding.
Local Open Scope Z_scope.

Lemma nearestEven_Nearest (a b : Z) :
  0 < b -> Nearest a b (Js.nearestEven a b).
Proof.
  intros Hb. unfold Js.nearestEven, Nearest.
  pose proof (Z.div_mod a b ltac:(lia)) as Hdm.
  pose proof (Z.mod_pos_bound a b Hb) as Hr.
  set (q := a / b) in *. set (r := a mod b) in *.
  destruct (Z.compare_spec (2 * r) b) as [E | L | G].
  - destruct (Z.even q) eqn:Ev.
    + repeat split; try nia. intros _. exact Ev.
    + repeat split; try nia. intros _.
      rewrite Z.even_add, Ev. reflexivity.
  - repeat split; nia.
  - repeat split; nia.
Qed.

Lemma Nearest_le (a b m a' b' m' : Z) :
  0 < b -> 0 < b' -> Nearest a b m -> Nearest a' b' m' ->
  a * b' <= a' * b -> m <= m'.
Proof.
  intros Hb Hb' (L & _ & _ & TL) (_ & U' & TU' & _) Hle.
  destruct (Z_le_gt_dec m m') as [|Hgt]; [assumption|exfalso].
  assert (H1 : (2 * m - 1) * b * b' <= 2 * a * b') by nia.
  assert (H2 : 2 * a' * b <= (2 * m' + 1) * b' * b) by nia.
  assert (H3 : (2 * m' + 1) * (b' * b) <= (2 * m - 1) * (b * b')) by nia.
  assert (Em : m = m' + 1) by nia.
  assert (Ea : 2 * a = (2 * m - 1) * b) by nia.
  assert (Ea' : 2 * a' = (2 * m' + 1) * b') by nia.
  specialize (TL Ea). specialize (TU' Ea').
  subst m. rewrite Z.even_add, TU' in TL. discriminate.
Qed.

Lemma Nearest_unique (a b m m' : Z) :
  0 < b -> Nearest a b m -> Nearest a b m' -> m = m'.
Proof.
  intros Hb H H'.
  pose proof (Nearest_le a b m a b m' Hb Hb H H' ltac:(lia)).
  pose proof (Nearest_le a b m' a b m Hb Hb H' H ltac:(lia)).
  lia.
Qed.

Lemma nearestEven_le (a b a' b' : Z) :
  0 < b -> 0 < b' -> a * b' <= a' * b ->
  Js.nearestEven a b <= Js.nearestEven a' b'.
Proof.
  intros Hb Hb' H.
  apply (Nearest_le a b _ a' b'); auto using nearestEven_Nearest.
Qed.

Lemma nearestEven_opp (a b : Z) :
  0 < b -> Js.nearestEven (- a) b = - Js.nearestEven a b.
Proof.
  intros Hb. apply (Nearest_unique (- a) b); [exact Hb | |].
  - apply nearestEven_Nearest, Hb.
  - destruct (nearestEven_Nearest a b Hb) as (L & U & TU & TL).
    unfold Nearest. rewrite Z.even_opp.
    repeat split; try lia; intros E; [apply TL | apply TU]; lia.
Qed.

Lemma nearestEven_upper (a b k : Z) :
  0 < b -> a <= k * b -> Js.nearestEven a b <= k.
Proof.
  intros Hb H. destruct (nearestEven_Nearest a b Hb) as (L & _).
  nia.
Qed.

Lemma nearestEven_lower (a b k : Z) :
  0 < b -> k * b <= a -> k <= Js.nearestEven a b.
Proof.
  intros Hb H. destruct (nearestEven_Nearest a b Hb) as (_ & U & _).
  nia.
Qed.

Lemma quantum_pos (a b : Z) : 0 < Js.quantum a b.
Proof. unfold Js.quantum. apply Z.pow_pos_nonneg; lia. Qed.

Lemma div_le_cross (a b a' b' : Z) :
  0 < b -> 0 < b' -> a * b' <= a' * b -> a / b <= a' / b'.
Proof.
  intros Hb Hb' H. apply Z.div_le_lower_bound; [exact Hb'|].
  pose proof (Z.mul_div_le a b Hb). nia.
Qed.

(** Rounding is monotone on the non-negative fractions. *)
Lemma roundTo53_le_nonneg (a b a' b' : Z) :
  0 < b -> 0 < b' -> 0 <= a -> a * b' <= a' * b ->
  Js.roundTo53 a b <= Js.roundTo53 a' b'.
Proof.
  intros Hb Hb' Ha H.
  assert (Ha' : 0 <= a') by nia.
  unfold Js.roundTo53. rewrite !Z.abs_eq by assumption.
  unfold Js.quantum.
  pose proof (div_le_cross a b a' b' Hb Hb' H) as Hf.
  assert (Hf0 : 0 <= a / b) by (apply Z.div_pos; lia).
  set (f := a / b) in *. set (f' := a' / b') in *.
  pose proof (Z.log2_le_mono f f' Hf) as Hk.
  pose proof (Z.log2_nonneg f) as Hk0.
  set (k := Z.log2 f) in *. set (k' := Z.log2 f') in *.
  set (q := Z.max 0 (k - 52)). set (q' := Z.max 0 (k' - 52)).
  assert (Hq0 : 0 <= q) by lia. assert (Hqq : q <= q') by lia.
  assert (Hu : 0 < 2 ^ q) by (apply Z.pow_pos_nonneg; lia).
  assert (Hu' : 0 < 2 ^ q') by (apply Z.pow_pos_nonneg; lia).
  destruct (Z.eq_dec q q') as [E | N].
  - rewrite <- E. apply Z.mul_le_mono_nonneg_r; [lia|].
    apply nearestEven_le; nia.
  - assert (Hlt : q + 1 <= q') by lia.
    (* the smaller one stays below 2^(q+53) *)
    assert (Hf1 : f < 2 ^ (q + 53)).
    { destruct (Z.eq_dec f 0) as [-> | Hn].
      - apply Z.pow_pos_nonneg; lia.
      - pose proof (Z.log2_spec f ltac:(lia)) as [_ Hs]. fold k in Hs.
        eapply Z.lt_le_trans; [exact Hs|].
        apply Z.pow_le_mono_r; lia. }
    assert (Ha1 : a < 2 ^ (q + 53) * b).
    { pose proof (Z.div_mod a b ltac:(lia)) as Hdm.
      pose proof (Z.mod_pos_bound a b Hb) as Hr. fold f in Hdm. nia. }
    assert (Hp : 2 ^ (q + 53) = 2 ^ 53 * 2 ^ q).
    { rewrite Z.add_comm. apply Z.pow_add_r; lia. }
    assert (Hm : Js.nearestEven a (b * 2 ^ q) <= 2 ^ 53).
    { apply nearestEven_upper; nia. }
    (* the larger one reaches 2^(q'+52) *)
    assert (Hk' : q' = k' - 52) by lia.
    assert (Hfp : 0 < f').
    { destruct (Z.eq_dec f' 0) as [E0 | Hn]; [|lia].
      exfalso. subst k'. rewrite E0 in Hk'. cbn in Hk'. lia. }
    pose proof (Z.log2_spec f' Hfp) as [Hs' _]. fold k' in Hs'.
    assert (Hp' : 2 ^ k' = 2 ^ 52 * 2 ^ q').
    { replace k' with (52 + q') by lia. apply Z.pow_add_r; lia. }
    assert (Ha1' : 2 ^ 52 * (b' * 2 ^ q') <= a').
    { pose proof (Z.mul_div_le a' b' Hb'). fold f' in H0. nia. }
    assert (Hm' : 2 ^ 52 <= Js.nearestEven a' (b' * 2 ^ q')).
    { apply nearestEven_lower; nia. }
    assert (Hpp : 2 ^ 53 * 2 ^ q <= 2 ^ 52 * 2 ^ q').
    { replace q' with ((q' - q - 1) + (1 + q)) by lia.
      rewrite Z.pow_add_r by lia. rewrite (Z.pow_add_r 2 1 q) by lia.
      assert (0 < 2 ^ (q' - q - 1)) by (apply Z.pow_pos_nonneg; lia).
      change (2 ^ 53) with (2 ^ 52 * 2). change (2 ^ 1) with 2. nia. }
    transitivity (2 ^ 53 * 2 ^ q); [nia|].
    transitivity (2 ^ 52 * 2 ^ q'); [exact Hpp | nia].
Qed.

Lemma roundTo53_opp (a b : Z) :
  0 < b -> Js.roundTo53 (- a) b = - Js.roundTo53 a b.
Proof.
  intros Hb. unfold Js.roundTo53. rewrite Z.abs_opp.
  rewrite nearestEven_opp; [lia|].
  pose proof (quantum_pos (Z.abs a) b). nia.
Qed.

Lemma roundTo53_nonneg (a b : Z) : 0 < b -> 0 <= a -> 0 <= Js.roundTo53 a b.
Proof.
  intros Hb Ha. unfold Js.roundTo53.
  pose proof (quantum_pos (Z.abs a) b) as Hu.
  apply Z.mul_nonneg_nonneg; [|lia].
  apply nearestEven_lower; nia.
Qed.

Lemma roundTo53_le (a b a' b' : Z) :
  0 < b -> 0 < b' -> a * b' <= a' * b ->
  Js.roundTo53 a b <= Js.roundTo53 a' b'.
Proof.
  intros Hb Hb' H.
  destruct (Z_le_gt_dec 0 a) as [Ha | Ha].
  - apply roundTo53_le_nonneg; assumption.
  - destruct (Z_le_gt_dec 0 a') as [Ha' | Ha'].
    + pose proof (roundTo53_nonneg a' b' Hb' Ha').
      pose proof (roundTo53_nonneg (- a) b Hb ltac:(lia)) as Hn.
      rewrite roundTo53_opp in Hn by assumption. lia.
    + pose proof (roundTo53_le_nonneg (- a') b' (- a) b Hb' Hb
                    ltac:(lia) ltac:(nia)) as Hn.
      rewrite !roundTo53_opp in Hn by assumption. lia.
Qed.

Local Open Scope Q_scope.

(** Rounding to the nearest double is monotone. *)
Lemma double_le (x y : Q) : x <= y -> Js.double x <= Js.double y.
Proof.
  intros H. unfold Js.double, Qle. cbn [Qnum Qden].
  apply Z.mul_le_mono_nonneg_r; [lia|].
  apply roundTo53_le; try reflexivity.
  unfold Qle in H. nia.
Qed.

Lemma double_eq (x y : Q) : x == y -> Js.double x = Js.double y.
Proof.
  intros H. unfold Js.double. f_equal.
  apply Z.le_antisymm; apply roundTo53_le; try reflexivity;
    unfold Qeq in H; nia.
Qed.

Lemma double_0 : Js.double 0 = 0 # (2 ^ 1074).
Proof. reflexivity. Qed.

Lemma double_nonneg (x : Q) : 0 <= x -> 0 <= Js.double x.
Proof.
  intros H. apply double_le in H. rewrite double_0 in H.
  unfold Qle in *. cbn [Qnum Qden] in *. lia.
Qed.

Lemma double_nonpos (x : Q) : x <= 0 -> Js.double x <= 0.
Proof.
  intros H. apply double_le in H. rewrite double_0 in H.
  unfold Qle in *. cbn [Qnum Qden] in *. lia.
Qed.


Lemma double_1 : Js.double 1 == 1.
Proof. reflexivity. Qed.

(** Rounding never crosses a double. *)
Lemma double_le_double (x c : Q) :
  Js.isDouble c -> x <= c -> Js.double x <= c.
Proof.
  intros Hc H. unfold Js.isDouble in Hc. rewrite <- Hc. apply double_le, H.
Qed.

Lemma double_ge_double (x c : Q) :
  Js.isDouble c -> c <= x -> c <= Js.double x.
Proof.
  intros Hc H. unfold Js.isDouble in Hc. rewrite <- Hc. apply double_le, H.
Qed.

End Rounding.
(* ===================================================================== *)
(** * Properties of the deduplication filter *)
(* ===================================================================== *)

Section Dedup.

Lemma splitFrom_nonempty (b : bool) (s : string) : Js.splitFrom b s <> [].
Proof.
  revert b; induction s as [|c r IH]; intros b; simpl.
  - discriminate.
  - destruct (Js.isSpace c).
    + destruct b; [apply IH | discriminate].
    + destruct (Js.splitFrom false r); discriminate.
Qed.

Lemma splitWhitespace_length (s : string) :
  (1 <= List.length (Js.splitWhitespace s))%nat.
Proof.
  unfold Js.splitWhitespace.
  pose proof (splitFrom_nonempty false s) as H.
  destruct (Js.splitFrom false s); [congruence | simpl; lia].
Qed.

Lemma filter_length_le {A : Type} (f : A -> bool) (l : list A) :
  (List.length (filter f l) <= List.length l)%nat.
Proof.
  induction l as [|x l IH]; simpl; [lia|].
  destruct (f x); simpl; lia.
Qed.

Lemma filter_filter_andb {A : Type} (f g : A -> bool) (l : list A) :
  filter g (filter f l) = filter (fun x => f x && g x) l.
Proof.
  induction l as [|x l IH]; simpl; [reflexivity|].
  destruct (f x); simpl; [destruct (g x)|]; rewrite IH; reflexivity.
Qed.

(** The words the code counts are the significant words found in the
    content: the two filters share their numerator. *)
Lemma matchedWords_significant (e lower : string) :
  matchedWords e (Js.splitWhitespace lower)
  = filter (Js.includes e) (significantWords lower).
Proof.
  unfold matchedWords, significantWords.
  rewrite filter_filter_andb. reflexivity.
Qed.

Lemma filter_Subsequence {A : Type} (f : A -> bool) (l : list A) :
  Subsequence (filter f l) l.
Proof.
  induction l as [|x l IH]; simpl.
  - constructor.
  - destruct (f x); constructor; exact IH.
Qed.

(** The survivors are a subsequence of the candidates, in input order. *)
Lemma deduplicateInsights_Subsequence (m : Memory.Store) (l : list string) :
  Subsequence (deduplicateInsights m l) l.
Proof. apply filter_Subsequence. Qed.

(** What the code computes: a candidate is rejected exactly when, for some
    existing content, the matched significant words reach 60% of ALL its
    white-space separated pieces. *)
Lemma isDuplicateOf_iff (existing : list string) (insight : string) :
  isDuplicateOf existing insight = true <->
  exists e, In e existing /\
    let lower := Js.toLowerCase insight in
    (3 * List.length (Js.splitWhitespace lower)
     <= 5 * List.length (filter (Js.includes e) (significantWords lower)))%nat.
Proof.
  unfold isDuplicateOf. rewrite existsb_exists.
  split; intros [e [He H]]; exists e; split; try exact He.
  - rewrite matchedWords_significant in H.
    apply Nat.leb_le in H. exact H.
  - rewrite matchedWords_significant.
    apply Nat.leb_le. exact H.
Qed.

(** A candidate without a significant word is never rejected. *)
Lemma no_significant_word_kept (existing : list string) (insight : string) :
  significantWords (Js.toLowerCase insight) = [] ->
  isDuplicateOf existing insight = false.
Proof.
  intros Hsig.
  destruct (isDuplicateOf existing insight) eqn:E; [|reflexivity].
  apply isDuplicateOf_iff in E. destruct E as [e [_ H]].
  cbv zeta in H. rewrite Hsig in H. simpl in H.
  pose proof (splitWhitespace_length (Js.toLowerCase insight)). lia.
Qed.

(** The code rejects no more than the specification's rule does. *)
Lemma isDuplicateOf_asSpecified (m : Memory.Store) (insight : string) :
  isDuplicateOf
    (map (fun e => Js.toLowerCase (MemoryEntry.content e)) (Memory.entries m))
    insight = true ->
  isDuplicateAsSpecified (map MemoryEntry.content (Memory.entries m)) insight
  = true.
Proof.
  intros H. apply isDuplicateOf_iff in H. destruct H as [e [He H]].
  cbv zeta in H.
  unfold isDuplicateAsSpecified.
  set (sig := significantWords (Js.toLowerCase insight)) in *.
  pose proof (splitWhitespace_length (Js.toLowerCase insight)) as Hw.
  pose proof (filter_length_le (Js.includes e) sig) as Hm.
  pose proof (filter_length_le (fun w => (4 <? String.length w)%nat)
                (Js.splitWhitespace (Js.toLowerCase insight))) as Hs.
  fold (significantWords (Js.toLowerCase insight)) in Hs. fold sig in Hs.
  apply andb_true_intro; split.
  - apply negb_true_iff, Nat.eqb_neq. lia.
  - apply existsb_exists. exists e. split.
    + rewrite map_map. exact He.
    + apply Nat.leb_le. lia.
Qed.

End Dedup.

(** C1.  The filter does not compute the fraction the specification states:
    it divides the matched significant words by the number of ALL pieces of
    the candidate.  A fact already stored word for word is therefore kept a
    second time (5 significant words out of 10 pieces), where the rule of
    the specification rejects it (5 of 5); and the specification's own
    example is kept as well (2 of 7 pieces, against 2 of 3 significant
    words). *)
Theorem deduplicateInsights_keeps_stored_fact :
  deduplicateInsights (Sample.storeOf [Sample.tokio]) [Sample.tokio]
    = [Sample.tokio]
  /\ dedupeAsSpecified [Sample.tokio] [Sample.tokio] = []
  /\ deduplicateInsights (Sample.storeOf [Sample.pythonStored])
       [Sample.pythonCandidate] = [Sample.pythonCandidate]
  /\ dedupeAsSpecified [Sample.pythonStored] [Sample.pythonCandidate] = [].
Proof. repeat split; vm_compute; reflexivity. Qed.

(* ===================================================================== *)
(** * Properties of the stable sort *)
(* ===================================================================== *)

Section SortFacts.
Context {A : Type} (cmp : A -> A -> Q).

Let before (x y : A) : Prop := cmp x y <= 0.

Hypothesis before_total : forall x y, 0 < cmp x y -> before y x.
Hypothesis before_trans :
  forall x y z, before x y -> before y z -> before x z.

Lemma insertSorted_Permutation (x : A) (l : list A) :
  Permutation (Memory.insertSorted cmp x l) (x :: l).
Proof.
  induction l as [|y r IH]; simpl.
  - apply Permutation_refl.
  - destruct (Qlt_le_dec 0 (cmp x y)).
    + eapply perm_trans; [apply perm_skip, IH | apply perm_swap].
    + apply Permutation_refl.
Qed.

Lemma sortBy_Permutation (l : list A) :
  Permutation (Memory.sortBy cmp l) l.
Proof.
  induction l as [|x l IH]; simpl.
  - constructor.
  - eapply perm_trans; [apply insertSorted_Permutation|].
    apply perm_skip, IH.
Qed.

Lemma insertSorted_In (x y : A) (l : list A) :
  In y (Memory.insertSorted cmp x l) -> y = x \/ In y l.
Proof.
  intros H.
  apply (Permutation_in _ (insertSorted_Permutation x l)) in H.
  destruct H as [H|H]; [left; symmetry; exact H | right; exact H].
Qed.

Lemma insertSorted_StronglySorted (x : A) (l : list A) :
  StronglySorted before l ->
  StronglySorted before (Memory.insertSorted cmp x l).
Proof.
  induction 1 as [|y r Hr IH Hy]; simpl.
  - constructor; constructor.
  - destruct (Qlt_le_dec 0 (cmp x y)) as [Hlt|Hle].
    + constructor; [exact IH|].
      apply Forall_forall. intros z Hz.
      apply insertSorted_In in Hz. destruct Hz as [->|Hz].
      * apply before_total, Hlt.
      * rewrite Forall_forall in Hy. apply Hy, Hz.
    + constructor; [constructor; assumption|].
      constructor; [exact Hle|].
      apply Forall_forall. intros z Hz.
      rewrite Forall_forall in Hy.
      apply before_trans with y; [exact Hle | apply Hy, Hz].
Qed.

Lemma sortBy_StronglySorted (l : list A) :
  StronglySorted before (Memory.sortBy cmp l).
Proof.
  induction l as [|x l IH]; simpl.
  - constructor.
  - apply insertSorted_StronglySorted, IH.
Qed.

(** Stability: elements the comparator does not separate are never moved
    past each other. *)
Variable same : A -> A -> bool.
Hypothesis same_not_apart :
  forall k x y, same k x = true -> same k y = true -> cmp x y <= 0.

Lemma insertSorted_filter_same (k x : A) (l : list A) :
  filter (same k) (Memory.insertSorted cmp x l)
  = filter (same k) (x :: l).
Proof.
  induction l as [|y r IH]; [reflexivity|].
  cbn [Memory.insertSorted].
  destruct (Qlt_le_dec 0 (cmp x y)) as [Hlt|Hle]; [|reflexivity].
  cbn [filter] in *. rewrite IH.
  destruct (same k x) eqn:Ex, (same k y) eqn:Ey; try reflexivity.
  exfalso. pose proof (same_not_apart k x y Ex Ey). lra.
Qed.

Lemma sortBy_filter_same (k : A) (l : list A) :
  filter (same k) (Memory.sortBy cmp l) = filter (same k) l.
Proof.
  induction l as [|x l IH]; [reflexivity|].
  cbn [Memory.sortBy fold_right].
  rewrite insertSorted_filter_same.
  cbn [filter]. fold (Memory.sortBy cmp l). rewrite IH. reflexivity.
Qed.
End SortFacts.

(* ===================================================================== *)
(** * Properties of the memory store *)
(* ===================================================================== *)

Section MemoryFacts.

Lemma inject_Z_nonpos (z : Z) : inject_Z z <= 0 <-> (z <= 0)%Z.
Proof.
  change 0 with (inject_Z 0). rewrite <- Zle_Qle. reflexivity.
Qed.

(** The comparator puts [a] no later than [b] exactly when [a] ranks before
    [b]. *)
Lemma compareEntries_ranksBefore (a b : MemoryEntry.t) :
  Memory.compareEntries a b <= 0 <-> Memory.ranksBefore a b.
Proof.
  unfold Memory.compareEntries, Memory.ranksBefore.
  destruct (Qeq_bool (MemoryEntry.confidence b) (MemoryEntry.confidence a))
    eqn:E; cbn [negb].
  - apply Qeq_bool_iff in E. rewrite inject_Z_nonpos. split.
    + intros H. right. split; [symmetry; exact E | lia].
    + intros [H|[_ H]]; [lra | lia].
  - apply Qeq_bool_neq in E. split.
    + intros H. left. apply Qle_lt_or_eq in H as [H|H]; [lra|].
      exfalso. apply E. lra.
    + intros [H|[H _]]; [lra|]. exfalso. apply E. symmetry. exact H.
Qed.

Lemma ranksBefore_total (a b : MemoryEntry.t) :
  0 < Memory.compareEntries a b -> Memory.compareEntries b a <= 0.
Proof.
  intros H. apply compareEntries_ranksBefore.
  assert (Hn : ~ Memory.ranksBefore a b).
  { intros Hr. apply compareEntries_ranksBefore in Hr. lra. }
  unfold Memory.ranksBefore in *.
  destruct (Qlt_le_dec (MemoryEntry.confidence a) (MemoryEntry.confidence b))
    as [Hlt|Hle]; [left; exact Hlt|].
  apply Qle_lt_or_eq in Hle as [Hlt|Heq].
  - exfalso. apply Hn. left. exact Hlt.
  - right. split; [exact Heq|].
    destruct (Z_le_gt_dec (MemoryEntry.updatedAt a) (MemoryEntry.updatedAt b))
      as [Hz|Hz]; [exact Hz|].
    exfalso. apply Hn. right. split; [symmetry; exact Heq | lia].
Qed.

Lemma ranksBefore_trans (a b c : MemoryEntry.t) :
  Memory.compareEntries a b <= 0 -> Memory.compareEntries b c <= 0 ->
  Memory.compareEntries a c <= 0.
Proof.
  rewrite !compareEntries_ranksBefore. unfold Memory.ranksBefore.
  intros [H1|[H1 H1']] [H2|[H2 H2']].
  - left. lra.
  - left. lra.
  - left. lra.
  - right. split; [lra | lia].
Qed.

Lemma sameRank_not_apart (k x y : MemoryEntry.t) :
  Memory.sameRank k x = true -> Memory.sameRank k y = true ->
  Memory.compareEntries x y <= 0.
Proof.
  unfold Memory.sameRank. intros Hx Hy.
  apply andb_prop in Hx as [Hx Hx'], Hy as [Hy Hy'].
  apply Qeq_bool_iff in Hx, Hy. apply Z.eqb_eq in Hx', Hy'.
  apply compareEntries_ranksBefore. right. split; [lra | lia].
Qed.

Lemma StronglySorted_impl {A : Type} (R S : A -> A -> Prop) (l : list A) :
  (forall x y, R x y -> S x y) -> StronglySorted R l -> StronglySorted S l.
Proof.
  intros HRS. induction 1 as [|x l Hl IH Hx]; constructor.
  - exact IH.
  - eapply Forall_impl; [|exact Hx]. intros y. apply HRS.
Qed.

Lemma sortedEntries_ranked (m : Memory.Store) :
  StronglySorted Memory.ranksBefore (Memory.sortedEntries m).
Proof.
  apply StronglySorted_impl
    with (R := fun x y => Memory.compareEntries x y <= 0).
  - intros x y. apply compareEntries_ranksBefore.
  - apply sortBy_StronglySorted.
    + apply ranksBefore_total.
    + apply ranksBefore_trans.
Qed.

(** The example of the specification in general: whatever [A], [B] and [C]
    hold besides, and in whatever order they are stored, a tie on the
    confidence is settled by the later update. *)
Lemma ranking_example (a b c : MemoryEntry.t) :
  MemoryEntry.confidence a == 9 # 10 ->
  MemoryEntry.confidence b == 9 # 10 ->
  MemoryEntry.confidence c == 5 # 10 ->
  (MemoryEntry.updatedAt a < MemoryEntry.updatedAt b)%Z ->
  forall l, Permutation l [a; b; c] ->
  Memory.sortBy Memory.compareEntries l = [b; a; c].
Proof.
  intros Ha Hb Hc Hab l Hl.
  assert (Hba : 0 < Memory.compareEntries a b).
  { unfold Memory.compareEntries.
    destruct (Qeq_bool _ _) eqn:E; cbn [negb].
    - change 0 with (inject_Z 0). rewrite <- Zlt_Qlt. lia.
    - apply Qeq_bool_neq in E. exfalso. apply E. lra. }
  assert (Hab' : Memory.compareEntries b a <= 0).
  { apply ranksBefore_total, Hba. }
  assert (Hca : 0 < Memory.compareEntries c a).
  { unfold Memory.compareEntries.
    destruct (Qeq_bool _ _) eqn:E; cbn [negb].
    - apply Qeq_bool_iff in E. lra.
    - lra. }
  assert (Hcb : 0 < Memory.compareEntries c b).
  { unfold Memory.compareEntries.
    destruct (Qeq_bool _ _) eqn:E; cbn [negb].
    - apply Qeq_bool_iff in E. lra.
    - lra. }
  assert (Hac : Memory.compareEntries a c <= 0).
  { apply ranksBefore_total, Hca. }
  assert (Hbc : Memory.compareEntries b c <= 0).
  { apply ranksBefore_total, Hcb. }
  assert (Hcases : l = [a; b; c] \/ l = [a; c; b] \/ l = [b; a; c]
                   \/ l = [b; c; a] \/ l = [c; a; b] \/ l = [c; b; a]).
  { pose proof (Permutation_length Hl) as Hlen.
    destruct l as [|x [|y [|z [|? ?]]]]; try discriminate.
    assert (Hx : In x [a; b; c]) by (apply (Permutation_in _ Hl); simpl; auto).
    assert (Hy : In y [a; b; c])
      by (apply (Permutation_in _ Hl); simpl; auto).
    assert (Hz : In z [a; b; c])
      by (apply (Permutation_in _ Hl); simpl; auto).
    assert (Ia : In a [x; y; z])
      by (apply (Permutation_in _ (Permutation_sym Hl)); simpl; auto).
    assert (Ib : In b [x; y; z])
      by (apply (Permutation_in _ (Permutation_sym Hl)); simpl; auto).
    assert (Ic : In c [x; y; z])
      by (apply (Permutation_in _ (Permutation_sym Hl)); simpl; auto).
    assert (Nab : a <> b) by (intros ->; lia).
    assert (Nac : a <> c) by (intros ->; lra).
    assert (Nbc : b <> c) by (intros ->; lra).
    simpl in Hx, Hy, Hz, Ia, Ib, Ic.
    destruct Hx as [<-|[<-|[<-|[]]]], Hy as [<-|[<-|[<-|[]]]],
             Hz as [<-|[<-|[<-|[]]]];
      try (exfalso; intuition congruence); auto 10. }
  unfold Memory.sortBy.
  destruct Hcases as [->|[->|[->|[->|[->| ->]]]]]; cbn [fold_right Memory.insertSorted];
    repeat match goal with
    | |- context [Qlt_le_dec 0 ?x] =>
        destruct (Qlt_le_dec 0 x); try lra; cbn [Memory.insertSorted]
    end; reflexivity.
Qed.

End MemoryFacts.

(** C6 (amended).  [getEntriesForContext] is empty when the store is
    disabled; otherwise it is the ranking, whole when the limit is not
    positive and cut to its first [maxInjectedEntries] entries when it is.
    The ranking is a rearrangement of the stored entries, by confidence
    descending and then by the update time descending; entries that tie on
    both keep the order in which they are stored (the sort is stable and no
    identifier is compared).  For A (0.9, updated at 1000), B (0.9, updated
    at 2000) and C (0.5) the result is [B; A; C]. *)
Theorem getEntriesForContext_ranking (m : Memory.Store) :
  Memory.getEntriesForContext m
    = (if Memory.enabled m
       then if (0 <? Memory.maxInjectedEntries m)%Z
            then firstn (Z.to_nat (Memory.maxInjectedEntries m))
                   (Memory.sortedEntries m)
            else Memory.sortedEntries m
       else [])
  /\ Permutation (Memory.sortedEntries m) (Memory.entries m)
  /\ StronglySorted Memory.ranksBefore (Memory.sortedEntries m)
  /\ (forall k, filter (Memory.sameRank k) (Memory.sortedEntries m)
                = filter (Memory.sameRank k) (Memory.entries m))
  /\ Memory.getEntriesForContext
       (Memory.mkStore true 0 [Sample.entryA; Sample.entryB; Sample.entryC])
     = [Sample.entryB; Sample.entryA; Sample.entryC].
Proof.
  repeat split.
  - unfold Memory.getEntriesForContext, Js.slice0.
    destruct (Memory.enabled m); cbn [negb]; [|reflexivity].
    destruct (0 <? Memory.maxInjectedEntries m)%Z eqn:E; [|reflexivity].
    apply Z.ltb_lt in E.
    destruct (Memory.maxInjectedEntries m <? 0)%Z eqn:E'; [|reflexivity].
    apply Z.ltb_lt in E'. lia.
  - apply sortBy_Permutation.
  - apply sortedEntries_ranked.
  - intros k. apply sortBy_filter_same. apply sameRank_not_apart.
Qed.

(** C6, as stated, fails: two entries that tie on confidence and update
    time come back in stored order, here with the identifier ["b"] before
    ["a"], which the ranking with the identifier as last key forbids. *)
Lemma getEntriesForContext_ignores_id :
  Memory.getEntriesForContext Sample.tieStore
    = [Sample.tieFirst; Sample.tieSecond]
  /\ ~ StronglySorted Memory.ranksBeforeWithId
         (Memory.getEntriesForContext Sample.tieStore).
Proof.
  assert (E : Memory.getEntriesForContext Sample.tieStore
              = [Sample.tieFirst; Sample.tieSecond]) by reflexivity.
  split; [exact E|].
  rewrite E. intros H.
  apply StronglySorted_inv in H as [_ H].
  apply Forall_inv in H.
  unfold Memory.ranksBeforeWithId in H. cbn in H.
  destruct H as [H|[_ [H|[_ H]]]];
    [ apply Qlt_irrefl in H; exact H | lia | discriminate ].
Qed.

(* ===================================================================== *)
(** * The confidence life cycle *)
(* ===================================================================== *)

Section ConfidenceFacts.

Lemma oneWeekMs_pos : 0 < inject_Z Memory.oneWeekMs.
Proof. reflexivity. Qed.

(** An entry that is not from the future has a non-negative age. *)
Lemma ageWeeks_nonneg (now : Z) (e : MemoryEntry.t) :
  (MemoryEntry.updatedAt e <= now)%Z -> 0 <= Memory.ageWeeks now e.
Proof.
  intros H. unfold Memory.ageWeeks, Js.div, Js.sub.
  apply double_nonneg.
  apply Qle_shift_div_l; [apply oneWeekMs_pos|].
  rewrite Qmult_0_l. apply double_nonneg.
  unfold Qminus. rewrite <- inject_Z_opp, <- inject_Z_plus.
  change 0 with (inject_Z 0). rewrite <- Zle_Qle. lia.
Qed.

(** What a decay takes off is not negative when the rate and the age are
    not. *)
Lemma decrement_nonneg (now : Z) (rate : Q) (e : MemoryEntry.t) :
  0 <= rate -> (MemoryEntry.updatedAt e <= now)%Z ->
  0 <= Js.mul rate (Memory.ageWeeks now e).
Proof.
  intros Hr Hage. unfold Js.mul. apply double_nonneg.
  apply Qmult_le_0_compat; [exact Hr | apply ageWeeks_nonneg, Hage].
Qed.

Lemma seedConfidence_inRange (src : Source) :
  0 <= Memory.seedConfidence src /\ Memory.seedConfidence src <= 1.
Proof. destruct src; split; discriminate. Qed.

(** A boost by a non-negative amount keeps the range: it clamps at 1. *)
Lemma boostEntry_inRange (now : Z) (delta : Q) (e : MemoryEntry.t) :
  0 <= delta -> Memory.inRange e -> Memory.inRange (Memory.boostEntry now delta e).
Proof.
  intros Hd [H0 H1]. unfold Memory.inRange. cbn.
  split.
  - apply Q.min_glb; lra.
  - apply Q.le_min_l.
Qed.

(** A decay clamps at 0; it stays below 1 when the age is not negative. *)
Lemma decayEntry_inRange (now : Z) (rate : Q) (e : MemoryEntry.t) :
  0 <= rate -> (MemoryEntry.updatedAt e <= now)%Z ->
  Memory.inRange e -> Memory.inRange (Memory.decayEntry now rate e).
Proof.
  intros Hr Hage [H0 H1]. unfold Memory.inRange.
  cbn [Memory.decayEntry MemoryEntry.confidence].
  pose proof (decrement_nonneg now rate e Hr Hage) as Hp.
  split.
  - apply Q.le_max_l.
  - apply Q.max_lub; [lra|].
    unfold Js.sub at 1. apply double_le_double; [apply double_1 | lra].
Qed.

Lemma decayEntry_confidence_nonneg (now : Z) (rate : Q) (e : MemoryEntry.t) :
  0 <= MemoryEntry.confidence (Memory.decayEntry now rate e).
Proof. cbn. apply Q.le_max_l. Qed.

Lemma decayEntry_updatedAt (now : Z) (rate : Q) (e : MemoryEntry.t) :
  MemoryEntry.updatedAt (Memory.decayEntry now rate e)
  = MemoryEntry.updatedAt e.
Proof. reflexivity. Qed.

Section Clock.
Context {W : Type} (h : Host W) (time : W -> Z).
Hypothesis clock : Memory.MonotoneClock h time.

Let Inv (l : list MemoryEntry.t) (w : W) : Prop :=
  Forall Memory.inRange l
  /\ Forall (fun e => (MemoryEntry.updatedAt e <= time w)%Z) l.

Lemma read_clock (w : W) :
  (time w <= fst (Date_now h w))%Z
  /\ (fst (Date_now h w) <= time (snd (Date_now h w)))%Z.
Proof. apply clock. Qed.

Lemma draw_id (w : W) : (time w <= time (snd (nanoid h w)))%Z.
Proof. apply clock. Qed.

Lemma Inv_later (l : list MemoryEntry.t) (w w' : W) :
  (time w <= time w')%Z -> Inv l w -> Inv l w'.
Proof.
  intros Hw [H1 H2]. split; [exact H1|].
  eapply Forall_impl; [|exact H2]. cbn. intros e He. lia.
Qed.

Lemma boostEach_Inv (i : string) (delta : Q) (l : list MemoryEntry.t) :
  0 <= delta -> forall w, Inv l w ->
  (time w <= time (snd (Memory.boostEach h i delta l w)))%Z
  /\ Inv (fst (Memory.boostEach h i delta l w))
         (snd (Memory.boostEach h i delta l w)).
Proof.
  intros Hd. induction l as [|e r IH]; intros w [H1 H2].
  - cbn. split; [lia | split; constructor].
  - apply Forall_cons_iff in H1 as [He Hr].
    apply Forall_cons_iff in H2 as [Te Tr].
    cbn [Memory.boostEach].
    destruct (String.eqb (MemoryEntry.id e) i).
    + pose proof (read_clock w) as [Hc1 Hc2].
      destruct (Date_now h w) as [now w1] eqn:En. cbn [fst snd] in Hc1, Hc2.
      assert (Hr1 : Inv r w1).
      { apply Inv_later with w; [lia | split; assumption]. }
      specialize (IH w1 Hr1).
      destruct (Memory.boostEach h i delta r w1) as [r' w2].
      cbn [fst snd] in *. destruct IH as [Ht [I1 I2]].
      split; [lia|]. split; constructor; try assumption.
      * apply boostEntry_inRange; assumption.
      * cbn. lia.
    + specialize (IH w (conj Hr Tr)).
      destruct (Memory.boostEach h i delta r w) as [r' w2].
      cbn [fst snd] in *. destruct IH as [Ht [I1 I2]].
      split; [lia|]. split; constructor; try assumption. lia.
Qed.

Lemma applyOp_Inv (op : Memory.Op) (m : Memory.Store) (w : W) :
  Memory.admissible op -> Inv (Memory.entries m) w ->
  (time w <= time (snd (Memory.applyOp h op m w)))%Z
  /\ Inv (Memory.entries (fst (Memory.applyOp h op m w)))
         (snd (Memory.applyOp h op m w)).
Proof.
  intros Hop HI. destruct op as [content tags src | i delta | rate prune].
  - (* addEntry *)
    cbn [Memory.applyOp]. unfold Memory.addEntry.
    pose proof (read_clock w) as [Hc1 Hc2].
    destruct (Date_now h w) as [now w1]. cbn [fst snd] in Hc1, Hc2.
    pose proof (draw_id w1) as Hid.
    destruct (nanoid h w1) as [newId w2]. cbn [fst snd] in *.
    split; [lia|].
    destruct (Inv_later _ w w2 ltac:(lia) HI) as [H1 H2].
    cbn [Memory.entries Memory.setEntries].
    split; apply Forall_app; split; try assumption;
      (apply Forall_cons; [|apply Forall_nil]).
    + apply seedConfidence_inRange.
    + cbn. lia.
  - (* boostConfidence *)
    cbn [Memory.applyOp]. unfold Memory.boostConfidence.
    pose proof (boostEach_Inv i delta (Memory.entries m) Hop w HI) as HB.
    destruct (Memory.boostEach h i delta (Memory.entries m) w) as [l w'].
    exact HB.
  - (* decayConfidence *)
    cbn [Memory.applyOp]. unfold Memory.decayConfidence.
    pose proof (read_clock w) as [Hc1 Hc2].
    destruct (Date_now h w) as [now w1]. cbn [fst snd] in *.
    split; [lia|].
    destruct HI as [H1 H2].
    unfold Memory.decayConfidenceAt. cbn [Memory.entries Memory.setEntries].
    split; apply Forall_forall; intros e' He';
      apply filter_In in He' as [He' _];
      apply in_map_iff in He' as [e [<- He]];
      rewrite Forall_forall in H1, H2;
      specialize (H1 e He); specialize (H2 e He); cbn beta in H2.
    + apply decayEntry_inRange; [exact Hop | lia | exact H1].
    + rewrite decayEntry_updatedAt. lia.
Qed.

Lemma applyOps_Inv (ops : list Memory.Op) :
  Forall Memory.admissible ops ->
  forall m w, Inv (Memory.entries m) w ->
  Inv (Memory.entries (fst (Memory.applyOps h ops m w)))
      (snd (Memory.applyOps h ops m w)).
Proof.
  induction 1 as [|op r Hop Hr IH]; intros m w HI; [exact HI|].
  cbn [Memory.applyOps].
  pose proof (applyOp_Inv op m w Hop HI) as [_ H'].
  destruct (Memory.applyOp h op m w) as [m' w']. apply IH, H'.
Qed.
End Clock.

End ConfidenceFacts.


(** Under a clock that never runs backwards, every sequence of [addEntry],
    [boostConfidence] (any delta at least 0) and [decayConfidence] (any
    rate at least 0) keeps every confidence within 0 and 1, from any store
    whose confidences are in that range and whose entries are not dated
    later than the clock has read. *)
Lemma confidence_in_range_under_monotone_clock
    (W : Type) (h : Host W) (time : W -> Z)
    (ops : list Memory.Op) (m : Memory.Store) (w : W) :
  Memory.MonotoneClock h time ->
  Forall Memory.admissible ops ->
  Memory.notFromTheFuture time w m ->
  Memory.confidenceInRange m ->
  Memory.confidenceInRange (fst (Memory.applyOps h ops m w)).
Proof.
  intros Hclock Hops Htime Hrange.
  apply (applyOps_Inv h time Hclock ops Hops m w). split; assumption.
Qed.

Section DecayFacts.

(** The age is the rounded quotient of the elapsed milliseconds. *)
Lemma ageWeeks_elapsed (now : Z) (e : MemoryEntry.t) :
  Memory.ageWeeks now e
  = Js.div (Js.double (inject_Z (now - MemoryEntry.updatedAt e)))
      (inject_Z (7 * 24 * 60 * 60 * 1000)).
Proof.
  unfold Memory.ageWeeks, Js.sub. f_equal. apply double_eq.
  unfold Z.sub. rewrite inject_Z_plus, inject_Z_opp. reflexivity.
Qed.

Lemma decayEntry_confidence (now : Z) (rate : Q) (e : MemoryEntry.t) :
  MemoryEntry.confidence (Memory.decayEntry now rate e)
  = Qmax 0 (Js.sub (MemoryEntry.confidence e)
              (Js.mul rate
                 (Js.div
                    (Js.double (inject_Z (now - MemoryEntry.updatedAt e)))
                    (inject_Z (7 * 24 * 60 * 60 * 1000))))).
Proof.
  cbn [Memory.decayEntry MemoryEntry.confidence].
  rewrite ageWeeks_elapsed. reflexivity.
Qed.

Lemma Qle_bool_false (x y : Q) : Qle_bool x y = false <-> y < x.
Proof.
  split; intros H.
  - apply Qnot_le_lt. intros Hle. apply Qle_bool_iff in Hle. congruence.
  - destruct (Qle_bool x y) eqn:E; [|reflexivity].
    apply Qle_bool_iff in E. lra.
Qed.

Lemma filter_map {A B : Type} (f : B -> bool) (g : A -> B) (l : list A) :
  filter f (map g l) = map g (filter (fun x => f (g x)) l).
Proof.
  induction l as [|x l IH]; cbn; [reflexivity|].
  destruct (f (g x)); cbn; rewrite IH; reflexivity.
Qed.

(** An entry of a given age in weeks, decayed at a given rate: only the
    elapsed time matters, not the reading of the clock. *)
Lemma decay_aged (i : string) (c rate : Q) (now weeks : Z) :
  MemoryEntry.confidence
    (Memory.decayEntry now rate (Sample.aged i c now weeks))
  = Qmax 0 (Js.sub c
              (Js.mul rate
                 (Js.div (Js.double (inject_Z (weeks * Memory.oneWeekMs)))
                    (inject_Z Memory.oneWeekMs)))).
Proof.
  rewrite decayEntry_confidence.
  cbn [Sample.aged MemoryEntry.confidence MemoryEntry.updatedAt].
  replace (now - (now - weeks * Memory.oneWeekMs))%Z
    with (weeks * Memory.oneWeekMs)%Z by lia.
  reflexivity.
Qed.

(** Of age zero: a double that is not negative does not move. *)
Lemma decay_age_zero (now : Z) (rate : Q) (e : MemoryEntry.t) :
  Js.isDouble (MemoryEntry.confidence e) ->
  0 <= MemoryEntry.confidence e ->
  MemoryEntry.updatedAt e = now ->
  MemoryEntry.confidence (Memory.decayEntry now rate e)
  == MemoryEntry.confidence e.
Proof.
  intros Hd Hc Hu. rewrite decayEntry_confidence, Hu, Z.sub_diag.
  set (age := Js.div _ _).
  assert (Ea : age = 0 # 2 ^ 1074) by reflexivity.
  assert (Ep : Js.mul rate age = 0 # 2 ^ 1074).
  { unfold Js.mul. rewrite Ea. rewrite <- double_0. apply double_eq.
    unfold Qeq. cbn. lia. }
  rewrite Ep. unfold Js.sub.
  rewrite (double_eq _ (MemoryEntry.confidence e)).
  - unfold Js.isDouble in Hd. rewrite Hd. apply Q.max_r, Hc.
  - unfold Qeq. cbn. lia.
Qed.

(** A decay at a rate that is not negative does not raise the confidence
    of an entry that is not dated in the future, when that confidence is a
    double and not negative. *)
Lemma decayEntry_le (now : Z) (rate : Q) (e : MemoryEntry.t) :
  0 <= rate -> (MemoryEntry.updatedAt e <= now)%Z ->
  Js.isDouble (MemoryEntry.confidence e) ->
  0 <= MemoryEntry.confidence e ->
  MemoryEntry.confidence (Memory.decayEntry now rate e)
  <= MemoryEntry.confidence e.
Proof.
  intros Hr Hage Hd Hc.
  pose proof (decrement_nonneg now rate e Hr Hage) as Hp.
  cbn [Memory.decayEntry MemoryEntry.confidence].
  apply Q.max_lub; [exact Hc|].
  unfold Js.sub at 1. apply double_le_double; [exact Hd | lra].
Qed.

End DecayFacts.

(** C5.  The code does not keep the confidence within 0 and 1.  A boost
    clamps at 1 for every delta, but a decay only clamps at 0: it subtracts
    [decayRate * ageWeeks], and the age is negative for an entry updated
    after the clock reading the decay takes, which happens when the wall
    clock steps back.  So from the empty store, [addEntry] (0.8), a boost by
    0.2 (to 1) and a default decay read one second earlier leave the entry
    at 1.000000033068783.  In general a decay at the default rate or more
    raises above 1 every entry at 1 that was updated at least one second
    after the reading. *)
Theorem decay_raises_confidence_above_one :
  (Forall Memory.admissible Sample.boostThenDecay
   /\ Memory.confidenceInRange Memory.emptyStore
   /\ map MemoryEntry.confidence
        (Memory.entries
           (fst (Memory.applyOps Sample.scriptedHost Sample.boostThenDecay
                   Memory.emptyStore Sample.steppedBack)))
      = [Js.double (4503599776299055 # 4503599627370496)]
   /\ 1 < Js.double (4503599776299055 # 4503599627370496))
  /\ (forall (now : Z) (rate : Q) (e : MemoryEntry.t),
        MemoryEntry.confidence e == 1 ->
        (now + 1000 <= MemoryEntry.updatedAt e)%Z ->
        Memory.defaultDecayRate <= rate ->
        1 < MemoryEntry.confidence (Memory.decayEntry now rate e))
  /\ (forall (now : Z) (delta : Q) (e : MemoryEntry.t),
        MemoryEntry.confidence (Memory.boostEntry now delta e) <= 1).
Proof.
  split; [|split].
  - split; [repeat constructor; vm_compute; discriminate|].
    split; [constructor|].
    split; vm_compute; reflexivity.
  - intros now rate e Hc Hu Hr.
    rewrite decayEntry_confidence.
    set (elapsed := Js.double (inject_Z (now - MemoryEntry.updatedAt e))).
    set (age := Js.div elapsed _).
    set (age0 := Js.div (Js.double (inject_Z (- 1000)))
                   (inject_Z (7 * 24 * 60 * 60 * 1000))).
    assert (He : elapsed <= inject_Z (- 1000)).
    { apply double_le_double; [reflexivity|].
      rewrite <- Zle_Qle. lia. }
    assert (Ha : age <= age0).
    { unfold age, age0, Js.div. apply double_le.
      unfold Qdiv. apply Qmult_le_compat_r; [|discriminate].
      eapply Qle_trans; [exact He|].
      apply double_ge_double; [reflexivity | apply Qle_refl]. }
    assert (Ha0 : age0 < 0) by (vm_compute; reflexivity).
    assert (Hr0 : 0 < Memory.defaultDecayRate) by (vm_compute; reflexivity).
    set (p0 := Js.mul Memory.defaultDecayRate age0).
    assert (Hp : Js.mul rate age <= p0).
    { unfold p0, Js.mul. apply double_le.
      revert Ha Ha0 Hr Hr0. generalize Memory.defaultDecayRate, age, age0.
      intros r0 a a0 H1 H2 H3 H4. nra. }
    assert (Hd : Js.sub 1 p0 <= Js.sub (MemoryEntry.confidence e)
                                  (Js.mul rate age)).
    { unfold Js.sub. apply double_le. rewrite Hc. lra. }
    assert (H1 : 1 < Js.sub 1 p0) by (vm_compute; reflexivity).
    eapply Qlt_le_trans; [exact H1|].
    eapply Qle_trans; [exact Hd | apply Q.le_max_r].
  - intros now delta e. cbn [Memory.boostEntry MemoryEntry.confidence].
    apply Q.le_min_l.
Qed.

Lemma decay_raises_confidence_above_one_witness :
  1 < MemoryEntry.confidence
        (Memory.decayEntry 1700000000000 Memory.defaultDecayRate
           (MemoryEntry.mk "id" "a fact" [] manual 1 1 1700000000000
              1700000001000)).
Proof.
  apply (proj1 (proj2 decay_raises_confidence_above_one)).
  - reflexivity.
  - cbn. lia.
  - apply Qle_refl.
Defined.

(** C7 (amended).  At the clock reading [now], [decayConfidence(decayRate,
    pruneBelow)] turns the confidence of every entry into
    [max 0 (confidence - decayRate * ageWeeks)] with
    [ageWeeks = (now - updatedAt) / one week], every operation rounded to
    the nearest double, and leaves the other fields of the entry alone.
    The new confidence is never negative; it is the old one for an entry
    of age zero, and not above the old one when the rate is not negative
    and the entry is not dated in the future (the old one being a double
    that is not negative).  The operation keeps, in their order, exactly
    the entries whose new confidence is not below [pruneBelow], and does
    not touch the settings.  With the defaults
    an entry at 0.10 aged three weeks falls to 0.04000000000000001 and is
    removed, an entry at 0.05 of age zero stays at 0.05 and is kept, and an
    entry at 0.09 aged two weeks falls to 0.049999999999999996 and is
    removed.  The result depends on the clock only through the one
    reading. *)
Theorem decayConfidence_spec
    (W : Type) (h : Host W) (decayRate pruneBelow : Q)
    (m : Memory.Store) (w : W) :
  let now := fst (Date_now h w) in
  let decayed := Memory.decayEntry now decayRate in
  let kept := fun e =>
    Qle_bool pruneBelow (MemoryEntry.confidence (decayed e)) in
  let m' := fst (Memory.decayConfidence h decayRate pruneBelow m w) in
  (forall e,
     MemoryEntry.confidence (decayed e)
     = Qmax 0 (Js.sub (MemoryEntry.confidence e)
                 (Js.mul decayRate
                    (Js.div
                       (Js.double
                          (inject_Z (now - MemoryEntry.updatedAt e)))
                       (inject_Z (7 * 24 * 60 * 60 * 1000)))))
     /\ MemoryEntry.id (decayed e) = MemoryEntry.id e
     /\ MemoryEntry.content (decayed e) = MemoryEntry.content e
     /\ MemoryEntry.tags (decayed e) = MemoryEntry.tags e
     /\ MemoryEntry.source (decayed e) = MemoryEntry.source e
     /\ MemoryEntry.useCount (decayed e) = MemoryEntry.useCount e
     /\ MemoryEntry.createdAt (decayed e) = MemoryEntry.createdAt e
     /\ MemoryEntry.updatedAt (decayed e) = MemoryEntry.updatedAt e)
  /\ (forall e,
        0 <= MemoryEntry.confidence (decayed e)
        /\ (Js.isDouble (MemoryEntry.confidence e) ->
            0 <= MemoryEntry.confidence e ->
            (MemoryEntry.updatedAt e = now ->
             MemoryEntry.confidence (decayed e) == MemoryEntry.confidence e)
            /\ (0 <= decayRate -> (MemoryEntry.updatedAt e <= now)%Z ->
                MemoryEntry.confidence (decayed e)
                <= MemoryEntry.confidence e)))
  /\ Memory.entries m' = map decayed (filter kept (Memory.entries m))
  /\ (forall e,
        kept e = false <-> MemoryEntry.confidence (decayed e) < pruneBelow)
  /\ (forall e, In e (Memory.entries m) ->
        (In (decayed e) (Memory.entries m')
         <-> ~ MemoryEntry.confidence (decayed e) < pruneBelow))
  /\ Memory.enabled m' = Memory.enabled m
  /\ Memory.maxInjectedEntries m' = Memory.maxInjectedEntries m
  /\ (let old := Sample.aged "x" (Js.double (10 # 100)) now 3 in
      let fresh := Sample.aged "y" (Js.double (5 # 100)) now 0 in
      let edge := Sample.aged "z" (Js.double (9 # 100)) now 2 in
      let withDefaults :=
        Memory.decayConfidenceAt now Memory.defaultDecayRate
          Memory.defaultPruneBelow in
      MemoryEntry.confidence (Memory.decayEntry now Memory.defaultDecayRate old)
      == 1441151880758559 # 36028797018963968
      /\ MemoryEntry.confidence
           (Memory.decayEntry now Memory.defaultDecayRate fresh)
         == Js.double (5 # 100)
      /\ MemoryEntry.confidence
           (Memory.decayEntry now Memory.defaultDecayRate edge)
         == 7205759403792793 # 144115188075855872
      /\ Memory.entries
           (withDefaults (Memory.mkStore true 10 [old; fresh; edge]))
         = [Memory.decayEntry now Memory.defaultDecayRate fresh])
  /\ (forall (W2 : Type) (h2 : Host W2) (w2 : W2),
        fst (Date_now h2 w2) = now ->
        fst (Memory.decayConfidence h2 decayRate pruneBelow m w2) = m').
Proof.
  intros now decayed kept m'.
  assert (Em' : m' = Memory.decayConfidenceAt now decayRate pruneBelow m).
  { subst m' now. unfold Memory.decayConfidence.
    destruct (Date_now h w) as [t w']. reflexivity. }
  assert (Hkept : forall e,
            kept e = false
            <-> MemoryEntry.confidence (decayed e) < pruneBelow).
  { intros e. apply Qle_bool_false. }
  split.
  { intros e. split; [apply decayEntry_confidence|].
    repeat split. }
  split.
  { intros e. split; [apply decayEntry_confidence_nonneg|].
    intros Hd Hc. split.
    - intros Hu. apply decay_age_zero; assumption.
    - intros Hr Hu. apply decayEntry_le; assumption. }
  split.
  { rewrite Em'. unfold Memory.decayConfidenceAt.
    cbn [Memory.entries Memory.setEntries].
    exact (filter_map
             (fun e => Qle_bool pruneBelow (MemoryEntry.confidence e))
             decayed (Memory.entries m)). }
  split; [exact Hkept|].
  split.
  { intros e He. rewrite Em'. unfold Memory.decayConfidenceAt.
    cbn [Memory.entries Memory.setEntries]. rewrite filter_In. split.
    - intros [_ Hk] Hlt. apply Qle_bool_iff in Hk. fold (decayed e) in Hlt.
      lra.
    - intros Hn. split; [apply in_map, He|].
      apply Qle_bool_iff. apply Qnot_lt_le, Hn. }
  split; [rewrite Em'; reflexivity|].
  split; [rewrite Em'; reflexivity|].
  split.
  { cbv zeta.
    assert (Hold : MemoryEntry.confidence
                     (Memory.decayEntry now Memory.defaultDecayRate
                        (Sample.aged "x" (Js.double (10 # 100)) now 3))
                   == 1441151880758559 # 36028797018963968).
    { rewrite decay_aged. vm_compute. reflexivity. }
    assert (Hfresh : MemoryEntry.confidence
                       (Memory.decayEntry now Memory.defaultDecayRate
                          (Sample.aged "y" (Js.double (5 # 100)) now 0))
                     == Js.double (5 # 100)).
    { rewrite decay_aged. vm_compute. reflexivity. }
    assert (Hedge : MemoryEntry.confidence
                      (Memory.decayEntry now Memory.defaultDecayRate
                         (Sample.aged "z" (Js.double (9 # 100)) now 2))
                    == 7205759403792793 # 144115188075855872).
    { rewrite decay_aged. vm_compute. reflexivity. }
    split; [exact Hold|]. split; [exact Hfresh|]. split; [exact Hedge|].
    unfold Memory.decayConfidenceAt.
    cbn [Memory.entries Memory.setEntries map filter].
    replace (Qle_bool Memory.defaultPruneBelow
               (MemoryEntry.confidence
                  (Memory.decayEntry now Memory.defaultDecayRate
                     (Sample.aged "x" (Js.double (10 # 100)) now 3))))
      with false
      by (symmetry; apply Qle_bool_false; rewrite Hold; vm_compute;
          reflexivity).
    replace (Qle_bool Memory.defaultPruneBelow
               (MemoryEntry.confidence
                  (Memory.decayEntry now Memory.defaultDecayRate
                     (Sample.aged "y" (Js.double (5 # 100)) now 0))))
      with true
      by (symmetry; apply Qle_bool_iff; rewrite Hfresh; apply Qle_refl).
    replace (Qle_bool Memory.defaultPruneBelow
               (MemoryEntry.confidence
                  (Memory.decayEntry now Memory.defaultDecayRate
                     (Sample.aged "z" (Js.double (9 # 100)) now 2))))
      with false
      by (symmetry; apply Qle_bool_false; rewrite Hedge; vm_compute;
          reflexivity).
    reflexivity. }
  intros W2 h2 w2 Hnow. rewrite Em'. unfold Memory.decayConfidence.
  destruct (Date_now h2 w2) as [t2 w2']. cbn [fst] in *. subst t2.
  reflexivity.
Qed.

Lemma decayConfidence_spec_witness :
  Memory.entries
    (Memory.decayConfidenceAt 1700000000000 Memory.defaultDecayRate
       Memory.defaultPruneBelow
       (Memory.mkStore true 10
          [ Sample.aged "x" (Js.double (10 # 100)) 1700000000000 3;
            Sample.aged "y" (Js.double (5 # 100)) 1700000000000 0;
            Sample.aged "z" (Js.double (9 # 100)) 1700000000000 2 ]))
  = [ Memory.decayEntry 1700000000000 Memory.defaultDecayRate
        (Sample.aged "y" (Js.double (5 # 100)) 1700000000000 0) ].
Proof.
  exact (proj2 (proj2 (proj2 (proj1 (proj2 (proj2 (proj2 (proj2 (proj2
    (proj2 (proj2
    (decayConfidence_spec Z Sample.tickingHost Memory.defaultDecayRate
       Memory.defaultPruneBelow Memory.emptyStore
       1700000000000%Z)))))))))))).
Defined.

(** C7, as stated, fails: the arithmetic is that of doubles.  The entry at
    0.10 aged three weeks does not fall to 0.04, neither to the fraction
    4/100 nor to the double nearest to it.  And the entry at 0.09 aged two
    weeks is removed by the defaults although
    [max 0 (0.09 - 0.02 * 2)] is 0.05, which is not below 0.05. *)
Lemma decayConfidence_is_rounded :
  let now := 1700000000000%Z in
  let old := Sample.aged "x" (Js.double (10 # 100)) now 3 in
  let edge := Sample.aged "z" (Js.double (9 # 100)) now 2 in
  Qmax 0 ((10 # 100) - (2 # 100) * 3) == 4 # 100
  /\ ~ MemoryEntry.confidence
         (Memory.decayEntry now Memory.defaultDecayRate old) == 4 # 100
  /\ ~ MemoryEntry.confidence
         (Memory.decayEntry now Memory.defaultDecayRate old)
       == Js.double (4 # 100)
  /\ Qmax 0 ((9 # 100) - (2 # 100) * 2) == 5 # 100
  /\ ~ (5 # 100) < (5 # 100)
  /\ Memory.entries
       (Memory.decayConfidenceAt now Memory.defaultDecayRate
          Memory.defaultPruneBelow (Memory.mkStore true 10 [edge]))
     = [].
Proof.
  cbv zeta.
  split; [vm_compute; reflexivity|].
  split; [vm_compute; discriminate|].
  split; [vm_compute; discriminate|].
  split; [vm_compute; reflexivity|].
  split; [discriminate|].
  vm_compute. reflexivity.
Qed.

(* ===================================================================== *)
(** * The schedule *)
(* ===================================================================== *)

(** C8.  [isDue] is false under the [manual] schedule.  Under [hourly],
    [daily] and [weekly] it is true when [lastRunAt] is unset, that is
    [null] (and also for the falsy time stamp [0]); for any other
    [lastRunAt] it is true exactly when the clock reads at least one
    interval past it, the intervals being 1 hour, 24 hours and 7 days in
    milliseconds.  So a [daily] schedule last run 23 hours ago is not due,
    and last run 25 hours ago it is.  The clock is read in the last case
    only. *)
Theorem isDue_spec (W : Type) (h : Host W) (s : SelfLearning.Store) (w : W) :
  let now := fst (Date_now h w) in
  let due := fst (SelfLearning.isDue h s w) in
  (SelfLearning.schedule s = sched_manual ->
   SelfLearning.isDue h s w = (false, w))
  /\ (SelfLearning.schedule s <> sched_manual ->
      SelfLearning.lastRunAt s = None ->
      SelfLearning.isDue h s w = (true, w))
  /\ (SelfLearning.schedule s <> sched_manual ->
      SelfLearning.lastRunAt s = Some 0%Z ->
      SelfLearning.isDue h s w = (true, w))
  /\ (forall t, SelfLearning.schedule s <> sched_manual ->
        SelfLearning.lastRunAt s = Some t -> t <> 0%Z ->
        exists i, SelfLearning.interval (SelfLearning.schedule s) = Some i
                  /\ (due = true <-> (now - t >= i)%Z)
                  /\ (due = false <-> (now - t < i)%Z)
                  /\ snd (SelfLearning.isDue h s w) = snd (Date_now h w))
  /\ SelfLearning.interval sched_hourly = Some 3600000%Z
  /\ SelfLearning.interval sched_daily = Some 86400000%Z
  /\ SelfLearning.interval sched_weekly = Some 604800000%Z
  /\ (forall t, SelfLearning.schedule s = sched_daily -> t <> 0%Z ->
        (SelfLearning.lastRunAt s = Some t -> (now - t = 23 * 3600000)%Z ->
         due = false)
        /\ (SelfLearning.lastRunAt s = Some t -> (now - t = 25 * 3600000)%Z ->
            due = true)).
Proof.
  intros now due. subst now due. unfold SelfLearning.isDue.
  split; [intros ->; reflexivity|].
  split.
  { intros Hs ->. cbn [SelfLearning.unset]. rewrite orb_true_r.
    destruct (SelfLearning.schedule s); [congruence | reflexivity ..]. }
  split.
  { intros Hs ->. cbn [SelfLearning.unset Z.eqb]. rewrite orb_true_r.
    destruct (SelfLearning.schedule s); [congruence | reflexivity ..]. }
  split.
  { intros t Hs Ht Ht0. rewrite Ht. cbn [SelfLearning.unset].
    apply Z.eqb_neq in Ht0. rewrite Ht0.
    destruct (Date_now h w) as [now w'].
    destruct (SelfLearning.schedule s); [congruence | ..];
      cbn [SelfLearning.isManual orb SelfLearning.interval fst snd];
      eexists; (split; [reflexivity|]);
      (split; [rewrite Z.leb_le; lia|]);
      (split; [rewrite Z.leb_gt; lia | reflexivity]). }
  split; [reflexivity|]. split; [reflexivity|]. split; [reflexivity|].
  intros t Hs Ht0. apply Z.eqb_neq in Ht0. split.
  - intros Hl Hn. rewrite Hs, Hl. cbn [SelfLearning.unset]. rewrite Ht0.
    destruct (Date_now h w) as [now w'].
    cbn [SelfLearning.isManual orb SelfLearning.interval fst] in *.
    apply Z.leb_gt. lia.
  - intros Hl Hn. rewrite Hs, Hl. cbn [SelfLearning.unset]. rewrite Ht0.
    destruct (Date_now h w) as [now w'].
    cbn [SelfLearning.isManual orb SelfLearning.interval fst] in *.
    apply Z.leb_le. lia.
Qed.

Lemma isDue_spec_witness :
  SelfLearning.isDue Sample.tickingHost (Sample.neverRun sched_daily)
    1700000000000%Z = (true, 1700000000000%Z)
  /\ SelfLearning.isDue Sample.tickingHost (Sample.neverRun sched_hourly)
       1700000000000%Z = (true, 1700000000000%Z)
  /\ SelfLearning.isDue Sample.tickingHost (Sample.neverRun sched_manual)
       1700000000000%Z = (false, 1700000000000%Z)
  /\ fst (SelfLearning.isDue Sample.tickingHost
            (Sample.scheduled sched_daily (1700000000000 - 23 * 3600000))
            1700000000000%Z) = false
  /\ fst (SelfLearning.isDue Sample.tickingHost
            (Sample.scheduled sched_daily (1700000000000 - 25 * 3600000))
            1700000000000%Z) = true
  /\ fst (SelfLearning.isDue Sample.tickingHost
            (Sample.scheduled sched_manual (1700000000000 - 25 * 3600000))
            1700000000000%Z) = false.
Proof.
  split; [|split; [|split; [|split; [|split]]]].
  - apply (proj1 (proj2 (isDue_spec Z Sample.tickingHost
                           (Sample.neverRun sched_daily) 1700000000000%Z)));
      [discriminate | reflexivity].
  - apply (proj1 (proj2 (isDue_spec Z Sample.tickingHost
                           (Sample.neverRun sched_hourly) 1700000000000%Z)));
      [discriminate | reflexivity].
  - apply (proj1 (isDue_spec Z Sample.tickingHost
                    (Sample.neverRun sched_manual) 1700000000000%Z)).
    reflexivity.
  - refine (proj1 (proj2 (proj2 (proj2 (proj2 (proj2 (proj2 (proj2
      (isDue_spec Z Sample.tickingHost
         (Sample.scheduled sched_daily (1700000000000 - 23 * 3600000))
         1700000000000%Z)))))))
      (1700000000000 - 23 * 3600000)%Z eq_refl _) eq_refl _);
      [discriminate | reflexivity].
  - refine (proj2 (proj2 (proj2 (proj2 (proj2 (proj2 (proj2 (proj2
      (isDue_spec Z Sample.tickingHost
         (Sample.scheduled sched_daily (1700000000000 - 25 * 3600000))
         1700000000000%Z)))))))
      (1700000000000 - 25 * 3600000)%Z eq_refl _) eq_refl _);
      [discriminate | reflexivity].
  - rewrite (proj1 (isDue_spec Z Sample.tickingHost
               (Sample.scheduled sched_manual (1700000000000 - 25 * 3600000))
               1700000000000%Z) eq_refl).
    reflexivity.
Defined.

(* ===================================================================== *)
(** * The run ledger *)
(* ===================================================================== *)

Section LedgerFacts.
Context {W : Type} (h : Host W).

Lemma slice0_cons {A : Type} (x : A) (l : list A) :
  Js.slice0 20 (x :: l) = x :: firstn 19 l.
Proof. reflexivity. Qed.

Lemma Quiet_firstn (n : nat) (l : list LearningRun.t) :
  Quiet l -> Quiet (firstn n l).
Proof.
  unfold Quiet. revert n.
  induction l as [|r l IH]; intros [|n] H; cbn; try constructor.
  - apply (Forall_inv H).
  - apply IH, (Forall_inv_tail H).
Qed.

(** The record [startRun] makes is [running], counts no insight, and
    stands first; at most 19 older records stay behind it. *)
Lemma startRun_spec (names : list string) (sl : SelfLearning.Store) (w : W) :
  let '(run, sl', _) := SelfLearning.startRun h names sl w in
  SelfLearning.runHistory sl'
    = run :: firstn 19 (SelfLearning.runHistory sl)
  /\ LearningRun.status run = running
  /\ LearningRun.insightsSaved run = 0%Z
  /\ LearningRun.topicsProcessed run = names
  /\ SelfLearning.lastRunAt sl' = SelfLearning.lastRunAt sl.
Proof.
  unfold SelfLearning.startRun.
  destruct (nanoid h w) as [i w1]. destruct (Date_now h w1) as [now w2].
  cbn. repeat split; reflexivity.
Qed.

Lemma isRunning_false_Quiet (sl : SelfLearning.Store) :
  SingleFlight (SelfLearning.runHistory sl) ->
  SelfLearning.isRunning sl = false ->
  Quiet (SelfLearning.runHistory sl).
Proof.
  unfold SelfLearning.isRunning, SelfLearning.latestRun, SingleFlight, Quiet.
  destruct (SelfLearning.runHistory sl) as [|r older]; intros HS Hr.
  - constructor.
  - constructor; assumption.
Qed.

(** Guarded by [isRunning], [startRun] keeps the ledger single-flight. *)
Lemma startRun_SingleFlight (names : list string) (sl : SelfLearning.Store)
    (w : W) :
  SingleFlight (SelfLearning.runHistory sl) ->
  SelfLearning.isRunning sl = false ->
  SingleFlight
    (SelfLearning.runHistory
       (snd (fst (SelfLearning.startRun h names sl w)))).
Proof.
  intros HS Hr.
  pose proof (startRun_spec names sl w) as H.
  destruct (SelfLearning.startRun h names sl w) as [[run sl'] w'].
  destruct H as [H _]. cbn [fst snd]. rewrite H. cbn [SingleFlight].
  apply Quiet_firstn, isRunning_false_Quiet; assumption.
Qed.

Lemma completeRun_history (runId : string) (saved : Z)
    (sl : SelfLearning.Store) (w : W) :
  SelfLearning.runHistory (fst (SelfLearning.completeRun h runId saved sl w))
  = map (fun r => if String.eqb (LearningRun.id r) runId
                  then SelfLearning.markDone (fst (Date_now h w)) saved r
                  else r) (SelfLearning.runHistory sl).
Proof.
  unfold SelfLearning.completeRun.
  destruct (Date_now h w) as [now w']. reflexivity.
Qed.

Lemma completeRun_lastRunAt (runId : string) (saved : Z)
    (sl : SelfLearning.Store) (w : W) :
  SelfLearning.lastRunAt (fst (SelfLearning.completeRun h runId saved sl w))
  = Some (fst (Date_now h w)).
Proof.
  unfold SelfLearning.completeRun.
  destruct (Date_now h w) as [now w']. reflexivity.
Qed.

Lemma failEach_spec (runId msg : string) (l : list LearningRun.t) (w : W) :
  Forall2 (SelfLearning.failedFrom runId msg) l
    (fst (SelfLearning.failEach h runId msg l w)).
Proof.
  revert w. induction l as [|r l IH]; intros w; cbn [SelfLearning.failEach].
  - constructor.
  - destruct (String.eqb (LearningRun.id r) runId) eqn:E.
    + destruct (Date_now h w) as [now w1].
      specialize (IH w1).
      destruct (SelfLearning.failEach h runId msg l w1) as [l' w2].
      constructor; [|exact IH].
      unfold SelfLearning.failedFrom. rewrite E. cbn. repeat split. eexists; reflexivity.
    + specialize (IH w).
      destruct (SelfLearning.failEach h runId msg l w) as [l' w2].
      constructor; [|exact IH].
      unfold SelfLearning.failedFrom. rewrite E. reflexivity.
Qed.

Lemma failRun_history (runId msg : string) (sl : SelfLearning.Store)
    (w : W) :
  Forall2 (SelfLearning.failedFrom runId msg) (SelfLearning.runHistory sl)
    (SelfLearning.runHistory (fst (SelfLearning.failRun h runId msg sl w))).
Proof.
  unfold SelfLearning.failRun.
  pose proof (failEach_spec runId msg (SelfLearning.runHistory sl) w) as H.
  destruct (SelfLearning.failEach h runId msg (SelfLearning.runHistory sl) w).
  exact H.
Qed.

(** [failRun] stamps each record of the run with a reading of the clock of
    its own, in the order of the ledger, and reads the clock for nothing
    else. *)
Lemma failEach_stamps (runId msg : string) (l : list LearningRun.t) (w : W) :
  let n := List.length (SelfLearning.recordsOf runId l) in
  map LearningRun.completedAt
    (SelfLearning.recordsOf runId (fst (SelfLearning.failEach h runId msg l w)))
  = map Some (fst (SelfLearning.readClock h n w))
  /\ snd (SelfLearning.failEach h runId msg l w)
     = snd (SelfLearning.readClock h n w).
Proof.
  cbv zeta. revert w.
  induction l as [|r l IH]; intros w;
    cbn [SelfLearning.failEach SelfLearning.recordsOf filter].
  - split; reflexivity.
  - destruct (String.eqb (LearningRun.id r) runId) eqn:E.
    + cbn [List.length SelfLearning.readClock].
      destruct (Date_now h w) as [now w1].
      specialize (IH w1). unfold SelfLearning.recordsOf in IH.
      destruct (SelfLearning.failEach h runId msg l w1) as [l' w2].
      destruct (SelfLearning.readClock h _ w1) as [ts w3].
      unfold SelfLearning.recordsOf.
      cbn [fst snd filter map LearningRun.id SelfLearning.markError] in *.
      rewrite E. cbn [map LearningRun.completedAt].
      destruct IH as [IH1 IH2]. rewrite IH1, IH2. split; reflexivity.
    + specialize (IH w). unfold SelfLearning.recordsOf in IH.
      destruct (SelfLearning.failEach h runId msg l w) as [l' w2].
      unfold SelfLearning.recordsOf.
      cbn [fst snd filter] in *. rewrite E. exact IH.
Qed.

Lemma failRun_stamps (runId msg : string) (sl : SelfLearning.Store)
    (w : W) :
  let n := List.length
             (SelfLearning.recordsOf runId (SelfLearning.runHistory sl)) in
  map LearningRun.completedAt
    (SelfLearning.recordsOf runId
       (SelfLearning.runHistory (fst (SelfLearning.failRun h runId msg sl w))))
  = map Some (fst (SelfLearning.readClock h n w))
  /\ snd (SelfLearning.failRun h runId msg sl w)
     = snd (SelfLearning.readClock h n w).
Proof.
  cbv zeta. unfold SelfLearning.failRun.
  pose proof (failEach_stamps runId msg (SelfLearning.runHistory sl) w) as H.
  cbv zeta in H.
  destruct (SelfLearning.failEach h runId msg (SelfLearning.runHistory sl) w).
  exact H.
Qed.

(** Failing the run whose record heads the ledger stamps that record with
    the reading the clock gives first. *)
Lemma failRun_head (msg : string) (sl : SelfLearning.Store) (w : W)
    (r : LearningRun.t) (older : list LearningRun.t) :
  SelfLearning.runHistory sl = r :: older ->
  SelfLearning.latestRun
    (fst (SelfLearning.failRun h (LearningRun.id r) msg sl w))
  = Some (SelfLearning.markError (fst (Date_now h w)) msg r).
Proof.
  intros Hh. unfold SelfLearning.failRun, SelfLearning.latestRun.
  rewrite Hh. cbn [SelfLearning.failEach]. rewrite String.eqb_refl.
  destruct (Date_now h w) as [now w1].
  destruct (SelfLearning.failEach h _ msg older w1) as [l' w2].
  reflexivity.
Qed.

Lemma failRun_frame (runId msg : string) (sl : SelfLearning.Store) (w : W) :
  let sl' := fst (SelfLearning.failRun h runId msg sl w) in
  SelfLearning.enabled sl' = SelfLearning.enabled sl
  /\ SelfLearning.schedule sl' = SelfLearning.schedule sl
  /\ SelfLearning.topics sl' = SelfLearning.topics sl.
Proof.
  cbv zeta. unfold SelfLearning.failRun.
  destruct (SelfLearning.failEach h runId msg (SelfLearning.runHistory sl) w).
  repeat split.
Qed.

Lemma failRun_lastRunAt (runId msg : string) (sl : SelfLearning.Store)
    (w : W) :
  SelfLearning.lastRunAt (fst (SelfLearning.failRun h runId msg sl w))
  = SelfLearning.lastRunAt sl.
Proof.
  unfold SelfLearning.failRun.
  destruct (SelfLearning.failEach h runId msg (SelfLearning.runHistory sl) w).
  reflexivity.
Qed.

(** Neither transition starts a run: a quiet stretch of the ledger stays
    quiet. *)
Lemma completeRun_Quiet (runId : string) (now saved : Z)
    (l : list LearningRun.t) :
  Quiet l ->
  Quiet (map (fun r => if String.eqb (LearningRun.id r) runId
                       then SelfLearning.markDone now saved r else r) l).
Proof.
  unfold Quiet. induction 1 as [|r l Hr Hl IH]; cbn; constructor.
  - destruct (String.eqb (LearningRun.id r) runId); [reflexivity|exact Hr].
  - exact IH.
Qed.

Lemma failedFrom_Quiet (runId msg : string) (l l' : list LearningRun.t) :
  Forall2 (SelfLearning.failedFrom runId msg) l l' -> Quiet l -> Quiet l'.
Proof.
  unfold Quiet. induction 1 as [|r r' l l' Hr Hl IH]; intros HQ.
  - constructor.
  - constructor; [|apply IH, (Forall_inv_tail HQ)].
    apply Forall_inv in HQ. unfold SelfLearning.failedFrom in Hr.
    destruct (String.eqb (LearningRun.id r) runId).
    + destruct Hr as [Hs _]. unfold isRunningRecord. rewrite Hs. reflexivity.
    + subst r'. exact HQ.
Qed.

Lemma SingleFlight_count (l : list LearningRun.t) :
  SingleFlight l -> (runningCount l <= 1)%nat.
Proof.
  unfold runningCount. destruct l as [|r older]; cbn; [lia|].
  intros HQ.
  assert (E : filter isRunningRecord older = []).
  { induction HQ as [|x l Hx Hl IH]; cbn; [reflexivity|].
    rewrite Hx. exact IH. }
  rewrite E. destruct (isRunningRecord r); cbn; lia.
Qed.
End LedgerFacts.

(* ===================================================================== *)
(** * The learning loop *)
(* ===================================================================== *)

Section LoopFacts.
Context {W : Type} (h : Host W).

(** ** What the body of the loop changes *)

Lemma setEntries_same (m : Memory.Store) :
  Memory.setEntries (Memory.entries m ++ []) m = m.
Proof. rewrite app_nil_r. destruct m; reflexivity. Qed.

Lemma Grows_refl (s : State W) : Grows s s.
Proof.
  repeat split. exists []. symmetry. apply setEntries_same.
Qed.

Lemma Grows_trans (s1 s2 s3 : State W) :
  Grows s1 s2 -> Grows s2 s3 -> Grows s1 s3.
Proof.
  intros (A1 & B1 & C1 & a1 & M1) (A2 & B2 & C2 & a2 & M2).
  repeat split; try congruence.
  exists (a1 ++ a2)%list. rewrite M2, M1. cbn. rewrite app_assoc. reflexivity.
Qed.

Lemma Grows_world (s : State W) (w' : W) :
  Grows s (mkState (selfLearningStore s) (memoryStore s) (webSearchStore s)
             (consciousnessStore s) w').
Proof.
  repeat split. exists []. symmetry. apply setEntries_same.
Qed.

Lemma stepwise_ret {A : Type} (a : A) : Stepwise (ret (W := W) a).
Proof. intros s. apply Grows_refl. Qed.

Lemma stepwise_throw {A : Type} (e : JsError) :
  Stepwise (throw (W := W) (A := A) e).
Proof. intros s. apply Grows_refl. Qed.

Lemma stepwise_get : Stepwise (get (W := W)).
Proof. intros s. apply Grows_refl. Qed.

Lemma stepwise_bind {A B : Type} (c : M W A) (k : A -> M W B) :
  Stepwise c -> (forall a, Stepwise (k a)) -> Stepwise (bind c k).
Proof.
  intros Hc Hk s. unfold bind. specialize (Hc s).
  destruct (c s) as [[a|e] s']; cbn [snd] in *.
  - eapply Grows_trans; [exact Hc | apply Hk].
  - exact Hc.
Qed.

Lemma stepwise_tryCatch {A : Type} (c : M W A) (handler : JsError -> M W A) :
  Stepwise c -> (forall e, Stepwise (handler e)) ->
  Stepwise (tryCatch c handler).
Proof.
  intros Hc Hh s. unfold tryCatch. specialize (Hc s).
  destruct (c s) as [[a|e] s']; cbn [snd] in *.
  - exact Hc.
  - eapply Grows_trans; [exact Hc | apply Hh].
Qed.

Lemma stepwise_call {A : Type} (f : W -> Outcome A * W) :
  Stepwise (call f).
Proof.
  intros s. unfold call. destruct (f (world s)) as [o w'].
  apply Grows_world.
Qed.

Lemma stepwise_addEntry (content : string) (tags : list string)
    (src : Source) :
  Stepwise (onMemory (Memory.addEntry h content tags src)).
Proof.
  intros s. unfold onMemory, Memory.addEntry.
  destruct (Date_now h (world s)) as [now w1].
  destruct (nanoid h w1) as [newId w2]. cbn [snd].
  repeat split. eexists. reflexivity.
Qed.

Lemma stepwise_forEach {A B : Type} (body : B -> A -> M W B) :
  (forall acc x, Stepwise (body acc x)) ->
  forall l acc, Stepwise (forEach body acc l).
Proof.
  intros Hb. induction l as [|x l IH]; intros acc; cbn [forEach].
  - apply stepwise_ret.
  - apply stepwise_bind; [apply Hb | intros acc'; apply IH].
Qed.

Ltac stepwise :=
  repeat first
    [ apply stepwise_ret
    | apply stepwise_throw
    | apply stepwise_get
    | apply stepwise_call
    | apply stepwise_addEntry
    | apply stepwise_bind; [|intros ?]
    | apply stepwise_tryCatch; [|intros ?]
    | apply stepwise_forEach; intros ? ?
    | match goal with
      | |- Stepwise (if ?b then _ else _) => destruct b
      | |- Stepwise (match ?x with _ => _ end) => destruct x
      end ].

Lemma stepwise_readPage (url : string) : Stepwise (readPage h url).
Proof. unfold readPage. stepwise. Qed.

Lemma stepwise_readPages (urls : list string) : Stepwise (readPages h urls).
Proof.
  unfold readPages. apply stepwise_forEach. intros pages url.
  apply stepwise_bind; [apply stepwise_readPage | intros content].
  stepwise.
Qed.

Lemma stepwise_distillInsights (c : ChatProvider) (topic : string)
    (pages : list PageContent.t) :
  Stepwise (distillInsights h c topic pages).
Proof. unfold distillInsights. stepwise. Qed.

Lemma stepwise_saveInsights (name : string) (total : Z) (l : list string) :
  Stepwise (saveInsights h name total l).
Proof. unfold saveInsights. stepwise. Qed.

Lemma stepwise_learnTopic (c : ChatProvider) (total : Z)
    (topic : LearningTopic.t) :
  Stepwise (learnTopic h c total topic).
Proof.
  unfold learnTopic.
  apply stepwise_bind; [apply stepwise_call | intros results].
  destruct (List.length results =? 0)%nat; [apply stepwise_ret|].
  apply stepwise_bind; [apply stepwise_get | intros s].
  apply stepwise_bind; [apply stepwise_readPages | intros pages].
  apply stepwise_bind; [apply stepwise_distillInsights | intros raw].
  apply stepwise_bind; [apply stepwise_get | intros s'].
  apply stepwise_saveInsights.
Qed.

Lemma stepwise_loopBody (topics : list LearningTopic.t) :
  Stepwise (loopBody h topics).
Proof.
  unfold loopBody.
  apply stepwise_bind; [apply stepwise_get | intros s].
  apply stepwise_bind; [apply stepwise_call | intros c].
  apply stepwise_forEach. intros acc x. apply stepwise_learnTopic.
Qed.

(** ** What is absorbed *)

Lemma returns_ret {A : Type} (a : A) : Returns (ret (W := W) a).
Proof. intros s. exists a. reflexivity. Qed.

Lemma returns_get : Returns (get (W := W)).
Proof. intros s. exists s. reflexivity. Qed.

Lemma returns_bind {A B : Type} (c : M W A) (k : A -> M W B) :
  Returns c -> (forall a, Returns (k a)) -> Returns (bind c k).
Proof.
  intros Hc Hk s. unfold bind. destruct (Hc s) as [a Ha].
  destruct (c s) as [o s']. cbn [fst] in Ha. subst o. apply Hk.
Qed.

(** A [try] whose handler returns never throws, whatever it tries. *)
Lemma returns_tryCatch {A : Type} (c : M W A) (handler : JsError -> M W A) :
  (forall e, Returns (handler e)) -> Returns (tryCatch c handler).
Proof.
  intros Hh s. unfold tryCatch. destruct (c s) as [[a|e] s'].
  - exists a. reflexivity.
  - apply Hh.
Qed.

Lemma returns_onMemory {A : Type}
    (f : Memory.Store -> W -> A * Memory.Store * W) :
  Returns (onMemory f).
Proof.
  intros s. unfold onMemory.
  destruct (f (memoryStore s) (world s)) as [[a m'] w'].
  exists a. reflexivity.
Qed.

Lemma returns_call {A : Type} (f : W -> Outcome A * W) :
  (forall w, exists a, fst (f w) = Returned a) -> Returns (call f).
Proof.
  intros Hf s. unfold call. destruct (Hf (world s)) as [a Ha].
  destruct (f (world s)) as [o w']. cbn [fst] in *. exists a. exact Ha.
Qed.

Lemma returns_forEach {A B : Type} (body : B -> A -> M W B) :
  (forall acc x, Returns (body acc x)) ->
  forall l acc, Returns (forEach body acc l).
Proof.
  intros Hb. induction l as [|x l IH]; intros acc; cbn [forEach].
  - apply returns_ret.
  - apply returns_bind; [apply Hb | intros acc'; apply IH].
Qed.

(** A failed request is an empty page. *)
Lemma returns_readPage (url : string) : Returns (readPage h url).
Proof.
  unfold readPage. apply returns_tryCatch. intros e. apply returns_ret.
Qed.

Lemma returns_readPages (urls : list string) : Returns (readPages h urls).
Proof.
  unfold readPages. apply returns_forEach. intros pages url.
  apply returns_bind; [apply returns_readPage | intros content].
  destruct (200 <? String.length (Js.trim content))%nat; apply returns_ret.
Qed.

(** A failed generation or a reply that does not parse is an empty list of
    insights. *)
Lemma returns_distillInsights (c : ChatProvider) (topic : string)
    (pages : list PageContent.t) :
  Returns (distillInsights h c topic pages).
Proof.
  unfold distillInsights.
  destruct (List.length pages =? 0)%nat; [apply returns_ret|].
  apply returns_tryCatch. intros e. apply returns_ret.
Qed.

Lemma returns_saveInsights (name : string) (total : Z) (l : list string) :
  Returns (saveInsights h name total l).
Proof.
  unfold saveInsights. apply returns_forEach. intros acc x.
  apply returns_bind; [apply returns_onMemory | intros _; apply returns_ret].
Qed.

Lemma returns_learnTopic (c : ChatProvider) (total : Z)
    (topic : LearningTopic.t) :
  SearchNeverFails h -> Returns (learnTopic h c total topic).
Proof.
  intros [_ Hs]. unfold learnTopic.
  apply returns_bind; [apply returns_call; intros w; apply Hs | intros results].
  destruct (List.length results =? 0)%nat; [apply returns_ret|].
  apply returns_bind; [apply returns_get | intros s].
  apply returns_bind; [apply returns_readPages | intros pages].
  apply returns_bind; [apply returns_distillInsights | intros raw].
  apply returns_bind; [apply returns_get | intros s'].
  apply returns_saveInsights.
Qed.

Lemma returns_loopBody (topics : list LearningTopic.t) :
  SearchNeverFails h -> Returns (loopBody h topics).
Proof.
  intros Hh. unfold loopBody.
  apply returns_bind; [apply returns_get | intros s].
  apply returns_bind.
  - apply returns_call. intros w. apply (proj1 Hh).
  - intros c. apply returns_forEach. intros acc x.
    apply returns_learnTopic, Hh.
Qed.

(** ** The run as a whole *)

Lemma length_eqb_0 {A : Type} (l : list A) :
  l <> [] -> (List.length l =? 0)%nat = false.
Proof. destruct l; [congruence | reflexivity]. Qed.

(** Past the guard and the pre-flight checks, the run starts a record,
    goes through the topics, and closes the record one way or the
    other. *)
Lemma runLearningLoop_ready (s : State W) :
  ready s ->
  runLearningLoop h s
  = match loopBody h (SelfLearning.activeTopics (selfLearningStore s))
            (started h s) with
    | (Returned total, s2) =>
        (Returned total, completed h (startedRun h s) total s2)
    | (Thrown e, s2) => (Thrown e, failed h (startedRun h s) e s2)
    end.
Proof.
  intros (He & Hr & Hp & Hm & Hc & Ht).
  unfold runLearningLoop, started, startedRun, learnTopics, loopBody,
    completed, failed, tryCatch, bind, get, onSelfLearning, ret, throw.
  rewrite He, Hr, Hp, Hm, Hc. cbn [negb orb].
  rewrite (length_eqb_0 _ Ht).
  destruct (SelfLearning.startRun h _ (selfLearningStore s) (world s))
    as [[run sl1] w1].
  cbn [fst snd consciousnessStore].
  destruct (call _ _) as [[c|e] s1'].
  - destruct (forEach _ _ _ _) as [[total|e] s2].
    + destruct (SelfLearning.completeRun h _ _ _ _) as [sl3 w3].
      reflexivity.
    + destruct (SelfLearning.failRun h _ _ _ _) as [sl3 w3].
      reflexivity.
  - destruct (SelfLearning.failRun h _ _ _ _) as [sl3 w3].
    reflexivity.
Qed.
End LoopFacts.

Section RunFacts.
Context {W : Type} (h : Host W).

(** The guard: a disabled loop or a run in flight returns at once. *)
Lemma runLearningLoop_guard (s : State W) :
  SelfLearning.enabled (selfLearningStore s) = false
  \/ SelfLearning.isRunning (selfLearningStore s) = true ->
  runLearningLoop h s = (Returned 0%Z, s).
Proof.
  intros H. unfold runLearningLoop, bind, get.
  destruct H as [-> | ->]; [reflexivity|].
  rewrite orb_true_r. reflexivity.
Qed.

(** The pre-flight checks throw before anything is written. *)
Lemma runLearningLoop_preflight (s : State W) :
  SelfLearning.enabled (selfLearningStore s) = true ->
  SelfLearning.isRunning (selfLearningStore s) = false ->
  ~ ready s ->
  exists e, configurationError e /\ runLearningLoop h s = (Thrown e, s).
Proof.
  intros He Hr Hn. unfold runLearningLoop, bind, get, throw.
  rewrite He, Hr. cbn [negb orb].
  destruct (Js.truthy (Consciousness.activeProvider (consciousnessStore s)))
    eqn:Hp; cbn [negb orb];
    [|eexists; split; [left; reflexivity | reflexivity]].
  destruct (Js.truthy (Consciousness.activeModel (consciousnessStore s)))
    eqn:Hm; cbn [negb];
    [|eexists; split; [left; reflexivity | reflexivity]].
  destruct (WebSearch.configured (webSearchStore s))
    eqn:Hc; cbn [negb];
    [|eexists; split; [right; left; reflexivity | reflexivity]].
  destruct (SelfLearning.activeTopics (selfLearningStore s)) as [|t ts] eqn:Ht.
  - eexists; split; [right; right; reflexivity | reflexivity].
  - exfalso. apply Hn. unfold ready. rewrite Ht. repeat split; auto.
    discriminate.
Qed.

(** Every call is of one of three kinds. *)
Lemma runLearningLoop_cases (s : State W) :
  runLearningLoop h s = (Returned 0%Z, s)
  \/ (exists e, configurationError e /\ runLearningLoop h s = (Thrown e, s))
  \/ ready s.
Proof.
  destruct (SelfLearning.enabled (selfLearningStore s)) eqn:He;
    [|left; apply runLearningLoop_guard; left; exact He].
  destruct (SelfLearning.isRunning (selfLearningStore s)) eqn:Hr;
    [left; apply runLearningLoop_guard; right; exact Hr|].
  destruct (Js.truthy (Consciousness.activeProvider (consciousnessStore s)))
    eqn:Hp;
    [|right; left; apply runLearningLoop_preflight; auto;
      intros (_ & _ & H & _); congruence].
  destruct (Js.truthy (Consciousness.activeModel (consciousnessStore s)))
    eqn:Hm;
    [|right; left; apply runLearningLoop_preflight; auto;
      intros (_ & _ & _ & H & _); congruence].
  destruct (WebSearch.configured (webSearchStore s)) eqn:Hc;
    [|right; left; apply runLearningLoop_preflight; auto;
      intros (_ & _ & _ & _ & H & _); congruence].
  destruct (SelfLearning.activeTopics (selfLearningStore s)) as [|t ts] eqn:Ht;
    [right; left; apply runLearningLoop_preflight; auto;
     intros (_ & _ & _ & _ & _ & H); congruence|].
  right; right. unfold ready. rewrite Ht. repeat split; auto. discriminate.
Qed.

(** The state after [startRun]: the new record heads the ledger, nothing
    else moved. *)
Lemma started_spec (s : State W) :
  SelfLearning.runHistory (selfLearningStore (started h s))
    = startedRun h s
      :: firstn 19 (SelfLearning.runHistory (selfLearningStore s))
  /\ SelfLearning.lastRunAt (selfLearningStore (started h s))
     = SelfLearning.lastRunAt (selfLearningStore s)
  /\ memoryStore (started h s) = memoryStore s
  /\ LearningRun.status (startedRun h s) = running
  /\ LearningRun.insightsSaved (startedRun h s) = 0%Z.
Proof.
  unfold started, startedRun.
  pose proof (startRun_spec h
                (map LearningTopic.name
                   (SelfLearning.activeTopics (selfLearningStore s)))
                (selfLearningStore s) (world s)) as H.
  destruct (SelfLearning.startRun h _ (selfLearningStore s) (world s))
    as [[run sl1] w1].
  destruct H as (H1 & H2 & H3 & _ & H5). cbn. auto.
Qed.

Lemma loopBody_Grows (topics : list LearningTopic.t) (s1 : State W) :
  Grows s1 (snd (loopBody h topics s1)).
Proof. apply stepwise_loopBody. Qed.

(** Closing the record that heads the ledger. *)
Lemma completed_latest (run : LearningRun.t) (total : Z) (s2 : State W)
    (older : list LearningRun.t) :
  SelfLearning.runHistory (selfLearningStore s2) = run :: older ->
  let now := fst (Date_now h (world s2)) in
  SelfLearning.latestRun (selfLearningStore (completed h run total s2))
    = Some (SelfLearning.markDone now total run)
  /\ SelfLearning.lastRunAt (selfLearningStore (completed h run total s2))
     = Some now
  /\ memoryStore (completed h run total s2) = memoryStore s2.
Proof.
  intros Hh now. unfold completed.
  pose proof (completeRun_history h (LearningRun.id run) total
                (selfLearningStore s2) (world s2)) as H1.
  pose proof (completeRun_lastRunAt h (LearningRun.id run) total
                (selfLearningStore s2) (world s2)) as H2.
  destruct (SelfLearning.completeRun h _ _ _ _) as [sl3 w3].
  cbn [fst selfLearningStore memoryStore] in *.
  unfold SelfLearning.latestRun. rewrite H1, H2, Hh. cbn [map].
  rewrite String.eqb_refl. auto.
Qed.

Lemma failed_latest (run : LearningRun.t) (e : JsError) (s2 : State W)
    (older : list LearningRun.t) :
  SelfLearning.runHistory (selfLearningStore s2) = run :: older ->
  (exists r,
     SelfLearning.latestRun (selfLearningStore (failed h run e s2)) = Some r
     /\ LearningRun.status r = error
     /\ LearningRun.error r = Some (errorMessage e)
     /\ LearningRun.insightsSaved r = LearningRun.insightsSaved run)
  /\ SelfLearning.lastRunAt (selfLearningStore (failed h run e s2))
     = SelfLearning.lastRunAt (selfLearningStore s2)
  /\ memoryStore (failed h run e s2) = memoryStore s2.
Proof.
  intros Hh. unfold failed.
  pose proof (failRun_history h (LearningRun.id run) (errorMessage e)
                (selfLearningStore s2) (world s2)) as H1.
  pose proof (failRun_lastRunAt h (LearningRun.id run) (errorMessage e)
                (selfLearningStore s2) (world s2)) as H2.
  destruct (SelfLearning.failRun h _ _ _ _) as [sl3 w3].
  cbn [fst selfLearningStore memoryStore] in *.
  rewrite Hh in H1. inversion H1 as [|r0 r l0 l' Hr Hl E1 E2]; subst.
  unfold SelfLearning.failedFrom in Hr. rewrite String.eqb_refl in Hr.
  destruct Hr as (Hs & Herr & _ & _ & _ & _ & Hi).
  split; [|auto].
  exists r. unfold SelfLearning.latestRun. rewrite <- E2. auto.
Qed.

(** A ready run, whichever way it ends. *)
Lemma runLearningLoop_ready_outcome (s : State W) :
  ready s ->
  let out := runLearningLoop h s in
  (exists added,
     Memory.entries (memoryStore (snd out))
     = (Memory.entries (memoryStore s) ++ added)%list)
  /\ match fst out with
     | Returned total =>
         exists r t,
           SelfLearning.latestRun (selfLearningStore (snd out)) = Some r
           /\ LearningRun.status r = done
           /\ LearningRun.insightsSaved r = total
           /\ LearningRun.completedAt r = Some t
           /\ SelfLearning.lastRunAt (selfLearningStore (snd out)) = Some t
     | Thrown e =>
         (exists r,
            SelfLearning.latestRun (selfLearningStore (snd out)) = Some r
            /\ LearningRun.status r = error
            /\ LearningRun.error r = Some (errorMessage e)
            /\ LearningRun.insightsSaved r = 0%Z)
         /\ SelfLearning.lastRunAt (selfLearningStore (snd out))
            = SelfLearning.lastRunAt (selfLearningStore s)
     end.
Proof.
  intros Hready out. subst out. rewrite (runLearningLoop_ready h s Hready).
  pose proof (started_spec s) as (Hh & Hl & Hm & Hst & Hins).
  pose proof (loopBody_Grows
                (SelfLearning.activeTopics (selfLearningStore s))
                (started h s)) as (Gs & _ & _ & added & Gm).
  destruct (loopBody h _ (started h s)) as [[total|e] s2]; cbn [fst snd] in *.
  - rewrite <- Gs in Hh.
    destruct (completed_latest (startedRun h s) total s2 _ Hh)
      as (H1 & H2 & H3).
    split.
    + exists added. rewrite H3, Gm, Hm. reflexivity.
    + eexists; eexists. split; [exact H1|]. cbn. auto.
  - rewrite <- Gs in Hh.
    destruct (failed_latest (startedRun h s) e s2 _ Hh)
      as ((r & R1 & R2 & R3 & R4) & H2 & H3).
    split.
    + exists added. rewrite H3, Gm, Hm. reflexivity.
    + split.
      * exists r. rewrite R4, Hins. auto.
      * rewrite H2, Gs. exact Hl.
Qed.

(** Fetching, generation and parsing may fail as they will: when the
    provider and the search do not, a ready run returns. *)
Lemma runLearningLoop_returns (s : State W) :
  ready s -> SearchNeverFails h ->
  exists total, fst (runLearningLoop h s) = Returned total.
Proof.
  intros Hready Hh. rewrite (runLearningLoop_ready h s Hready).
  destruct (returns_loopBody h
              (SelfLearning.activeTopics (selfLearningStore s)) Hh
              (started h s)) as [total Ht].
  destruct (loopBody h _ (started h s)) as [o s2]. cbn [fst] in Ht. subst o.
  exists total. reflexivity.
Qed.

(** The run keeps the ledger single-flight. *)
Lemma runLearningLoop_SingleFlight (s : State W) :
  SingleFlight (SelfLearning.runHistory (selfLearningStore s)) ->
  SingleFlight
    (SelfLearning.runHistory (selfLearningStore (snd (runLearningLoop h s)))).
Proof.
  intros HS.
  destruct (runLearningLoop_cases s) as [E | [[e [_ E]] | Hready]];
    [rewrite E; exact HS | rewrite E; exact HS |].
  rewrite (runLearningLoop_ready h s Hready).
  pose proof (started_spec s) as (Hh & _).
  assert (HQ : Quiet (firstn 19 (SelfLearning.runHistory (selfLearningStore s)))).
  { apply Quiet_firstn, isRunning_false_Quiet; [exact HS | apply Hready]. }
  pose proof (loopBody_Grows
                (SelfLearning.activeTopics (selfLearningStore s))
                (started h s)) as (Gs & _).
  destruct (loopBody h _ (started h s)) as [[total|e] s2]; cbn [fst snd] in *;
    rewrite <- Gs in Hh.
  - unfold completed.
    pose proof (completeRun_history h (LearningRun.id (startedRun h s)) total
                  (selfLearningStore s2) (world s2)) as H1.
    destruct (SelfLearning.completeRun h _ _ _ _) as [sl3 w3].
    cbn [fst selfLearningStore] in *. rewrite H1, Hh. cbn [map SingleFlight].
    apply completeRun_Quiet, HQ.
  - unfold failed.
    pose proof (failRun_history h (LearningRun.id (startedRun h s))
                  (errorMessage e) (selfLearningStore s2) (world s2)) as H1.
    destruct (SelfLearning.failRun h _ _ _ _) as [sl3 w3].
    cbn [fst selfLearningStore] in *. rewrite Hh in H1.
    inversion H1 as [|r0 r l0 l' Hr Hl E1 E2]; subst. cbn [SingleFlight].
    eapply failedFrom_Quiet; [exact Hl | exact HQ].
Qed.
End RunFacts.

(* ===================================================================== *)
(** * The loop against its specification *)
(* ===================================================================== *)

Section Transitions.
Context {W : Type} (h : Host W).

Lemma completeRun_spec (runId : string) (saved : Z)
    (sl : SelfLearning.Store) (w : W) :
  Forall2 (SelfLearning.completedFrom runId (fst (Date_now h w)) saved)
    (SelfLearning.runHistory sl)
    (SelfLearning.runHistory
       (fst (SelfLearning.completeRun h runId saved sl w))).
Proof.
  rewrite completeRun_history.
  induction (SelfLearning.runHistory sl) as [|r l IH]; cbn [map];
    constructor; [|exact IH].
  unfold SelfLearning.completedFrom.
  destruct (String.eqb (LearningRun.id r) runId); cbn; auto 10.
Qed.

(** A call that throws leaves the schedule baseline where it was. *)
Lemma thrown_keeps_lastRunAt (s : State W) (e : JsError) :
  fst (runLearningLoop h s) = Thrown e ->
  SelfLearning.lastRunAt (selfLearningStore (snd (runLearningLoop h s)))
  = SelfLearning.lastRunAt (selfLearningStore s).
Proof.
  intros Hthrown.
  destruct (runLearningLoop_cases h s) as [E | [[e' [_ E]] | Hready]].
  - rewrite E in Hthrown. discriminate.
  - rewrite E. reflexivity.
  - pose proof (runLearningLoop_ready_outcome h s Hready) as [_ H].
    cbv zeta in H. rewrite Hthrown in H. apply H.
Qed.
End Transitions.

(** C2.  Run twice in a row on the end-to-end scenario of the specification
    (one topic, one search result, a page of 300 characters, the one insight
    about Tokio), the loop saves the insight both times: the second run
    counts one insight saved and the store ends with the same fact twice.
    The first run by itself behaves as the scenario says. *)
Theorem second_run_stores_the_fact_again :
  let host := Sample.stubHost Sample.reliable in
  let first := runLearningLoop host Sample.endToEnd in
  let second := runLearningLoop host (snd first) in
  fst first = Returned 1%Z
  /\ map (fun e => (MemoryEntry.content e, MemoryEntry.source e,
                    MemoryEntry.confidence e, MemoryEntry.tags e))
       (Memory.entries (memoryStore (snd first)))
     = [(Sample.tokio, self_learning, 6 # 10,
         ["Rust async runtimes"; "self-learning"])]
  /\ option_map LearningRun.status
       (SelfLearning.latestRun (selfLearningStore (snd first))) = Some done
  /\ fst second = Returned 1%Z
  /\ map MemoryEntry.content (Memory.entries (memoryStore (snd second)))
     = [Sample.tokio; Sample.tokio].
Proof. vm_compute. repeat split. Qed.

Lemma ready_threeTopics : ready Sample.threeTopics.
Proof. repeat split; discriminate. Qed.

(** C3, as stated, fails: when the search of the second of three topics
    throws, the run rethrows the error to its caller, its record ends
    [error], and the third topic is never searched. *)
Lemma search_failure_is_rethrown :
  let out := runLearningLoop (Sample.stubHost Sample.flaky)
               Sample.threeTopics in
  ready Sample.threeTopics
  /\ fst out = Thrown (ErrorObject "fetch failed")
  /\ option_map LearningRun.status
       (SelfLearning.latestRun (selfLearningStore (snd out))) = Some error
  /\ snd (world (snd out)) = ["Rust async runtimes"; "Flaky topic"]
  /\ ~ AbsorbsEveryFailure.
Proof.
  cbv zeta. split; [exact ready_threeTopics|].
  split; [vm_compute; reflexivity|].
  split; [vm_compute; reflexivity|].
  split; [vm_compute; reflexivity|].
  intros H.
  destruct (H _ (Sample.stubHost Sample.flaky) Sample.threeTopics
              ready_threeTopics) as [n [Hn _]].
  vm_compute in Hn. discriminate.
Qed.

(** C4.  While a ledger has no running record except possibly the most
    recent one, it counts at most one running record, and it stays so both
    while a run is in flight (after [startRun], when [isRunning] holds) and
    after a call of [runLearningLoop].  When the most recent record is
    running, the call returns 0 at once without throwing and changes
    nothing: no record is made, the history keeps its length, the memory is
    not touched. *)
Theorem single_flight (W : Type) (h : Host W) (s : State W) :
  SingleFlight (SelfLearning.runHistory (selfLearningStore s)) ->
  (runningCount (SelfLearning.runHistory (selfLearningStore s)) <= 1)%nat
  /\ (ready s ->
      SelfLearning.isRunning (selfLearningStore (started h s)) = true
      /\ SingleFlight
           (SelfLearning.runHistory (selfLearningStore (started h s))))
  /\ SingleFlight
       (SelfLearning.runHistory
          (selfLearningStore (snd (runLearningLoop h s))))
  /\ (SelfLearning.isRunning (selfLearningStore s) = true ->
      runLearningLoop h s = (Returned 0%Z, s)
      /\ List.length
           (SelfLearning.runHistory
              (selfLearningStore (snd (runLearningLoop h s))))
         = List.length (SelfLearning.runHistory (selfLearningStore s))
      /\ memoryStore (snd (runLearningLoop h s)) = memoryStore s).
Proof.
  intros HS. split; [apply SingleFlight_count, HS|].
  split.
  { intros Hready.
    pose proof (started_spec h s) as (Hh & _ & _ & Hst & _).
    split.
    - unfold SelfLearning.isRunning, SelfLearning.latestRun.
      rewrite Hh, Hst. reflexivity.
    - rewrite Hh. cbn [SingleFlight].
      apply Quiet_firstn, isRunning_false_Quiet; [exact HS | apply Hready]. }
  split; [apply runLearningLoop_SingleFlight, HS|].
  intros Hr.
  assert (E : runLearningLoop h s = (Returned 0%Z, s))
    by (apply runLearningLoop_guard; right; exact Hr).
  rewrite E. auto.
Qed.

Lemma single_flight_witness :
  SelfLearning.isRunning (selfLearningStore Sample.inFlight) = true
  /\ runLearningLoop (Sample.stubHost Sample.reliable) Sample.inFlight
     = (Returned 0%Z, Sample.inFlight).
Proof.
  split; [reflexivity|].
  apply (single_flight _ (Sample.stubHost Sample.reliable) Sample.inFlight).
  - constructor.
  - reflexivity.
Defined.

(** C9.  [completeRun] turns every record with the given identifier into a
    [done] record stamped with the clock reading and carrying the count, and
    sets [lastRunAt] to that reading.  [failRun] turns it into an [error]
    record carrying the message and stamped with a reading of the clock
    (one reading for each record of that identifier, in the order of the
    ledger, so the first reading for the record of the run when it heads
    the ledger), and leaves [lastRunAt] alone.  Other records are
    untouched, and so are the topics and the settings.  So a call of
    [runLearningLoop] that throws ends with the [lastRunAt] it started
    with. *)
Theorem ledger_transitions (W : Type) (h : Host W) :
  (forall runId saved sl w,
     let now := fst (Date_now h w) in
     let sl' := fst (SelfLearning.completeRun h runId saved sl w) in
     Forall2 (SelfLearning.completedFrom runId now saved)
       (SelfLearning.runHistory sl) (SelfLearning.runHistory sl')
     /\ SelfLearning.lastRunAt sl' = Some now)
  /\ (forall runId msg sl w,
        let sl' := fst (SelfLearning.failRun h runId msg sl w) in
        let hits := List.length
                      (SelfLearning.recordsOf runId
                         (SelfLearning.runHistory sl)) in
        Forall2 (SelfLearning.failedFrom runId msg)
          (SelfLearning.runHistory sl) (SelfLearning.runHistory sl')
        /\ map LearningRun.completedAt
             (SelfLearning.recordsOf runId (SelfLearning.runHistory sl'))
           = map Some (fst (SelfLearning.readClock h hits w))
        /\ snd (SelfLearning.failRun h runId msg sl w)
           = snd (SelfLearning.readClock h hits w)
        /\ SelfLearning.lastRunAt sl' = SelfLearning.lastRunAt sl
        /\ SelfLearning.topics sl' = SelfLearning.topics sl
        /\ SelfLearning.schedule sl' = SelfLearning.schedule sl
        /\ SelfLearning.enabled sl' = SelfLearning.enabled sl)
  /\ (forall msg sl w r older,
        SelfLearning.runHistory sl = r :: older ->
        exists r',
          SelfLearning.latestRun
            (fst (SelfLearning.failRun h (LearningRun.id r) msg sl w))
          = Some r'
          /\ LearningRun.status r' = error
          /\ LearningRun.completedAt r' = Some (fst (Date_now h w))
          /\ LearningRun.error r' = Some msg
          /\ LearningRun.insightsSaved r' = LearningRun.insightsSaved r
          /\ LearningRun.startedAt r' = LearningRun.startedAt r
          /\ LearningRun.id r' = LearningRun.id r)
  /\ (forall s e,
        fst (runLearningLoop h s) = Thrown e ->
        SelfLearning.lastRunAt (selfLearningStore (snd (runLearningLoop h s)))
        = SelfLearning.lastRunAt (selfLearningStore s)).
Proof.
  split; [|split; [|split]].
  - intros runId saved sl w now sl'. split.
    + apply completeRun_spec.
    + apply completeRun_lastRunAt.
  - intros runId msg sl w sl' hits.
    split; [apply failRun_history|].
    split; [apply (failRun_stamps h runId msg sl w)|].
    split; [apply (failRun_stamps h runId msg sl w)|].
    split; [apply failRun_lastRunAt|].
    pose proof (failRun_frame h runId msg sl w) as (H1 & H2 & H3).
    auto.
  - intros msg sl w r older Hh.
    rewrite (failRun_head h msg sl w r older Hh).
    eexists. split; [reflexivity|]. cbn. auto 10.
  - apply thrown_keeps_lastRunAt.
Qed.

Lemma ledger_transitions_witness :
  SelfLearning.lastRunAt
    (selfLearningStore
       (snd (runLearningLoop (Sample.stubHost Sample.flaky)
               Sample.threeTopics)))
  = SelfLearning.lastRunAt (selfLearningStore Sample.threeTopics).
Proof.
  apply (proj2 (proj2 (proj2
           (ledger_transitions _ (Sample.stubHost Sample.flaky))))
           Sample.threeTopics (ErrorObject "fetch failed")).
  vm_compute. reflexivity.
Defined.


(* ===================================================================== *)
(** * More on strings *)
(* ===================================================================== *)

Section StringFacts.

Lemma trimStart_head (s : string) :
  Js.trimStart s = EmptyString
  \/ exists c x, Js.trimStart s = String c x /\ Js.isSpace c = false.
Proof.
  induction s as [|c r IH]; cbn.
  - left. reflexivity.
  - destruct (Js.isSpace c) eqn:E; [exact IH|].
    right. exists c, r. split; [reflexivity | exact E].
Qed.

Lemma trimEnd_cons (c : ascii) (r : string) :
  Js.isSpace c = false ->
  Js.trimEnd (String c r) = String c (Js.trimEnd r).
Proof.
  intros E. cbn. destruct (Js.trimEnd r); [rewrite E|]; reflexivity.
Qed.

Lemma trimEnd_idempotent (s : string) :
  Js.trimEnd (Js.trimEnd s) = Js.trimEnd s.
Proof.
  induction s as [|c r IH]; [reflexivity|].
  cbn. destruct (Js.trimEnd r) as [|d r'] eqn:E.
  - destruct (Js.isSpace c) eqn:Ec; cbn; [reflexivity|].
    rewrite Ec. reflexivity.
  - cbn. cbn in IH. destruct (Js.trimEnd r') as [|d' r''] eqn:E'.
    + destruct (Js.isSpace d); [discriminate|]. rewrite IH. reflexivity.
    + rewrite IH. reflexivity.
Qed.

Lemma trim_idempotent (s : string) : Js.trim (Js.trim s) = Js.trim s.
Proof.
  unfold Js.trim.
  destruct (trimStart_head s) as [E | (c & x & E & Hc)]; rewrite E.
  - reflexivity.
  - rewrite (trimEnd_cons c x Hc). cbn [Js.trimStart]. rewrite Hc.
    rewrite <- (trimEnd_cons c x Hc). apply trimEnd_idempotent.
Qed.

Lemma truthy_length (s : string) :
  Js.truthy s = true <-> (0 < String.length s)%nat.
Proof. destruct s; cbn; split; intros; try lia; try discriminate; auto. Qed.

Lemma truthy_nonempty (s : string) :
  Js.truthy s = true <-> s <> EmptyString.
Proof.
  destruct s; cbn; split; intros; try congruence; try discriminate; auto.
Qed.

Lemma substring_length_le (n : nat) (s : string) :
  (String.length (substring 0 n s) <= n)%nat.
Proof.
  revert s. induction n as [|n IH]; intros [|c r]; cbn; try lia.
  specialize (IH r). lia.
Qed.

Lemma firstn_length_min {A : Type} (n : nat) (l : list A) :
  List.length (firstn n l) = Nat.min n (List.length l).
Proof. apply length_firstn. Qed.

End StringFacts.

(* ===================================================================== *)
(** * More on the memory store *)
(* ===================================================================== *)

Section MemoryMore.

Lemma setEntries_entries (m : Memory.Store) :
  Memory.setEntries (Memory.entries m) m = m.
Proof. destruct m; reflexivity. Qed.

Lemma filter_all {A : Type} (f : A -> bool) (l : list A) :
  (forall x, In x l -> f x = true) -> filter f l = l.
Proof.
  induction l as [|x l IH]; intros H; cbn; [reflexivity|].
  rewrite (H x (or_introl eq_refl)), IH; [reflexivity|].
  intros y Hy. apply H. right. exact Hy.
Qed.

Lemma filter_idempotent {A : Type} (f : A -> bool) (l : list A) :
  filter f (filter f l) = filter f l.
Proof.
  apply filter_all. intros x Hx. apply filter_In in Hx. apply Hx.
Qed.

Lemma eqb_neq_negb (a b : string) : negb (String.eqb a b) = true <-> a <> b.
Proof.
  rewrite negb_true_iff. apply String.eqb_neq.
Qed.

End MemoryMore.

(** X1.  [deleteEntry(id)] removes every entry with that identifier and
    nothing else: the other entries stay, in their order; deleting an
    identifier the store does not hold changes nothing, and so does
    deleting twice. *)
Theorem deleteEntry_spec (i : string) (m : Memory.Store) :
  let m' := Memory.deleteEntry i m in
  (forall e, In e (Memory.entries m')
             <-> In e (Memory.entries m) /\ MemoryEntry.id e <> i)
  /\ Subsequence (Memory.entries m') (Memory.entries m)
  /\ (~ In i (Memory.ids (Memory.entries m)) -> m' = m)
  /\ Memory.deleteEntry i m' = m'
  /\ Memory.enabled m' = Memory.enabled m
  /\ Memory.maxInjectedEntries m' = Memory.maxInjectedEntries m.
Proof.
  cbv zeta. unfold Memory.deleteEntry. cbn [Memory.entries Memory.setEntries].
  split; [|split; [|split; [|split; [|split]]]]; try reflexivity.
  - intros e. rewrite filter_In, eqb_neq_negb. reflexivity.
  - apply filter_Subsequence.
  - intros Hn. rewrite filter_all; [apply setEntries_entries|].
    intros e He. apply eqb_neq_negb. intros Hi. apply Hn.
    unfold Memory.ids. rewrite <- Hi. apply in_map, He.
  - rewrite filter_idempotent. reflexivity.
Qed.

Lemma deleteEntry_spec_witness :
  Memory.deleteEntry "nobody" Sample.tieStore = Sample.tieStore.
Proof.
  apply (proj1 (proj2 (proj2 (deleteEntry_spec "nobody" Sample.tieStore)))).
  cbn. intros [H|[H|[]]]; discriminate.
Defined.

(** X2.  An entry just added is undone by deleting its identifier, as long
    as the identifier drawn was not already in the store: the store is back
    to what it was. *)
Theorem addEntry_deleteEntry
    (W : Type) (h : Host W) (content : string) (tags : list string)
    (src : Source) (m : Memory.Store) (w : W) :
  let entry := fst (fst (Memory.addEntry h content tags src m w)) in
  let m' := snd (fst (Memory.addEntry h content tags src m w)) in
  ~ In (MemoryEntry.id entry) (Memory.ids (Memory.entries m)) ->
  In entry (Memory.entries m')
  /\ Memory.deleteEntry (MemoryEntry.id entry) m' = m.
Proof.
  cbv zeta. unfold Memory.addEntry.
  destruct (Date_now h w) as [now w1]. destruct (nanoid h w1) as [newId w2].
  cbn [fst snd MemoryEntry.id]. intros Hfresh.
  split; [cbn; apply in_or_app; right; left; reflexivity|].
  unfold Memory.deleteEntry. cbn [Memory.entries Memory.setEntries].
  rewrite filter_app. cbn [filter MemoryEntry.id].
  rewrite String.eqb_refl. cbn [negb]. rewrite app_nil_r.
  rewrite filter_all; [destruct m; reflexivity|].
  intros e He. apply eqb_neq_negb. intros Hi. apply Hfresh.
  unfold Memory.ids. rewrite <- Hi. apply in_map, He.
Qed.

Lemma addEntry_deleteEntry_witness :
  Memory.deleteEntry "id"
    (snd (fst (Memory.addEntry Sample.tickingHost "  a fact " ["t"] manual
                 Sample.tieStore 5%Z)))
  = Sample.tieStore.
Proof.
  apply (addEntry_deleteEntry Z Sample.tickingHost "  a fact " ["t"] manual
           Sample.tieStore 5%Z).
  cbn. intros [H|[H|[]]]; discriminate.
Defined.

Section UpdateFacts.
Context {W : Type} (h : Host W).

(** What [updateEntry] turns the entry [e] into. *)
Let updatedFrom (i content : string) (tags : option (list string))
    (e e' : MemoryEntry.t) : Prop :=
  if String.eqb (MemoryEntry.id e) i
  then MemoryEntry.content e' = Js.trim content
       /\ MemoryEntry.tags e'
          = match tags with Some t => t | None => MemoryEntry.tags e end
       /\ MemoryEntry.id e' = MemoryEntry.id e
       /\ MemoryEntry.source e' = MemoryEntry.source e
       /\ MemoryEntry.confidence e' = MemoryEntry.confidence e
       /\ MemoryEntry.useCount e' = MemoryEntry.useCount e
       /\ MemoryEntry.createdAt e' = MemoryEntry.createdAt e
  else e' = e.

Lemma updateEach_spec (i content : string) (tags : option (list string))
    (l : list MemoryEntry.t) (w : W) :
  Forall2 (updatedFrom i content tags) l
    (fst (Memory.updateEach h i content tags l w))
  /\ (~ In i (Memory.ids l) -> Memory.updateEach h i content tags l w = (l, w)).
Proof.
  revert w. induction l as [|e r IH]; intros w; cbn [Memory.updateEach].
  - split; [constructor | reflexivity].
  - destruct (String.eqb (MemoryEntry.id e) i) eqn:E.
    + destruct (Date_now h w) as [now w1].
      destruct (IH w1) as [IH1 _].
      destruct (Memory.updateEach h i content tags r w1) as [r' w2].
      split.
      * constructor; [|exact IH1]. unfold updatedFrom. rewrite E.
        cbn. repeat split.
      * intros Hn. exfalso. apply Hn. left. apply String.eqb_eq, E.
    + destruct (IH w) as [IH1 IH2].
      destruct (Memory.updateEach h i content tags r w) as [r' w2].
      split.
      * constructor; [|exact IH1]. unfold updatedFrom. rewrite E. reflexivity.
      * intros Hn. assert (Hr : ~ In i (Memory.ids r)).
        { intros Hi. apply Hn. right. exact Hi. }
        specialize (IH2 Hr). inversion IH2. reflexivity.
Qed.

(** What [boostConfidence] turns the entry [e] into. *)
Let boostedFrom (i : string) (delta : Q) (e e' : MemoryEntry.t) : Prop :=
  if String.eqb (MemoryEntry.id e) i
  then MemoryEntry.confidence e' = Qmin 1 (MemoryEntry.confidence e + delta)
       /\ MemoryEntry.useCount e' = (MemoryEntry.useCount e + 1)%Z
       /\ MemoryEntry.id e' = MemoryEntry.id e
       /\ MemoryEntry.content e' = MemoryEntry.content e
       /\ MemoryEntry.tags e' = MemoryEntry.tags e
       /\ MemoryEntry.source e' = MemoryEntry.source e
       /\ MemoryEntry.createdAt e' = MemoryEntry.createdAt e
  else e' = e.

Lemma boostEach_spec (i : string) (delta : Q) (l : list MemoryEntry.t)
    (w : W) :
  Forall2 (boostedFrom i delta) l (fst (Memory.boostEach h i delta l w))
  /\ (~ In i (Memory.ids l) -> Memory.boostEach h i delta l w = (l, w)).
Proof.
  revert w. induction l as [|e r IH]; intros w; cbn [Memory.boostEach].
  - split; [constructor | reflexivity].
  - destruct (String.eqb (MemoryEntry.id e) i) eqn:E.
    + destruct (Date_now h w) as [now w1].
      destruct (IH w1) as [IH1 _].
      destruct (Memory.boostEach h i delta r w1) as [r' w2].
      split.
      * constructor; [|exact IH1]. unfold boostedFrom. rewrite E.
        cbn. repeat split.
      * intros Hn. exfalso. apply Hn. left. apply String.eqb_eq, E.
    + destruct (IH w) as [IH1 IH2].
      destruct (Memory.boostEach h i delta r w) as [r' w2].
      split.
      * constructor; [|exact IH1]. unfold boostedFrom. rewrite E. reflexivity.
      * intros Hn. assert (Hr : ~ In i (Memory.ids r)).
        { intros Hi. apply Hn. right. exact Hi. }
        specialize (IH2 Hr). inversion IH2. reflexivity.
Qed.

Lemma Forall2_ids (R : MemoryEntry.t -> MemoryEntry.t -> Prop)
    (l l' : list MemoryEntry.t) :
  (forall e e', R e e' -> MemoryEntry.id e' = MemoryEntry.id e) ->
  Forall2 R l l' -> Memory.ids l' = Memory.ids l.
Proof.
  intros HR. unfold Memory.ids.
  induction 1 as [|e e' l l' He Hl IH]; cbn [map]; [reflexivity|].
  rewrite (HR e e' He), IH. reflexivity.
Qed.

Lemma updateEntry_facts (i content : string) (tags : option (list string))
    (m : Memory.Store) (w : W) :
  let m' := fst (Memory.updateEntry h i content tags m w) in
  Memory.ids (Memory.entries m') = Memory.ids (Memory.entries m)
  /\ map MemoryEntry.confidence (Memory.entries m')
     = map MemoryEntry.confidence (Memory.entries m)
  /\ (forall e', In e' (Memory.entries m') -> MemoryEntry.id e' = i ->
        MemoryEntry.content e' = Js.trim content
        /\ (forall t, tags = Some t -> MemoryEntry.tags e' = t))
  /\ (forall e', In e' (Memory.entries m') -> MemoryEntry.id e' <> i ->
        In e' (Memory.entries m))
  /\ (~ In i (Memory.ids (Memory.entries m)) ->
      Memory.updateEntry h i content tags m w = (m, w)).
Proof.
  cbv zeta. unfold Memory.updateEntry.
  destruct (updateEach_spec i content tags (Memory.entries m) w) as [HF Hno].
  destruct (Memory.updateEach h i content tags (Memory.entries m) w)
    as [l w'].
  cbn [fst Memory.entries Memory.setEntries] in *.
  assert (Hid : forall e e', updatedFrom i content tags e e' ->
                  MemoryEntry.id e' = MemoryEntry.id e).
  { intros e e' He. unfold updatedFrom in He.
    destruct (String.eqb (MemoryEntry.id e) i); [apply He | subst; reflexivity]. }
  split; [|split; [|split; [|split]]].
  - apply (Forall2_ids _ _ _ Hid HF).
  - clear Hno. induction HF as [|e e' l0 l' He Hl IH]; cbn; [reflexivity|].
    rewrite IH. f_equal. unfold updatedFrom in He.
    destruct (String.eqb (MemoryEntry.id e) i); [apply He | subst; reflexivity].
  - intros e' He' Hi. clear Hno.
    induction HF as [|e e0 l0 l' He Hl IH]; [destruct He'|].
    destruct He' as [<-|He']; [|apply IH, He'].
    unfold updatedFrom in He.
    destruct (String.eqb (MemoryEntry.id e) i) eqn:E.
    + destruct He as (Hc & Ht & _). split; [exact Hc|].
      intros t ->. exact Ht.
    + subst e0. apply String.eqb_neq in E. congruence.
  - intros e' He' Hi. clear Hno.
    induction HF as [|e e0 l0 l' He Hl IH]; [destruct He'|].
    destruct He' as [<-|He']; [|right; apply IH, He'].
    unfold updatedFrom in He.
    destruct (String.eqb (MemoryEntry.id e) i) eqn:E.
    + destruct He as (_ & _ & Hsame & _). apply String.eqb_eq in E.
      congruence.
    + left. symmetry. exact He.
  - intros Hn. specialize (Hno Hn). inversion Hno. subst.
    rewrite setEntries_entries. reflexivity.
Qed.

Lemma boostConfidence_facts (i : string) (delta : Q) (m : Memory.Store)
    (w : W) :
  let m' := fst (Memory.boostConfidence h i delta m w) in
  Memory.ids (Memory.entries m') = Memory.ids (Memory.entries m)
  /\ (forall e', In e' (Memory.entries m') -> MemoryEntry.id e' = i ->
        MemoryEntry.confidence e' <= 1)
  /\ (forall e', In e' (Memory.entries m') -> MemoryEntry.id e' <> i ->
        In e' (Memory.entries m))
  /\ (~ In i (Memory.ids (Memory.entries m)) ->
      Memory.boostConfidence h i delta m w = (m, w)).
Proof.
  cbv zeta. unfold Memory.boostConfidence.
  destruct (boostEach_spec i delta (Memory.entries m) w) as [HF Hno].
  destruct (Memory.boostEach h i delta (Memory.entries m) w) as [l w'].
  cbn [fst Memory.entries Memory.setEntries] in *.
  assert (Hid : forall e e', boostedFrom i delta e e' ->
                  MemoryEntry.id e' = MemoryEntry.id e).
  { intros e e' He. unfold boostedFrom in He.
    destruct (String.eqb (MemoryEntry.id e) i); [apply He | subst; reflexivity]. }
  split; [|split; [|split]].
  - apply (Forall2_ids _ _ _ Hid HF).
  - intros e' He' Hi. clear Hno.
    induction HF as [|e e0 l0 l' He Hl IH]; [destruct He'|].
    destruct He' as [<-|He']; [|apply IH, He'].
    pose proof (Hid _ _ He) as Hid'. unfold boostedFrom in He.
    destruct (String.eqb (MemoryEntry.id e) i) eqn:E.
    + destruct He as (Hc & _). rewrite Hc. apply Q.le_min_l.
    + subst e0. apply String.eqb_neq in E. congruence.
  - intros e' He' Hi. clear Hno.
    induction HF as [|e e0 l0 l' He Hl IH]; [destruct He'|].
    destruct He' as [<-|He']; [|right; apply IH, He'].
    pose proof (Hid _ _ He) as Hid'. unfold boostedFrom in He.
    destruct (String.eqb (MemoryEntry.id e) i) eqn:E.
    + apply String.eqb_eq in E. congruence.
    + left. symmetry. exact He.
  - intros Hn. specialize (Hno Hn). inversion Hno. subst.
    rewrite setEntries_entries. reflexivity.
Qed.
End UpdateFacts.

(** X3.  [updateEntry(id, content, tags?)] keeps the identifiers, their
    order and every confidence; the entries with the identifier get the
    trimmed content and, when tags are given, those tags; the other entries
    are untouched.  For an identifier the store does not hold, nothing
    changes and the clock is not read. *)
Theorem updateEntry_spec
    (W : Type) (h : Host W) (i content : string)
    (tags : option (list string)) (m : Memory.Store) (w : W) :
  let m' := fst (Memory.updateEntry h i content tags m w) in
  Memory.ids (Memory.entries m') = Memory.ids (Memory.entries m)
  /\ map MemoryEntry.confidence (Memory.entries m')
     = map MemoryEntry.confidence (Memory.entries m)
  /\ (forall e', In e' (Memory.entries m') -> MemoryEntry.id e' = i ->
        MemoryEntry.content e' = Js.trim content
        /\ (forall t, tags = Some t -> MemoryEntry.tags e' = t))
  /\ (forall e', In e' (Memory.entries m') -> MemoryEntry.id e' <> i ->
        In e' (Memory.entries m))
  /\ (~ In i (Memory.ids (Memory.entries m)) ->
      Memory.updateEntry h i content tags m w = (m, w)).
Proof. apply updateEntry_facts. Qed.

Lemma updateEntry_spec_witness :
  Memory.updateEntry Sample.tickingHost "nobody" "new text" None
    Sample.tieStore 7%Z = (Sample.tieStore, 7%Z).
Proof.
  apply (proj2 (proj2 (proj2 (proj2
    (updateEntry_spec Z Sample.tickingHost "nobody" "new text" None
       Sample.tieStore 7%Z))))).
  cbn. intros [H|[H|[]]]; discriminate.
Defined.

(** X4.  [boostConfidence(id, delta)], for any [delta], positive or
    negative: the identifiers and their order stay, the entries with the
    identifier end at a confidence of at most 1, the others are untouched;
    for an identifier the store does not hold, nothing changes and the
    clock is not read. *)
Theorem boostConfidence_spec
    (W : Type) (h : Host W) (i : string) (delta : Q)
    (m : Memory.Store) (w : W) :
  let m' := fst (Memory.boostConfidence h i delta m w) in
  Memory.ids (Memory.entries m') = Memory.ids (Memory.entries m)
  /\ (forall e', In e' (Memory.entries m') -> MemoryEntry.id e' = i ->
        MemoryEntry.confidence e' <= 1)
  /\ (forall e', In e' (Memory.entries m') -> MemoryEntry.id e' <> i ->
        In e' (Memory.entries m))
  /\ (~ In i (Memory.ids (Memory.entries m)) ->
      Memory.boostConfidence h i delta m w = (m, w)).
Proof. apply boostConfidence_facts. Qed.

Lemma boostConfidence_spec_witness :
  Memory.boostConfidence Sample.tickingHost "nobody" (5 # 100)
    Sample.tieStore 7%Z = (Sample.tieStore, 7%Z).
Proof.
  apply (proj2 (proj2 (proj2
    (boostConfidence_spec Z Sample.tickingHost "nobody" (5 # 100)
       Sample.tieStore 7%Z)))).
  cbn. intros [H|[H|[]]]; discriminate.
Defined.

Section RankingMore.

Lemma insertSorted_first {A : Type} (cmp : A -> A -> Q) (x : A) (l : list A) :
  Forall (fun y => cmp x y <= 0) l -> Memory.insertSorted cmp x l = x :: l.
Proof.
  intros H. destruct l as [|y r]; [reflexivity|].
  cbn. apply Forall_inv in H.
  destruct (Qlt_le_dec 0 (cmp x y)); [lra | reflexivity].
Qed.

(** A list in rank order is its own ranking. *)
Lemma sortBy_sorted_id {A : Type} (cmp : A -> A -> Q) (l : list A) :
  StronglySorted (fun x y => cmp x y <= 0) l -> Memory.sortBy cmp l = l.
Proof.
  induction 1 as [|x l Hl IH Hx]; [reflexivity|].
  cbn [Memory.sortBy fold_right]. fold (Memory.sortBy cmp l).
  rewrite IH. apply insertSorted_first, Hx.
Qed.

Lemma sortedEntries_nil_iff (m : Memory.Store) :
  Memory.sortedEntries m = [] <-> Memory.entries m = [].
Proof.
  pose proof (sortBy_Permutation Memory.compareEntries (Memory.entries m))
    as HP.
  fold (Memory.sortedEntries m) in HP.
  split; intros E.
  - rewrite E in HP. apply Permutation_nil, HP.
  - rewrite E in HP. apply Permutation_sym, Permutation_nil in HP. exact HP.
Qed.

Lemma In_firstn {A : Type} (n : nat) (l : list A) (x : A) :
  In x (firstn n l) -> In x l.
Proof.
  intros H. rewrite <- (firstn_skipn n l). apply in_or_app. left. exact H.
Qed.

Lemma getEntriesForContext_cases (m : Memory.Store) :
  Memory.getEntriesForContext m
  = (if Memory.enabled m
     then if (0 <? Memory.maxInjectedEntries m)%Z
          then firstn (Z.to_nat (Memory.maxInjectedEntries m))
                 (Memory.sortedEntries m)
          else Memory.sortedEntries m
     else []).
Proof.
  unfold Memory.getEntriesForContext, Js.slice0.
  destruct (Memory.enabled m); cbn [negb]; [|reflexivity].
  destruct (0 <? Memory.maxInjectedEntries m)%Z eqn:E; [|reflexivity].
  apply Z.ltb_lt in E.
  destruct (Memory.maxInjectedEntries m <? 0)%Z eqn:E'; [|reflexivity].
  apply Z.ltb_lt in E'. lia.
Qed.

Lemma getEntriesForContext_count (m : Memory.Store) :
  List.length (Memory.getEntriesForContext m)
  = (if Memory.enabled m
     then if (0 <? Memory.maxInjectedEntries m)%Z
          then Nat.min (Z.to_nat (Memory.maxInjectedEntries m))
                 (List.length (Memory.entries m))
          else List.length (Memory.entries m)
     else 0%nat).
Proof.
  pose proof (sortBy_Permutation Memory.compareEntries (Memory.entries m))
    as HP.
  fold (Memory.sortedEntries m) in HP.
  rewrite getEntriesForContext_cases.
  destruct (Memory.enabled m); [|reflexivity].
  destruct (0 <? Memory.maxInjectedEntries m)%Z.
  - rewrite length_firstn, (Permutation_length HP). reflexivity.
  - apply (Permutation_length HP).
Qed.

End RankingMore.

(** X5.  Ranking is idempotent: ranking the ranking gives the ranking, so
    a store whose entries are replaced by [sortedEntries] reads the same
    through [sortedEntries] and [getEntriesForContext]. *)
Theorem sortedEntries_idempotent (m : Memory.Store) :
  let ranked := Memory.setEntries (Memory.sortedEntries m) m in
  Memory.sortedEntries ranked = Memory.sortedEntries m
  /\ Memory.getEntriesForContext ranked = Memory.getEntriesForContext m.
Proof.
  cbv zeta.
  assert (E : Memory.sortedEntries
                (Memory.setEntries (Memory.sortedEntries m) m)
              = Memory.sortedEntries m).
  { unfold Memory.sortedEntries at 1. cbn [Memory.entries Memory.setEntries].
    apply sortBy_sorted_id.
    apply sortBy_StronglySorted;
      [apply ranksBefore_total | apply ranksBefore_trans]. }
  split; [exact E|].
  unfold Memory.getEntriesForContext. rewrite E. reflexivity.
Qed.

(** X6.  [getEntriesForContext] returns stored entries only, and how many
    is settled by the two settings: none when the store is disabled, all of
    them when the limit is not positive, and otherwise the limit or the
    number stored, whichever is less. *)
Theorem getEntriesForContext_length (m : Memory.Store) :
  List.length (Memory.getEntriesForContext m)
  = (if Memory.enabled m
     then if (0 <? Memory.maxInjectedEntries m)%Z
          then Nat.min (Z.to_nat (Memory.maxInjectedEntries m))
                 (List.length (Memory.entries m))
          else List.length (Memory.entries m)
     else 0%nat)
  /\ (forall e, In e (Memory.getEntriesForContext m) -> In e (Memory.entries m)).
Proof.
  split; [apply getEntriesForContext_count|].
  pose proof (sortBy_Permutation Memory.compareEntries (Memory.entries m))
    as HP.
  fold (Memory.sortedEntries m) in HP.
  rewrite getEntriesForContext_cases.
  intros e He. apply (Permutation_in _ HP).
  destruct (Memory.enabled m); [|destruct He].
  destruct (0 <? Memory.maxInjectedEntries m)%Z; [|exact He].
  apply (In_firstn _ _ _ He).
Qed.

Lemma getEntriesForContext_length_witness :
  In Sample.tieFirst (Memory.entries Sample.tieStore).
Proof.
  apply (proj2 (getEntriesForContext_length Sample.tieStore) Sample.tieFirst).
  left. reflexivity.
Defined.

Section DecayMore.

Lemma map_filter_Subsequence {A B : Type} (f : A -> B) (g : A -> A)
    (p : A -> bool) (l : list A) :
  (forall x, f (g x) = f x) ->
  Subsequence (map f (filter p (map g l))) (map f l).
Proof.
  intros Hfg. induction l as [|x l IH]; cbn.
  - constructor.
  - destruct (p (g x)); cbn.
    + rewrite Hfg. constructor. exact IH.
    + constructor. exact IH.
Qed.

Lemma Subsequence_length {A : Type} (l l' : list A) :
  Subsequence l l' -> (List.length l <= List.length l')%nat.
Proof. induction 1; cbn; lia. Qed.

End DecayMore.

(** X7.  [decayConfidence] never adds an entry and keeps the order of those
    it keeps; afterwards no confidence is negative, whatever it was before,
    and none is below [pruneBelow].  With a [pruneBelow] of 0 or less it
    removes nothing, whatever the rate and the clock. *)
Theorem decayConfidence_prunes
    (now : Z) (decayRate pruneBelow : Q) (m : Memory.Store) :
  let m' := Memory.decayConfidenceAt now decayRate pruneBelow m in
  Subsequence (Memory.ids (Memory.entries m')) (Memory.ids (Memory.entries m))
  /\ (List.length (Memory.entries m') <= List.length (Memory.entries m))%nat
  /\ (forall e', In e' (Memory.entries m') ->
        0 <= MemoryEntry.confidence e'
        /\ pruneBelow <= MemoryEntry.confidence e')
  /\ (pruneBelow <= 0 ->
      Memory.ids (Memory.entries m') = Memory.ids (Memory.entries m)).
Proof.
  cbv zeta. unfold Memory.decayConfidenceAt.
  cbn [Memory.entries Memory.setEntries].
  assert (HS : Subsequence
                 (Memory.ids
                    (filter (fun e => Qle_bool pruneBelow
                                        (MemoryEntry.confidence e))
                       (map (Memory.decayEntry now decayRate)
                          (Memory.entries m))))
                 (Memory.ids (Memory.entries m))).
  { apply map_filter_Subsequence. reflexivity. }
  split; [exact HS|]. split.
  { apply Subsequence_length in HS. unfold Memory.ids in HS.
    rewrite !length_map in HS. exact HS. }
  split.
  - intros e' He'. apply filter_In in He' as [He' Hk].
    apply in_map_iff in He' as [e [<- _]].
    split; [apply decayEntry_confidence_nonneg|].
    apply Qle_bool_iff, Hk.
  - intros Hp. rewrite filter_all.
    + unfold Memory.ids. rewrite map_map. reflexivity.
    + intros e' He'. apply in_map_iff in He' as [e [<- _]].
      apply Qle_bool_iff.
      pose proof (decayEntry_confidence_nonneg now decayRate e). lra.
Qed.

Lemma decayConfidence_prunes_witness :
  Memory.ids
    (Memory.entries
       (Memory.decayConfidenceAt 1700000000000 (2 # 100) 0 Sample.tieStore))
  = Memory.ids (Memory.entries Sample.tieStore).
Proof.
  apply (proj2 (proj2 (proj2
    (decayConfidence_prunes 1700000000000 (2 # 100) 0 Sample.tieStore)))).
  discriminate.
Defined.

(** X8.  A decay touches the confidence only: [updatedAt] stays, so the
    age keeps counting from the last update and a second decay at the same
    clock reading takes the same amount off again: the operation is not
    idempotent.  For an entry that is not dated in the future and a rate of
    at least 0 the amount is not negative, and neither decay raises a
    confidence that is a double and not negative.  So an entry at 0.6 that
    is one week old goes to 0.58 and then to 0.5599999999999999 under the
    default rate. *)
Theorem decay_compounds (now : Z) (decayRate : Q) (e : MemoryEntry.t) :
  0 <= decayRate ->
  (MemoryEntry.updatedAt e <= now)%Z ->
  let once := Memory.decayEntry now decayRate e in
  let twice := Memory.decayEntry now decayRate once in
  let taken := Js.mul decayRate (Memory.ageWeeks now e) in
  MemoryEntry.updatedAt once = MemoryEntry.updatedAt e
  /\ 0 <= taken
  /\ MemoryEntry.confidence once
     = Qmax 0 (Js.sub (MemoryEntry.confidence e) taken)
  /\ MemoryEntry.confidence twice
     = Qmax 0 (Js.sub (MemoryEntry.confidence once) taken)
  /\ (0 <= MemoryEntry.confidence e ->
      Js.isDouble (MemoryEntry.confidence e) ->
      MemoryEntry.confidence once <= MemoryEntry.confidence e
      /\ MemoryEntry.confidence twice <= MemoryEntry.confidence once)
  /\ (let sample := Sample.aged "x" (Js.double (6 # 10)) 1700000000000 1 in
      let first := Memory.decayEntry 1700000000000 Memory.defaultDecayRate
                     sample in
      let second := Memory.decayEntry 1700000000000 Memory.defaultDecayRate
                      first in
      MemoryEntry.confidence first == 5224175567749775 # 9007199254740992
      /\ MemoryEntry.confidence second
         == 5044031582654955 # 9007199254740992
      /\ MemoryEntry.confidence second < MemoryEntry.confidence first).
Proof.
  intros Hr Hage once twice taken.
  pose proof (decrement_nonneg now decayRate e Hr Hage) as Ht.
  fold taken in Ht.
  split; [reflexivity|]. split; [exact Ht|].
  split; [reflexivity|]. split; [reflexivity|].
  split.
  - intros Hc Hd.
    assert (Hsub : Js.sub (MemoryEntry.confidence e) taken
                   <= MemoryEntry.confidence e).
    { unfold Js.sub. apply double_le_double; [exact Hd | lra]. }
    assert (Honce : MemoryEntry.confidence once <= MemoryEntry.confidence e).
    { change (MemoryEntry.confidence once)
        with (Qmax 0 (Js.sub (MemoryEntry.confidence e) taken)).
      apply Q.max_lub; assumption. }
    split; [exact Honce|].
    change (MemoryEntry.confidence twice)
      with (Qmax 0 (Js.sub (MemoryEntry.confidence once) taken)).
    apply Q.max_lub.
    + change (MemoryEntry.confidence once)
        with (Qmax 0 (Js.sub (MemoryEntry.confidence e) taken)).
      apply Q.le_max_l.
    + change (MemoryEntry.confidence once)
        with (Qmax 0 (Js.sub (MemoryEntry.confidence e) taken)) in *.
      destruct (Q.max_spec 0 (Js.sub (MemoryEntry.confidence e) taken))
        as [[H1 E1] | [H1 E1]].
      * rewrite E1 at 2. unfold Js.sub at 1 3. apply double_le.
        lra.
      * rewrite E1 at 2. unfold Js.sub at 1. apply double_nonpos. lra.
  - cbv zeta. vm_compute. repeat split.
Qed.

Lemma decay_compounds_witness :
  let sample := Sample.aged "x" (Js.double (6 # 10)) 1700000000000 1 in
  let once := Memory.decayEntry 1700000000000 Memory.defaultDecayRate sample in
  let twice := Memory.decayEntry 1700000000000 Memory.defaultDecayRate once in
  MemoryEntry.confidence once <= MemoryEntry.confidence sample
  /\ MemoryEntry.confidence twice <= MemoryEntry.confidence once.
Proof.
  cbv zeta.
  apply (decay_compounds 1700000000000 Memory.defaultDecayRate
           (Sample.aged "x" (Js.double (6 # 10)) 1700000000000 1)).
  - vm_compute. discriminate.
  - cbn. lia.
  - vm_compute. discriminate.
  - vm_compute. reflexivity.
Defined.

(** X9.  [createLongTermMemoryContext] gives no message exactly when the
    store is disabled or empty, that is, when it is not [configured]; then
    it draws no identifier and does not read the clock.  Otherwise the
    message carries the fixed context identifier and the replace-self
    strategy. *)
Theorem createLongTermMemoryContext_null
    (W : Type) (h : Host W) (m : Memory.Store) (w : W) :
  (fst (createLongTermMemoryContext h m w) = None
   <-> Memory.configured m = false)
  /\ (Memory.configured m = false ->
      createLongTermMemoryContext h m w = (None, w))
  /\ (forall c, fst (createLongTermMemoryContext h m w) = Some c ->
        ContextMessage.contextId c = "system:long-term-memory"
        /\ ContextMessage.strategy c = ReplaceSelf).
Proof.
  assert (Hlen : (List.length (Memory.getEntriesForContext m) =? 0)%nat
                 = negb (Memory.configured m)).
  { rewrite getEntriesForContext_count.
    unfold Memory.configured.
    destruct (Memory.enabled m); cbn [andb negb]; [|reflexivity].
    destruct (0 <? Memory.maxInjectedEntries m)%Z eqn:Hmax.
    - apply Z.ltb_lt in Hmax.
      destruct (List.length (Memory.entries m)) as [|n]; cbn.
      + rewrite Nat.min_0_r. reflexivity.
      + destruct (Z.to_nat (Memory.maxInjectedEntries m)) eqn:Hz; [lia|].
        reflexivity.
    - destruct (List.length (Memory.entries m)); reflexivity. }
  unfold createLongTermMemoryContext. rewrite Hlen.
  destruct (Memory.configured m); cbn [negb].
  - destruct (nanoid h w) as [newId w1]. destruct (Date_now h w1) as [now w2].
    cbn [fst]. split; [split; discriminate|]. split; [discriminate|].
    intros c Hc. inversion Hc. split; reflexivity.
  - cbn [fst]. split; [split; reflexivity|]. split; [reflexivity|].
    discriminate.
Qed.

Lemma createLongTermMemoryContext_null_witness :
  createLongTermMemoryContext Sample.tickingHost Memory.emptyStore 3%Z
  = (None, 3%Z).
Proof.
  apply (proj1 (proj2
    (createLongTermMemoryContext_null Z Sample.tickingHost Memory.emptyStore
       3%Z))).
  reflexivity.
Defined.

(* ===================================================================== *)
(** * Feedback on a response *)
(* ===================================================================== *)

Section FeedbackFacts.
Context {W : Type} (h : Host W).

Lemma Forall2_same {A : Type} (R : A -> A -> Prop) (l : list A) :
  (forall x, R x x) -> Forall2 R l l.
Proof. intros HR. induction l; constructor; auto. Qed.

Lemma Forall2_compose {A : Type} (P Q R : A -> A -> Prop) (l1 l2 l3 : list A) :
  (forall a b c, P a b -> Q b c -> R a c) ->
  Forall2 P l1 l2 -> Forall2 Q l2 l3 -> Forall2 R l1 l3.
Proof.
  intros H H12. revert l3.
  induction H12 as [|a b l1 l2 Hab H12 IH]; intros l3 H23;
    inversion H23; subst; constructor; eauto.
Qed.

Lemma Forall2_In_l {A : Type} (R : A -> A -> Prop) (l l' : list A) (a : A) :
  Forall2 R l l' -> In a l -> exists b, In b l' /\ R a b.
Proof.
  induction 1 as [|x y l l' Hxy Hl IH]; intros Ha; [destruct Ha|].
  destruct Ha as [<-|Ha].
  - exists y. split; [left; reflexivity | exact Hxy].
  - destruct (IH Ha) as [b [Hb Rb]]. exists b. split; [right|]; assumption.
Qed.

(** What a round of boosts over [recent] makes of the entry [e]. *)
Let roundFrom (delta : Q) (recent : list MemoryEntry.t)
    (e e' : MemoryEntry.t) : Prop :=
  MemoryEntry.id e' = MemoryEntry.id e
  /\ (~ In (MemoryEntry.id e) (Memory.ids recent) -> e' = e)
  /\ (delta <= 0 ->
      MemoryEntry.confidence e' <= MemoryEntry.confidence e
      /\ (In (MemoryEntry.id e) (Memory.ids recent) ->
          MemoryEntry.confidence e' <= MemoryEntry.confidence e + delta)).

Lemma boostEach_round (i : string) (delta : Q) (l : list MemoryEntry.t)
    (w : W) :
  Forall2
    (fun e e' =>
       MemoryEntry.id e' = MemoryEntry.id e
       /\ (MemoryEntry.id e <> i -> e' = e)
       /\ (delta <= 0 ->
           MemoryEntry.confidence e' <= MemoryEntry.confidence e
           /\ (MemoryEntry.id e = i ->
               MemoryEntry.confidence e'
               <= MemoryEntry.confidence e + delta)))
    l (fst (Memory.boostEach h i delta l w)).
Proof.
  revert w. induction l as [|e r IH]; intros w; cbn [Memory.boostEach].
  - constructor.
  - destruct (String.eqb (MemoryEntry.id e) i) eqn:E.
    + destruct (Date_now h w) as [now w1]. specialize (IH w1).
      destruct (Memory.boostEach h i delta r w1) as [r' w2].
      constructor; [|exact IH]. cbn.
      split; [reflexivity|]. split.
      * intros Hn. apply String.eqb_eq in E. congruence.
      * intros Hd.
        pose proof (Q.le_min_r 1 (MemoryEntry.confidence e + delta)).
        split; [lra | intros _; assumption].
    + specialize (IH w).
      destruct (Memory.boostEach h i delta r w) as [r' w2].
      constructor; [|exact IH].
      split; [reflexivity|]. split; [reflexivity|].
      intros Hd. split; [lra|].
      intros Hi. apply String.eqb_neq in E. congruence.
Qed.

Lemma boostAll_round (delta : Q) (recent : list MemoryEntry.t) :
  forall (m : Memory.Store) (w : W),
    Forall2 (roundFrom delta recent) (Memory.entries m)
      (Memory.entries (fst (boostAll h delta recent m w))).
Proof.
  induction recent as [|x r IH]; intros m w; cbn [boostAll].
  - apply Forall2_same. intros e. unfold roundFrom.
    split; [reflexivity|]. split; [reflexivity|].
    intros _. split; [lra | intros []].
  - unfold Memory.boostConfidence.
    pose proof (boostEach_round (MemoryEntry.id x) delta (Memory.entries m) w)
      as H1.
    destruct (Memory.boostEach h (MemoryEntry.id x) delta (Memory.entries m) w)
      as [l w1].
    cbn [fst] in H1.
    specialize (IH (Memory.setEntries l m) w1).
    cbn [Memory.entries Memory.setEntries] in IH.
    eapply Forall2_compose; [|exact H1|exact IH].
    intros a b c (A1 & A2 & A3) (B1 & B2 & B3). unfold roundFrom.
    split; [congruence|]. split.
    + intros Hn.
      assert (Ha : MemoryEntry.id a <> MemoryEntry.id x).
      { intros Hx. apply Hn. left. symmetry. exact Hx. }
      assert (Hb : ~ In (MemoryEntry.id b) (Memory.ids r)).
      { rewrite A1. intros Hr. apply Hn. right. exact Hr. }
      rewrite (B2 Hb). apply A2, Ha.
    + intros Hd. destruct (A3 Hd) as [A4 A5]. destruct (B3 Hd) as [B4 B5].
      split; [lra|].
      intros Hin. destruct Hin as [Hx|Hr].
      * specialize (A5 (eq_sym Hx)). lra.
      * rewrite <- A1 in Hr. specialize (B5 Hr). lra.
Qed.


Lemma giveFeedback_facts (value : Feedback) (feedback : option Feedback)
    (m : Memory.Store) (w : W) :
  feedback <> Some value ->
  let out := giveFeedback h value feedback m w in
  let recent := Js.slice0 5 (Memory.sortedEntries m) in
  fst (fst out) = Some value
  /\ Forall2 (roundFrom (feedbackDelta value) recent) (Memory.entries m)
       (Memory.entries (snd (fst out)))
  /\ giveFeedback h value (fst (fst out)) (snd (fst out)) (snd out)
     = (None, snd (fst out), snd out).
Proof.
  intros Hf. cbv zeta.
  assert (E : match feedback with
              | Some f => Feedback_eqb f value
              | None => false
              end = false).
  { destruct feedback as [f|]; [|reflexivity].
    destruct f, value; try reflexivity; congruence. }
  assert (Eout : giveFeedback h value feedback m w
                 = (Some value,
                    fst (boostAll h (feedbackDelta value)
                           (Js.slice0 5 (Memory.sortedEntries m)) m w),
                    snd (boostAll h (feedbackDelta value)
                           (Js.slice0 5 (Memory.sortedEntries m)) m w))).
  { unfold giveFeedback. rewrite E.
    destruct (boostAll h (feedbackDelta value)
                (Js.slice0 5 (Memory.sortedEntries m)) m w); reflexivity. }
  rewrite Eout. cbn [fst snd].
  split; [reflexivity|]. split; [apply boostAll_round|].
  unfold giveFeedback. destruct value; reflexivity.
Qed.
End FeedbackFacts.



(** X11.  A thumbs-down is a boost by -0.05, and a boost does not clamp at
    0: every entry among the first five of the ranking whose confidence is
    below 0.05 ends with a negative confidence. *)
Theorem giveFeedback_down_goes_negative
    (W : Type) (h : Host W) (feedback : option Feedback)
    (m : Memory.Store) (w : W) (e : MemoryEntry.t) :
  feedback <> Some down ->
  In e (Js.slice0 5 (Memory.sortedEntries m)) ->
  MemoryEntry.confidence e < 5 # 100 ->
  exists e',
    In e' (Memory.entries (snd (fst (giveFeedback h down feedback m w))))
    /\ MemoryEntry.id e' = MemoryEntry.id e
    /\ MemoryEntry.confidence e' < 0.
Proof.
  intros Hf He Hc.
  destruct (giveFeedback_facts h down feedback m w Hf) as (_ & H2 & _).
  cbv zeta in H2.
  assert (Hin : In e (Memory.entries m)).
  { apply (Permutation_in _
             (sortBy_Permutation Memory.compareEntries (Memory.entries m))).
    apply (In_firstn 5). exact He. }
  destruct (Forall2_In_l _ _ _ e H2 Hin) as [e' [He' (Hid & _ & Hd)]].
  exists e'. split; [exact He'|]. split; [exact Hid|].
  assert (Hneg : feedbackDelta down <= 0) by discriminate.
  destruct (Hd Hneg) as [_ Hlow].
  assert (Hrec : In (MemoryEntry.id e)
                   (Memory.ids (Js.slice0 5 (Memory.sortedEntries m)))).
  { apply in_map, He. }
  specialize (Hlow Hrec). cbn [feedbackDelta] in Hlow.
  assert (E : - (5 # 100) == -5 # 100) by reflexivity. lra.
Qed.

Lemma giveFeedback_down_goes_negative_witness :
  exists e',
    In e' (Memory.entries
             (snd (fst (giveFeedback Sample.tickingHost down None
                          (Memory.mkStore true 10
                             [MemoryEntry.mk "low" "a weak fact" [] manual
                                (2 # 100) 0 0 0])
                          9%Z))))
    /\ MemoryEntry.id e' = "low"
    /\ MemoryEntry.confidence e' < 0.
Proof.
  apply (giveFeedback_down_goes_negative Z Sample.tickingHost None
           (Memory.mkStore true 10
              [MemoryEntry.mk "low" "a weak fact" [] manual (2 # 100) 0 0 0])
           9%Z
           (MemoryEntry.mk "low" "a weak fact" [] manual (2 # 100) 0 0 0)).
  - discriminate.
  - left. reflexivity.
  - reflexivity.
Defined.

(* ===================================================================== *)
(** * More on the self-learning store *)
(* ===================================================================== *)

Section LedgerMore.
Context {W : Type} (h : Host W).

Lemma failEach_absent (runId msg : string) (l : list LearningRun.t) (w : W) :
  ~ In runId (map LearningRun.id l) ->
  SelfLearning.failEach h runId msg l w = (l, w).
Proof.
  revert w. induction l as [|r l IH]; intros w Hn; [reflexivity|].
  cbn [SelfLearning.failEach].
  destruct (String.eqb (LearningRun.id r) runId) eqn:E.
  - exfalso. apply Hn. left. apply String.eqb_eq, E.
  - rewrite IH; [reflexivity|]. intros Hi. apply Hn. right. exact Hi.
Qed.

Lemma map_absent {A : Type} (key : A -> string) (f : A -> A) (i : string)
    (l : list A) :
  ~ In i (map key l) ->
  map (fun x => if String.eqb (key x) i then f x else x) l = l.
Proof.
  induction l as [|x l IH]; intros Hn; [reflexivity|]. cbn [map].
  destruct (String.eqb (key x) i) eqn:E.
  - exfalso. apply Hn. left. apply String.eqb_eq, E.
  - rewrite IH; [reflexivity|]. intros Hi. apply Hn. right. exact Hi.
Qed.

End LedgerMore.

(** X12.  [startRun] puts the new record first and bounds the ledger: after
    it the history holds 20 records at most, one more than before when
    there were fewer than 20, and the records behind the new one are the
    most recent ones of before, in their order. *)
Theorem startRun_bounds
    (W : Type) (h : Host W) (names : list string)
    (sl : SelfLearning.Store) (w : W) :
  let run := fst (fst (SelfLearning.startRun h names sl w)) in
  let sl' := snd (fst (SelfLearning.startRun h names sl w)) in
  List.length (SelfLearning.runHistory sl')
  = Nat.min 20 (S (List.length (SelfLearning.runHistory sl)))
  /\ (List.length (SelfLearning.runHistory sl') <= 20)%nat
  /\ SelfLearning.latestRun sl' = Some run
  /\ tl (SelfLearning.runHistory sl')
     = firstn 19 (SelfLearning.runHistory sl)
  /\ SelfLearning.topics sl' = SelfLearning.topics sl.
Proof.
  cbv zeta.
  pose proof (startRun_spec h names sl w) as H.
  destruct (SelfLearning.startRun h names sl w) as [[run sl'] w'] eqn:E.
  cbn [fst snd]. destruct H as (Hh & _).
  assert (Ht : SelfLearning.topics sl' = SelfLearning.topics sl).
  { unfold SelfLearning.startRun in E.
    destruct (nanoid h w) as [i w1]. destruct (Date_now h w1) as [now w2].
    inversion E. reflexivity. }
  unfold SelfLearning.latestRun. rewrite Hh.
  cbn [List.length tl]. rewrite length_firstn.
  repeat split; try assumption; lia.
Qed.

(** X13.  Closing a run the ledger does not hold: [completeRun] changes no
    record but still moves [lastRunAt] to the clock reading; [failRun]
    changes nothing at all and does not read the clock. *)
Theorem close_unknown_run
    (W : Type) (h : Host W) (runId : string) (sl : SelfLearning.Store)
    (w : W) :
  ~ In runId (map LearningRun.id (SelfLearning.runHistory sl)) ->
  (forall saved,
     SelfLearning.runHistory
       (fst (SelfLearning.completeRun h runId saved sl w))
     = SelfLearning.runHistory sl
     /\ SelfLearning.lastRunAt
          (fst (SelfLearning.completeRun h runId saved sl w))
        = Some (fst (Date_now h w)))
  /\ (forall msg, SelfLearning.failRun h runId msg sl w = (sl, w)).
Proof.
  intros Hn. split.
  - intros saved. unfold SelfLearning.completeRun.
    destruct (Date_now h w) as [now w']. cbn.
    split; [|reflexivity].
    apply (map_absent LearningRun.id), Hn.
  - intros msg. unfold SelfLearning.failRun.
    rewrite (failEach_absent h runId msg _ w Hn).
    destruct sl; reflexivity.
Qed.

Lemma close_unknown_run_witness :
  SelfLearning.failRun (Sample.stubHost Sample.reliable) "no-such-run" "boom"
    (selfLearningStore Sample.inFlight) (world Sample.inFlight)
  = (selfLearningStore Sample.inFlight, world Sample.inFlight).
Proof.
  apply (proj2 (close_unknown_run _ (Sample.stubHost Sample.reliable)
                  "no-such-run" (selfLearningStore Sample.inFlight)
                  (world Sample.inFlight)
                  ltac:(cbn; intros [H|[]]; discriminate))).
Defined.

(** X14.  After [completeRun] at a clock reading [t] other than 0, under a
    schedule other than [manual], the loop is due again exactly when the
    clock reads at least one interval of the schedule past [t]. *)
Theorem completeRun_then_isDue
    (W : Type) (h : Host W) (runId : string) (saved : Z)
    (sl : SelfLearning.Store) (w w2 : W) :
  SelfLearning.schedule sl <> sched_manual ->
  fst (Date_now h w) <> 0%Z ->
  let sl' := fst (SelfLearning.completeRun h runId saved sl w) in
  exists i,
    SelfLearning.interval (SelfLearning.schedule sl) = Some i
    /\ (fst (SelfLearning.isDue h sl' w2) = true
        <-> (fst (Date_now h w2) - fst (Date_now h w) >= i)%Z).
Proof.
  intros Hs Ht. cbv zeta. unfold SelfLearning.completeRun.
  destruct (Date_now h w) as [t w']. cbn [fst] in *.
  unfold SelfLearning.isDue.
  cbn [SelfLearning.schedule SelfLearning.lastRunAt SelfLearning.setLastRunAt
       SelfLearning.setRunHistory SelfLearning.unset].
  apply Z.eqb_neq in Ht. rewrite Ht.
  destruct (Date_now h w2) as [t2 w2'].
  destruct (SelfLearning.schedule sl); [congruence | ..];
    cbn [SelfLearning.isManual orb SelfLearning.interval fst];
    eexists; (split; [reflexivity|]); rewrite Z.leb_le; lia.
Qed.

Lemma completeRun_then_isDue_witness :
  exists i,
    SelfLearning.interval sched_daily = Some i
    /\ (fst (SelfLearning.isDue Sample.tickingHost
               (fst (SelfLearning.completeRun Sample.tickingHost "run" 3
                       (Sample.scheduled sched_daily 5) 1700000000000%Z))
               1700000001000%Z) = true
        <-> (1700000001000 - 1700000000000 >= i)%Z).
Proof.
  apply (completeRun_then_isDue Z Sample.tickingHost "run" 3
           (Sample.scheduled sched_daily 5) 1700000000000%Z 1700000001000%Z).
  - discriminate.
  - discriminate.
Defined.

(** X15.  [addTopic] appends an enabled topic with the trimmed name and
    hint: the topic is active at once, the earlier topics are untouched,
    and the store is [configured] as soon as it is enabled. *)
Theorem addTopic_active
    (W : Type) (h : Host W) (name hint : string)
    (s : SelfLearning.Store) (w : W) :
  let topic := fst (fst (SelfLearning.addTopic h name hint s w)) in
  let s' := snd (fst (SelfLearning.addTopic h name hint s w)) in
  SelfLearning.topics s' = (SelfLearning.topics s ++ [topic])%list
  /\ SelfLearning.activeTopics s'
     = (SelfLearning.activeTopics s ++ [topic])%list
  /\ SelfLearning.configured s' = SelfLearning.enabled s
  /\ trimmed (LearningTopic.name topic)
  /\ trimmed (LearningTopic.hint topic)
  /\ SelfLearning.runHistory s' = SelfLearning.runHistory s
  /\ SelfLearning.lastRunAt s' = SelfLearning.lastRunAt s.
Proof.
  cbv zeta. unfold SelfLearning.addTopic.
  destruct (nanoid h w) as [i w1]. destruct (Date_now h w1) as [now w2].
  cbn [fst snd]. unfold SelfLearning.activeTopics, SelfLearning.configured.
  cbn [SelfLearning.topics SelfLearning.setTopics SelfLearning.enabled
       SelfLearning.runHistory SelfLearning.lastRunAt LearningTopic.name
       LearningTopic.hint].
  rewrite filter_app, existsb_app. cbn [filter existsb LearningTopic.enabled].
  rewrite orb_true_r, andb_true_r. unfold trimmed.
  rewrite !trim_idempotent. repeat split.
Qed.

(** X16.  A topic just added is undone by [deleteTopic] on its identifier,
    as long as the identifier drawn was not already in use: the store is
    back to what it was. *)
Theorem addTopic_deleteTopic
    (W : Type) (h : Host W) (name hint : string)
    (s : SelfLearning.Store) (w : W) :
  let topic := fst (fst (SelfLearning.addTopic h name hint s w)) in
  let s' := snd (fst (SelfLearning.addTopic h name hint s w)) in
  ~ In (LearningTopic.id topic) (map LearningTopic.id (SelfLearning.topics s))
  -> SelfLearning.deleteTopic (LearningTopic.id topic) s' = s.
Proof.
  cbv zeta. unfold SelfLearning.addTopic.
  destruct (nanoid h w) as [i w1]. destruct (Date_now h w1) as [now w2].
  cbn [fst snd LearningTopic.id]. intros Hfresh.
  unfold SelfLearning.deleteTopic.
  cbn [SelfLearning.topics SelfLearning.setTopics].
  rewrite filter_app. cbn [filter LearningTopic.id].
  rewrite String.eqb_refl. cbn [negb]. rewrite app_nil_r.
  rewrite filter_all; [destruct s; reflexivity|].
  intros t Ht. apply eqb_neq_negb. intros Hi. apply Hfresh.
  rewrite <- Hi. apply in_map, Ht.
Qed.

Lemma addTopic_deleteTopic_witness :
  SelfLearning.deleteTopic "id"
    (snd (fst (SelfLearning.addTopic Sample.tickingHost " Rust " "" 
                 (selfLearningStore Sample.threeTopics) 5%Z)))
  = selfLearningStore Sample.threeTopics.
Proof.
  apply (addTopic_deleteTopic Z Sample.tickingHost " Rust " ""
           (selfLearningStore Sample.threeTopics) 5%Z).
  cbn. intros [H|[H|[H|[]]]]; discriminate.
Defined.

(** X17.  [updateTopic(id, { enabled: false })] takes every topic with the
    identifier out of the active topics and leaves the others as active or
    inactive as they were; no topic is added, removed or moved. *)
Theorem updateTopic_disable (i : string) (s : SelfLearning.Store) :
  let s' := SelfLearning.updateTopic i
              (SelfLearning.mkPatch None None (Some false)) s in
  map LearningTopic.id (SelfLearning.topics s')
  = map LearningTopic.id (SelfLearning.topics s)
  /\ (forall t, In t (SelfLearning.activeTopics s') -> LearningTopic.id t <> i)
  /\ (forall t, LearningTopic.id t <> i ->
        (In t (SelfLearning.activeTopics s')
         <-> In t (SelfLearning.activeTopics s)))
  /\ SelfLearning.activeTopics s'
     = filter (fun t => negb (String.eqb (LearningTopic.id t) i))
         (SelfLearning.activeTopics s).
Proof.
  cbv zeta. unfold SelfLearning.updateTopic, SelfLearning.activeTopics.
  cbn [SelfLearning.topics SelfLearning.setTopics].
  assert (E : filter LearningTopic.enabled
                (map (fun t => if String.eqb (LearningTopic.id t) i
                               then SelfLearning.patchTopic
                                      (SelfLearning.mkPatch None None
                                         (Some false)) t
                               else t) (SelfLearning.topics s))
              = filter (fun t => negb (String.eqb (LearningTopic.id t) i))
                  (filter LearningTopic.enabled (SelfLearning.topics s))).
  { induction (SelfLearning.topics s) as [|t l IH]; [reflexivity|].
    cbn [map filter].
    destruct (String.eqb (LearningTopic.id t) i) eqn:Ei.
    - cbn [SelfLearning.patchTopic SelfLearning.patchEnabled
           LearningTopic.enabled].
      rewrite IH. destruct (LearningTopic.enabled t); cbn [filter];
        [rewrite Ei|]; reflexivity.
    - rewrite IH. destruct (LearningTopic.enabled t); cbn [filter];
        [rewrite Ei|]; reflexivity. }
  split; [|split; [|split]].
  - rewrite map_map. apply map_ext. intros t.
    destruct (String.eqb (LearningTopic.id t) i); reflexivity.
  - intros t Ht. rewrite E in Ht. apply filter_In in Ht as [_ Ht].
    apply eqb_neq_negb, Ht.
  - intros t Hi. rewrite E, filter_In, eqb_neq_negb. tauto.
  - exact E.
Qed.

Lemma updateTopic_disable_witness :
  LearningTopic.id (Sample.topic "Go schedulers") <> "topic-Flaky topic".
Proof.
  apply (proj1 (proj2 (updateTopic_disable "topic-Flaky topic"
                         (selfLearningStore Sample.threeTopics)))
           (Sample.topic "Go schedulers")).
  right. left. reflexivity.
Defined.

(* ===================================================================== *)
(** * More on the learning loop *)
(* ===================================================================== *)

Section LoopMore.
Context {W : Type} (h : Host W).

(** An insight as [distillInsights] hands it on: trimmed and not empty. *)
Let goodInsight (x : string) : Prop := trimmed x /\ x <> EmptyString.

Lemma keepInsights_good (items : list Json) :
  Forall goodInsight (keepInsights items).
Proof.
  induction items as [|j r IH]; cbn [keepInsights]; [constructor|].
  destruct (insightOf j) as [t|] eqn:E; [|exact IH].
  constructor; [|exact IH].
  unfold insightOf in E. destruct j; try discriminate.
  destruct (0 <? String.length (Js.trim s))%nat eqn:El; [|discriminate].
  inversion E. subst t. split.
  - apply trim_idempotent.
  - apply Nat.ltb_lt in El. intros Hs. rewrite Hs in El. cbn in El. lia.
Qed.

Lemma Forall_firstn {A : Type} (P : A -> Prop) (n : nat) (l : list A) :
  Forall P l -> Forall P (firstn n l).
Proof.
  intros H. apply Forall_forall. intros x Hx.
  rewrite Forall_forall in H. apply H. apply (In_firstn n). exact Hx.
Qed.

Lemma Forall_filter {A : Type} (P : A -> Prop) (f : A -> bool) (l : list A) :
  Forall P l -> Forall P (filter f l).
Proof.
  intros H. apply Forall_forall. intros x Hx.
  rewrite Forall_forall in H. apply H. apply filter_In in Hx. apply Hx.
Qed.

(** [distillInsights] never throws; it hands on eight insights at most,
    each trimmed and not empty. *)
Lemma distillInsights_result (c : ChatProvider) (topic : string)
    (pages : list PageContent.t) (s : State W) :
  exists l,
    fst (distillInsights h c topic pages s) = Returned l
    /\ (List.length l <= 8)%nat
    /\ Forall goodInsight l.
Proof.
  unfold distillInsights.
  destruct (List.length pages =? 0)%nat.
  { exists []. cbn. repeat split; [lia | constructor]. }
  unfold tryCatch, bind, get, ret, throw.
  destruct (call _ s) as [[result|e] s1].
  2:{ exists []. cbn. repeat split; [lia | constructor]. }
  destruct (negb (Js.truthy _)).
  { exists []. cbn. repeat split; [lia | constructor]. }
  destruct (Js.matchArrayText _) as [m|].
  2:{ exists []. cbn. repeat split; [lia | constructor]. }
  destruct (JSON_parse h m) as [j|e].
  2:{ exists []. cbn. repeat split; [lia | constructor]. }
  destruct j; try (exists []; cbn; repeat split; [lia | constructor]).
  exists (Js.slice0 8 (keepInsights items)). cbn [fst].
  split; [reflexivity|]. unfold Js.slice0. cbn [Z.ltb Z.compare].
  split; [apply firstn_le_length|].
  apply Forall_firstn, keepInsights_good.
Qed.

(** ** Computations that leave the memory alone *)

Lemma keeps_ret {A : Type} (a : A) : KeepsMemory (ret (W := W) a).
Proof. intros s. reflexivity. Qed.

Lemma keeps_throw {A : Type} (e : JsError) :
  KeepsMemory (throw (W := W) (A := A) e).
Proof. intros s. reflexivity. Qed.

Lemma keeps_get : KeepsMemory (get (W := W)).
Proof. intros s. reflexivity. Qed.

Lemma keeps_call {A : Type} (f : W -> Outcome A * W) : KeepsMemory (call f).
Proof.
  intros s. unfold call. destruct (f (world s)). reflexivity.
Qed.

Lemma keeps_bind {A B : Type} (c : M W A) (k : A -> M W B) :
  KeepsMemory c -> (forall a, KeepsMemory (k a)) -> KeepsMemory (bind c k).
Proof.
  intros Hc Hk s. unfold bind. specialize (Hc s).
  destruct (c s) as [[a|e] s']; cbn [snd] in *; [|exact Hc].
  rewrite (Hk a s'). exact Hc.
Qed.

Lemma keeps_tryCatch {A : Type} (c : M W A) (handler : JsError -> M W A) :
  KeepsMemory c -> (forall e, KeepsMemory (handler e)) ->
  KeepsMemory (tryCatch c handler).
Proof.
  intros Hc Hh s. unfold tryCatch. specialize (Hc s).
  destruct (c s) as [[a|e] s']; cbn [snd] in *; [exact Hc|].
  rewrite (Hh e s'). exact Hc.
Qed.

Lemma keeps_forEach {A B : Type} (body : B -> A -> M W B) :
  (forall acc x, KeepsMemory (body acc x)) ->
  forall l acc, KeepsMemory (forEach body acc l).
Proof.
  intros Hb. induction l as [|x l IH]; intros acc; cbn [forEach].
  - apply keeps_ret.
  - apply keeps_bind; [apply Hb | intros acc'; apply IH].
Qed.

Ltac keeps :=
  repeat first
    [ apply keeps_ret
    | apply keeps_throw
    | apply keeps_get
    | apply keeps_call
    | apply keeps_bind; [|intros ?]
    | apply keeps_tryCatch; [|intros ?]
    | apply keeps_forEach; intros ? ?
    | match goal with
      | |- KeepsMemory (if ?b then _ else _) => destruct b
      | |- KeepsMemory (match ?x with _ => _ end) => destruct x
      end ].

Lemma keeps_readPage (url : string) : KeepsMemory (readPage h url).
Proof. unfold readPage. keeps. Qed.

Lemma keeps_readPages (urls : list string) : KeepsMemory (readPages h urls).
Proof.
  unfold readPages. apply keeps_forEach. intros pages url.
  apply keeps_bind; [apply keeps_readPage | intros content]. keeps.
Qed.

Lemma keeps_distillInsights (c : ChatProvider) (topic : string)
    (pages : list PageContent.t) :
  KeepsMemory (distillInsights h c topic pages).
Proof. unfold distillInsights. keeps. Qed.

(** ** Counting what is saved *)

Lemma AddedTo_nil (s s' : State W) :
  memoryStore s' = memoryStore s -> AddedTo s s' [].
Proof.
  intros E. unfold AddedTo. rewrite E, app_nil_r.
  destruct (memoryStore s); reflexivity.
Qed.

Lemma AddedTo_app (s1 s2 s3 : State W) (a b : list MemoryEntry.t) :
  AddedTo s1 s2 a -> AddedTo s2 s3 b -> AddedTo s1 s3 (a ++ b).
Proof.
  unfold AddedTo. intros H1 H2. rewrite H2, H1. cbn.
  rewrite app_assoc. reflexivity.
Qed.

Lemma AddedTo_keeps (s1 s2 s3 : State W) (a : list MemoryEntry.t) :
  AddedTo s1 s2 a -> memoryStore s3 = memoryStore s2 -> AddedTo s1 s3 a.
Proof. unfold AddedTo. intros H1 H2. rewrite H2. exact H1. Qed.

(** The state once [addEntry] has run inside [onMemory]. *)
Let afterSave (name x : string) (s : State W) : State W :=
  let r := Memory.addEntry h x [name; "self-learning"] self_learning
             (memoryStore s) (world s) in
  mkState (selfLearningStore s) (snd (fst r)) (webSearchStore s)
    (consciousnessStore s) (snd r).

Lemma saveInsights_cons (name : string) (total : Z) (x : string)
    (l : list string) (s : State W) :
  saveInsights h name total (x :: l) s
  = saveInsights h name (total + 1)%Z l (afterSave name x s).
Proof.
  unfold saveInsights, afterSave. cbn [forEach].
  unfold bind at 1. unfold bind at 1. unfold onMemory at 1. unfold ret at 1.
  destruct (Memory.addEntry h x [name; "self-learning"] self_learning
              (memoryStore s) (world s)) as [[a m'] w'].
  reflexivity.
Qed.

Lemma afterSave_added (name x : string) (s : State W) :
  goodInsight x ->
  exists entry, AddedTo s (afterSave name x s) [entry] /\ selfLearned entry.
Proof.
  intros [Ht Hn]. unfold afterSave, Memory.addEntry.
  destruct (Date_now h (world s)) as [now w1].
  destruct (nanoid h w1) as [newId w2]. cbn [fst snd].
  eexists. split; [reflexivity|].
  unfold selfLearned, trimmed.
  cbn [MemoryEntry.source MemoryEntry.confidence MemoryEntry.useCount
       MemoryEntry.createdAt MemoryEntry.updatedAt MemoryEntry.tags
       MemoryEntry.content].
  split; [reflexivity|]. split; [reflexivity|]. split; [reflexivity|].
  split; [reflexivity|]. split; [exists name; reflexivity|].
  split; [apply trim_idempotent|].
  unfold trimmed in Ht. rewrite Ht. exact Hn.
Qed.

Lemma saveInsights_result (name : string) (l : list string) :
  Forall goodInsight l ->
  forall (total : Z) (s : State W),
  exists added,
    fst (saveInsights h name total l s)
    = Returned (total + Z.of_nat (List.length l))%Z
    /\ AddedTo s (snd (saveInsights h name total l s)) added
    /\ List.length added = List.length l
    /\ Forall selfLearned added.
Proof.
  induction 1 as [|x l Hx Hl IH]; intros total s.
  - exists []. unfold saveInsights. cbn [forEach ret fst snd List.length].
    split; [f_equal; lia|]. split; [apply AddedTo_nil; reflexivity|].
    split; [reflexivity | constructor].
  - rewrite saveInsights_cons.
    destruct (afterSave_added name x s Hx) as (entry & A1 & A2).
    destruct (IH (total + 1)%Z (afterSave name x s))
      as (added & E1 & E2 & E3 & E4).
    exists (entry :: added).
    split; [rewrite E1; f_equal; cbn [List.length]; lia|].
    split.
    + change (entry :: added) with ([entry] ++ added)%list.
      eapply AddedTo_app; eassumption.
    + split; [cbn [List.length]; rewrite E3; reflexivity|].
      constructor; assumption.
Qed.

Lemma learnTopic_result (c : ChatProvider) (total : Z)
    (topic : LearningTopic.t) (s : State W) :
  exists added,
    AddedTo s (snd (learnTopic h c total topic s)) added
    /\ Forall selfLearned added
    /\ (forall t, fst (learnTopic h c total topic s) = Returned t ->
          t = (total + Z.of_nat (List.length added))%Z).
Proof.
  destruct (learnTopic h c total topic s) as [o s'] eqn:E. cbn [fst snd].
  unfold learnTopic in E. unfold bind at 1 in E.
  match type of E with
  | context [call ?f s] =>
      pose proof (keeps_call f s) as K1; destruct (call f s) as [[results|e] s1]
  end; cbn [snd] in K1.
  2:{ inversion E; subst. exists [].
      split; [apply AddedTo_nil, K1|].
      split; [apply Forall_nil | discriminate]. }
  destruct (List.length results =? 0)%nat.
  { unfold ret in E. inversion E; subst. exists []. cbn [List.length].
    split; [apply AddedTo_nil, K1|]. split; [apply Forall_nil|].
    intros t Ht. inversion Ht. lia. }
  unfold bind at 1, get at 1 in E. unfold bind at 1 in E.
  match type of E with
  | context [readPages h ?u s1] =>
      pose proof (keeps_readPages u s1) as K2;
      destruct (returns_readPages h u s1) as [pages Hp];
      destruct (readPages h u s1) as [o2 s2]
  end; cbn [fst snd] in *. subst o2.
  unfold bind at 1 in E.
  pose proof (keeps_distillInsights c (LearningTopic.name topic) pages s2)
    as K3.
  destruct (distillInsights_result c (LearningTopic.name topic) pages s2)
    as (raw & Hr & _ & Hgood).
  destruct (distillInsights h c (LearningTopic.name topic) pages s2)
    as [o3 s3]; cbn [fst snd] in *. subst o3.
  unfold bind at 1, get at 1 in E.
  destruct (saveInsights_result (LearningTopic.name topic)
              (deduplicateInsights (memoryStore s3) raw)
              (Forall_filter _ _ _ Hgood) total s3)
    as (added & E1 & E2 & E3 & E4).
  rewrite E in E1, E2. cbn [fst snd] in E1, E2.
  exists added. split.
  - unfold AddedTo in *. rewrite E2, K3, K2, K1. reflexivity.
  - split; [exact E4|]. intros t Ht. rewrite E1 in Ht. inversion Ht.
    rewrite E3. reflexivity.
Qed.

Lemma learnTopics_result (c : ChatProvider) (topics : list LearningTopic.t) :
  forall (total : Z) (s : State W),
  exists added,
    AddedTo s (snd (forEach (learnTopic h c) total topics s)) added
    /\ Forall selfLearned added
    /\ (forall t, fst (forEach (learnTopic h c) total topics s) = Returned t ->
          t = (total + Z.of_nat (List.length added))%Z).
Proof.
  induction topics as [|topic r IH]; intros total s; cbn [forEach].
  - exists []. cbn [ret fst snd List.length].
    split; [apply AddedTo_nil; reflexivity|]. split; [apply Forall_nil|].
    intros t Ht. inversion Ht. lia.
  - unfold bind.
    destruct (learnTopic_result c total topic s) as (a1 & A1 & A2 & A3).
    destruct (learnTopic h c total topic s) as [[t1|e] s1]; cbn [fst snd] in *.
    + destruct (IH t1 s1) as (a2 & B1 & B2 & B3).
      exists (a1 ++ a2)%list. split; [eapply AddedTo_app; eassumption|].
      split; [apply Forall_app; split; assumption|].
      intros t Ht. rewrite (B3 t Ht), (A3 t1 eq_refl), length_app. lia.
    + exists a1. split; [exact A1|]. split; [exact A2 | discriminate].
Qed.

Lemma loopBody_result (topics : list LearningTopic.t) (s : State W) :
  exists added,
    AddedTo s (snd (loopBody h topics s)) added
    /\ Forall selfLearned added
    /\ (forall t, fst (loopBody h topics s) = Returned t ->
          t = Z.of_nat (List.length added)).
Proof.
  destruct (loopBody h topics s) as [o s'] eqn:E. cbn [fst snd].
  unfold loopBody in E. unfold bind at 1, get at 1 in E.
  unfold bind at 1 in E.
  match type of E with
  | context [call ?f s] =>
      pose proof (keeps_call f s) as K1; destruct (call f s) as [[c|e] s1]
  end; cbn [snd] in K1.
  - destruct (learnTopics_result c topics 0%Z s1) as (added & A1 & A2 & A3).
    rewrite E in A1, A3. cbn [fst snd] in A1, A3.
    exists added. split.
    + unfold AddedTo in *. rewrite A1, K1. reflexivity.
    + split; [exact A2|]. intros t Ht. rewrite (A3 t Ht). lia.
  - inversion E; subst. exists []. split; [apply AddedTo_nil, K1|].
    split; [apply Forall_nil | discriminate].
Qed.

Lemma completed_memory (run : LearningRun.t) (total : Z) (s : State W) :
  memoryStore (completed h run total s) = memoryStore s.
Proof.
  unfold completed. destruct (SelfLearning.completeRun h _ _ _ _).
  reflexivity.
Qed.

Lemma failed_memory (run : LearningRun.t) (e : JsError) (s : State W) :
  memoryStore (failed h run e s) = memoryStore s.
Proof.
  unfold failed. destruct (SelfLearning.failRun h _ _ _ _). reflexivity.
Qed.

Lemma started_memory (s : State W) : memoryStore (started h s) = memoryStore s.
Proof.
  unfold started. destruct (SelfLearning.startRun h _ _ _) as [[r sl] w].
  reflexivity.
Qed.

(** What a call of the loop adds to the memory. *)
Lemma runLearningLoop_added (s : State W) :
  exists added,
    AddedTo s (snd (runLearningLoop h s)) added
    /\ Forall selfLearned added
    /\ (forall n, fst (runLearningLoop h s) = Returned n ->
          n = Z.of_nat (List.length added)).
Proof.
  destruct (runLearningLoop_cases h s) as [E | [[e [_ E]] | Hready]].
  - exists []. rewrite E. cbn [fst snd].
    split; [apply AddedTo_nil; reflexivity|]. split; [apply Forall_nil|].
    intros n Hn. inversion Hn. reflexivity.
  - exists []. rewrite E. cbn [fst snd].
    split; [apply AddedTo_nil; reflexivity|]. split; [apply Forall_nil|].
    discriminate.
  - rewrite (runLearningLoop_ready h s Hready).
    destruct (loopBody_result
                (SelfLearning.activeTopics (selfLearningStore s))
                (started h s)) as (added & A1 & A2 & A3).
    exists added.
    destruct (loopBody h _ (started h s)) as [[total|e] s2];
      cbn [fst snd] in *.
    + split.
      * unfold AddedTo in *.
        rewrite completed_memory, A1, started_memory. reflexivity.
      * split; [exact A2|]. intros n Hn. inversion Hn. subst. apply A3.
        reflexivity.
    + split.
      * unfold AddedTo in *.
        rewrite failed_memory, A1, started_memory. reflexivity.
      * split; [exact A2 | discriminate].
Qed.

Lemma readPage_result (url : string) (s : State W) :
  exists content,
    fst (readPage h url s) = Returned content
    /\ (Z.of_nat (String.length content) <= 6000)%Z
    /\ (forall e, fst (ofetch h ("https://r.jina.ai/" ++ url) (world s))
                  = Thrown e -> content = EmptyString).
Proof.
  unfold readPage, tryCatch, bind, call, ret.
  destruct (ofetch h ("https://r.jina.ai/" ++ url) (world s)) as [[page|e] w'].
  - exists (Js.sliceStr 6000 page). cbn [fst].
    split; [reflexivity|]. split; [|discriminate].
    unfold Js.sliceStr.
    pose proof (substring_length_le (Z.to_nat 6000) page) as H. lia.
  - exists EmptyString. cbn [fst String.length].
    split; [reflexivity|]. split; [lia | reflexivity].
Qed.
End LoopMore.

Section ScheduleMore.
Context {W : Type} (h : Host W).

Lemma returns_onSelfLearning {A : Type}
    (f : SelfLearning.Store -> W -> A * SelfLearning.Store * W) :
  Returns (onSelfLearning f).
Proof.
  intros s. unfold onSelfLearning.
  destruct (f (selfLearningStore s) (world s)) as [[a sl'] w'].
  exists a. reflexivity.
Qed.

Lemma returns_checkAndRunIfDue : Returns (checkAndRunIfDue h).
Proof.
  unfold checkAndRunIfDue.
  apply returns_bind; [apply returns_onSelfLearning | intros due].
  apply returns_bind; [apply returns_get | intros s].
  destruct (due && SelfLearning.configured (selfLearningStore s));
    [|apply returns_ret].
  apply returns_tryCatch. intros e. apply returns_ret.
Qed.

Lemma state_eta (s : State W) :
  mkState (selfLearningStore s) (memoryStore s) (webSearchStore s)
    (consciousnessStore s) (world s) = s.
Proof. destruct s; reflexivity. Qed.

Lemma checkAndRunIfDue_manual (s : State W) :
  SelfLearning.schedule (selfLearningStore s) = sched_manual ->
  checkAndRunIfDue h s = (Returned tt, s).
Proof.
  intros Hs. unfold checkAndRunIfDue, bind, onSelfLearning, get, ret,
    SelfLearning.isDue.
  rewrite Hs. cbn [SelfLearning.isManual orb negb andb].
  rewrite state_eta. reflexivity.
Qed.

Lemma checkAndRunIfDue_unconfigured (s : State W) :
  SelfLearning.configured (selfLearningStore s) = false ->
  selfLearningStore (snd (checkAndRunIfDue h s)) = selfLearningStore s
  /\ memoryStore (snd (checkAndRunIfDue h s)) = memoryStore s.
Proof.
  intros Hc. unfold checkAndRunIfDue, bind, onSelfLearning, get, ret.
  destruct (SelfLearning.isDue h (selfLearningStore s) (world s)) as [d w'].
  cbn [selfLearningStore]. rewrite Hc, andb_false_r. split; reflexivity.
Qed.
End ScheduleMore.

(** X19.  [distillInsights] never throws, whatever the model answers and
    whether or not the answer parses: it returns at most 8 insights, each
    trimmed and not empty.  Without pages it returns the empty list without
    calling the model. *)
Theorem distillInsights_bounded
    (W : Type) (h : Host W) (c : ChatProvider) (topic : string)
    (pages : list PageContent.t) (s : State W) :
  (exists l,
     fst (distillInsights h c topic pages s) = Returned l
     /\ (List.length l <= 8)%nat
     /\ Forall (fun x => trimmed x /\ x <> EmptyString) l)
  /\ (pages = [] -> distillInsights h c topic pages s = (Returned [], s)).
Proof.
  split.
  - destruct (distillInsights_result h c topic pages s) as (l & H1 & H2 & H3).
    exists l. auto.
  - intros ->. reflexivity.
Qed.

Lemma distillInsights_bounded_witness :
  distillInsights (Sample.stubHost Sample.reliable) "openai" "Rust" []
    Sample.endToEnd = (Returned [], Sample.endToEnd).
Proof.
  apply (proj2 (distillInsights_bounded _ (Sample.stubHost Sample.reliable)
                  "openai" "Rust" [] Sample.endToEnd)).
  reflexivity.
Defined.

(** X20.  The number [runLearningLoop] returns is the number of entries it
    has appended to the memory; the entries that were there are kept, in
    their order, and the two settings of the memory store are not
    touched. *)
Theorem runLearningLoop_count
    (W : Type) (h : Host W) (s : State W) (n : Z) :
  fst (runLearningLoop h s) = Returned n ->
  exists added,
    Memory.entries (memoryStore (snd (runLearningLoop h s)))
    = (Memory.entries (memoryStore s) ++ added)%list
    /\ Z.of_nat (List.length added) = n
    /\ Memory.enabled (memoryStore (snd (runLearningLoop h s)))
       = Memory.enabled (memoryStore s)
    /\ Memory.maxInjectedEntries (memoryStore (snd (runLearningLoop h s)))
       = Memory.maxInjectedEntries (memoryStore s).
Proof.
  intros Hn.
  destruct (runLearningLoop_added h s) as (added & A1 & _ & A3).
  exists added. unfold AddedTo in A1. rewrite A1. cbn.
  repeat split. symmetry. apply A3, Hn.
Qed.

Lemma runLearningLoop_count_witness :
  exists added,
    Memory.entries
      (memoryStore (snd (runLearningLoop (Sample.stubHost Sample.reliable)
                           Sample.endToEnd)))
    = (Memory.entries (memoryStore Sample.endToEnd) ++ added)%list
    /\ Z.of_nat (List.length added) = 1%Z
    /\ Memory.enabled
         (memoryStore (snd (runLearningLoop (Sample.stubHost Sample.reliable)
                              Sample.endToEnd)))
       = Memory.enabled (memoryStore Sample.endToEnd)
    /\ Memory.maxInjectedEntries
         (memoryStore (snd (runLearningLoop (Sample.stubHost Sample.reliable)
                              Sample.endToEnd)))
       = Memory.maxInjectedEntries (memoryStore Sample.endToEnd).
Proof.
  apply (runLearningLoop_count _ (Sample.stubHost Sample.reliable)
           Sample.endToEnd 1%Z).
  vm_compute. reflexivity.
Defined.


(** X22.  After [resetState] of the self-learning store the topics and the
    history are still there, but the loop is off: [isDue] is false without
    reading the clock, and [runLearningLoop] and [checkAndRunIfDue] return
    at once and change nothing. *)
Theorem resetState_stops_loop (W : Type) (h : Host W) (s : State W) :
  let sl' := SelfLearning.resetState (selfLearningStore s) in
  let s' := mkState sl' (memoryStore s) (webSearchStore s)
              (consciousnessStore s) (world s) in
  SelfLearning.topics sl' = SelfLearning.topics (selfLearningStore s)
  /\ SelfLearning.runHistory sl'
     = SelfLearning.runHistory (selfLearningStore s)
  /\ SelfLearning.isDue h sl' (world s) = (false, world s)
  /\ runLearningLoop h s' = (Returned 0%Z, s')
  /\ checkAndRunIfDue h s' = (Returned tt, s').
Proof.
  cbv zeta. split; [reflexivity|]. split; [reflexivity|].
  split; [reflexivity|]. split.
  - apply runLearningLoop_guard. left. reflexivity.
  - apply checkAndRunIfDue_manual. reflexivity.
Qed.

(** X23.  [checkAndRunIfDue] never throws, whatever the host does.  Under
    the [manual] schedule it changes nothing and does not read the clock;
    when the store is not [configured] (disabled, or without an enabled
    topic) it leaves both stores as they are. *)
Theorem checkAndRunIfDue_never_throws (W : Type) (h : Host W) (s : State W) :
  fst (checkAndRunIfDue h s) = Returned tt
  /\ (SelfLearning.schedule (selfLearningStore s) = sched_manual ->
      checkAndRunIfDue h s = (Returned tt, s))
  /\ (SelfLearning.configured (selfLearningStore s) = false ->
      selfLearningStore (snd (checkAndRunIfDue h s)) = selfLearningStore s
      /\ memoryStore (snd (checkAndRunIfDue h s)) = memoryStore s).
Proof.
  split; [|split].
  - destruct (returns_checkAndRunIfDue h s) as [[] H]. exact H.
  - apply checkAndRunIfDue_manual.
  - apply checkAndRunIfDue_unconfigured.
Qed.

Lemma checkAndRunIfDue_never_throws_witness :
  checkAndRunIfDue (Sample.stubHost Sample.flaky) Sample.threeTopics
  = (Returned tt, Sample.threeTopics).
Proof.
  apply (proj1 (proj2 (checkAndRunIfDue_never_throws _
                         (Sample.stubHost Sample.flaky) Sample.threeTopics))).
  reflexivity.
Defined.

(** X24.  The filter takes each candidate by itself against the store:
    against a store without entries every candidate passes; a candidate
    that passes does so as often as it occurs in the batch, so candidates
    are never deduplicated against each other; and filtering twice is
    filtering once. *)
Theorem deduplicateInsights_batch (m : Memory.Store) (l : list string) :
  (Memory.entries m = [] -> deduplicateInsights m l = l)
  /\ (forall x,
        count_occ string_dec (deduplicateInsights m l) x
        = if isDuplicateOf
               (map (fun e => Js.toLowerCase (MemoryEntry.content e))
                  (Memory.entries m)) x
          then 0%nat
          else count_occ string_dec l x)
  /\ deduplicateInsights m (deduplicateInsights m l) = deduplicateInsights m l.
Proof.
  unfold deduplicateInsights. split; [|split].
  - intros E. rewrite E. cbn [map]. apply filter_all. intros x _. reflexivity.
  - intros x. induction l as [|y l IH]; cbn [filter count_occ].
    + destruct (isDuplicateOf _ x); reflexivity.
    + destruct (isDuplicateOf _ y) eqn:Ey; cbn [negb count_occ].
      * rewrite IH. destruct (string_dec y x) as [->|Hn]; [|reflexivity].
        rewrite Ey. reflexivity.
      * rewrite IH. destruct (string_dec y x) as [->|Hn]; [|reflexivity].
        rewrite Ey. reflexivity.
  - apply filter_idempotent.
Qed.

Lemma deduplicateInsights_batch_witness :
  deduplicateInsights Memory.emptyStore [Sample.tokio; Sample.tokio]
  = [Sample.tokio; Sample.tokio].
Proof.
  apply (proj1 (deduplicateInsights_batch Memory.emptyStore
                  [Sample.tokio; Sample.tokio])).
  reflexivity.
Defined.

(* ===================================================================== *)
(** * Search results, the reader tool, the forms *)
(* ===================================================================== *)

Section WebFacts.

(** A search result that can be followed and shown. *)
Let usable (r : WebSearchResult.t) : Prop :=
  Js.truthy (WebSearchResult.url r) = true
  /\ Js.truthy (WebSearchResult.snippet r) = true.

Lemma present_orEmpty (o : option string) :
  DuckDuckGo.present o = true -> Js.truthy (DuckDuckGo.orEmpty o) = true.
Proof. destruct o; cbn; [auto | discriminate]. Qed.

Lemma addRelated_usable (limit : Z) (l : list DuckDuckGo.RelatedTopic) :
  forall results, Forall usable results ->
  Forall usable (DuckDuckGo.addRelated limit l results).
Proof.
  induction l as [|t r IH]; intros results H; cbn [DuckDuckGo.addRelated].
  - exact H.
  - destruct (limit <=? Z.of_nat (List.length results))%Z; [exact H|].
    destruct (DuckDuckGo.present (DuckDuckGo.Text t)
              && DuckDuckGo.present (DuckDuckGo.FirstURL t)) eqn:E.
    + apply andb_prop in E as [E1 E2]. apply IH.
      apply Forall_app. split; [exact H|].
      constructor; [|constructor]. split; cbn; apply present_orEmpty;
        assumption.
    + apply IH, H.
Qed.

Lemma duckDuckGo_usable (data : DuckDuckGo.Response) (limit : Z) :
  (0 <= limit)%Z ->
  Forall usable (DuckDuckGo.results data limit)
  /\ (Z.of_nat (List.length (DuckDuckGo.results data limit)) <= limit)%Z.
Proof.
  intros Hl. unfold DuckDuckGo.results, Js.slice0.
  destruct (limit <? 0)%Z eqn:E; [apply Z.ltb_lt in E; lia|].
  split.
  - apply Forall_forall. intros r Hr. apply In_firstn in Hr. revert r Hr.
    apply Forall_forall. apply addRelated_usable.
    destruct (DuckDuckGo.present (DuckDuckGo.AbstractText data)
              && DuckDuckGo.present (DuckDuckGo.AbstractURL data)) eqn:Ea;
      [|constructor].
    apply andb_prop in Ea as [E1 E2].
    constructor; [|constructor]. split; cbn; apply present_orEmpty; assumption.
  - pose proof (firstn_le_length (Z.to_nat limit)
                  (DuckDuckGo.addRelated limit
                     match DuckDuckGo.RelatedTopics data with
                     | Some l => l
                     | None => []
                     end
                     (if DuckDuckGo.present (DuckDuckGo.AbstractText data)
                         && DuckDuckGo.present (DuckDuckGo.AbstractURL data)
                      then
                       [WebSearchResult.mk
                          match DuckDuckGo.AbstractSource data with
                          | Some s => s
                          | None => "DuckDuckGo"
                          end
                          (DuckDuckGo.orEmpty (DuckDuckGo.AbstractURL data))
                          (DuckDuckGo.orEmpty (DuckDuckGo.AbstractText data))]
                      else []))) as H.
    lia.
Qed.

Lemma prefix_append (a b : string) : prefix a (a ++ b) = true.
Proof.
  induction a as [|c a IH]; cbn.
  - destruct b; reflexivity.
  - destruct (Ascii.ascii_dec c c); [exact IH | congruence].
Qed.

Lemma substring_all (s : string) (n : nat) :
  (String.length s <= n)%nat -> substring 0 n s = s.
Proof.
  revert n. induction s as [|c s IH]; intros [|n] H; cbn in *;
    try reflexivity; try lia.
  rewrite IH; [reflexivity | lia].
Qed.

Lemma substring_length_exact (n : nat) (s : string) :
  (n <= String.length s)%nat -> String.length (substring 0 n s) = n.
Proof.
  revert s. induction n as [|n IH]; intros [|c r] H; cbn in *;
    try reflexivity; try lia.
  rewrite IH; [reflexivity | lia].
Qed.

Lemma length_append (a b : string) :
  String.length (a ++ b) = (String.length a + String.length b)%nat.
Proof. induction a as [|c a IH]; cbn; [reflexivity | rewrite IH; reflexivity]. Qed.


End WebFacts.

(** X25.  The limit of a search is always between 1 and 10, whatever count
    is asked for and whatever the setting is.  The DuckDuckGo backend then
    returns at most that many results, and every one of them has an address
    and a snippet that are not empty. *)
Theorem duckDuckGo_results_bounded
    (data : DuckDuckGo.Response) (count : option Z) (maxResults : Z) :
  let limit := WebSearch.searchLimit count maxResults in
  (1 <= limit <= 10)%Z
  /\ (Z.of_nat (List.length (DuckDuckGo.results data limit)) <= limit)%Z
  /\ Forall (fun r => Js.truthy (WebSearchResult.url r) = true
                      /\ Js.truthy (WebSearchResult.snippet r) = true)
       (DuckDuckGo.results data limit).
Proof.
  cbv zeta.
  assert (Hl : (1 <= WebSearch.searchLimit count maxResults <= 10)%Z).
  { unfold WebSearch.searchLimit. lia. }
  split; [exact Hl|].
  destruct (duckDuckGo_usable data (WebSearch.searchLimit count maxResults))
    as [H1 H2]; [lia|].
  split; assumption.
Qed.

(** X26.  The reader tool cuts a page at [limit] characters, which is
    [maxLength] but never more than 12000, and 8000 when none is asked: a
    page within the limit comes back unchanged, a longer one comes back
    starting with its first [limit] characters (a notice follows), and a
    failed request comes back as a message instead of an exception. *)
Theorem webReadPage_spec
    (W : Type) (h : Host W) (url : string) (maxLength : option Z) (w : W) :
  let limit :=
    Z.min (match maxLength with Some n => n | None => 8000%Z end) 12000 in
  let out := fst (webReadPage h url maxLength w) in
  (limit <= 12000)%Z
  /\ (maxLength = None -> limit = 8000%Z)
  /\ (forall content,
        fst (ofetch h ("https://r.jina.ai/" ++ url) w) = Returned content ->
        ((Z.of_nat (String.length content) <= limit)%Z -> out = content)
        /\ ((0 <= limit < Z.of_nat (String.length content))%Z ->
            prefix (substring 0 (Z.to_nat limit) content) out = true
            /\ (Z.of_nat (String.length out) > limit)%Z))
  /\ (forall e,
        fst (ofetch h ("https://r.jina.ai/" ++ url) w) = Thrown e ->
        out = "Failed to read page: " ++ errorMessage e).
Proof.
  cbv zeta. split; [lia|]. split; [intros ->; reflexivity|].
  unfold webReadPage.
  set (limit := Z.min match maxLength with Some n => n | None => 8000%Z end
                  12000).
  destruct (ofetch h ("https://r.jina.ai/" ++ url) w) as [[page|err] w'];
    cbn [fst]; split; try discriminate.
  - intros content Hc. inversion Hc. subst content. split.
    + intros Hfit.
      destruct (Z.ltb_spec limit (Z.of_nat (String.length page)));
        [lia | reflexivity].
    + intros [H0 Hlong].
      destruct (Z.ltb_spec limit (Z.of_nat (String.length page))); [|lia].
      unfold Js.sliceTo.
      destruct (Z.ltb_spec limit 0); [lia|].
      split; [apply prefix_append|].
      rewrite !length_append, substring_length_exact; [|lia].
      change (String.length Js.newline) with 1%nat. lia.
  - intros e He. inversion He. reflexivity.
Qed.

Lemma webReadPage_spec_witness :
  fst (webReadPage (Sample.stubHost Sample.reliable) "https://a" None
         (5%Z, [])) = Sample.page300.
Proof.
  apply (proj1 (proj1 (proj2 (proj2
    (webReadPage_spec _ (Sample.stubHost Sample.reliable) "https://a" None
       (5%Z, []))))
    Sample.page300 eq_refl)).
  vm_compute. discriminate.
Defined.

(** X27.  The topic form never brings an empty or padded name into the
    store: a blank name adds nothing and changes nothing, and any other
    name is stored trimmed, as an enabled topic at the end of the list,
    with both input fields cleared. *)
Theorem submitTopic_spec
    (W : Type) (h : Host W) (newTopicName newTopicHint : string)
    (s : SelfLearning.Store) (w : W) :
  let out := submitTopic h newTopicName newTopicHint s w in
  let s' := snd (fst out) in
  (Js.trim newTopicName = EmptyString ->
   out = (newTopicName, newTopicHint, s, w))
  /\ (Js.trim newTopicName <> EmptyString ->
      fst (fst (fst out)) = EmptyString
      /\ snd (fst (fst out)) = EmptyString
      /\ exists topic,
           SelfLearning.topics s' = (SelfLearning.topics s ++ [topic])%list
           /\ LearningTopic.name topic = Js.trim newTopicName
           /\ LearningTopic.hint topic = Js.trim newTopicHint
           /\ LearningTopic.enabled topic = true)
  /\ (Forall (fun t => LearningTopic.name t <> EmptyString
                       /\ trimmed (LearningTopic.name t))
        (SelfLearning.topics s) ->
      Forall (fun t => LearningTopic.name t <> EmptyString
                       /\ trimmed (LearningTopic.name t))
        (SelfLearning.topics s')).
Proof.
  cbv zeta. unfold submitTopic.
  destruct (Js.truthy (Js.trim newTopicName)) eqn:E; cbn [negb].
  - apply truthy_nonempty in E.
    unfold SelfLearning.addTopic.
    destruct (nanoid h w) as [i w1]. destruct (Date_now h w1) as [now w2].
    cbn [fst snd SelfLearning.topics SelfLearning.setTopics].
    rewrite !trim_idempotent.
    split; [intros H; congruence|]. split.
    + intros _. split; [reflexivity|]. split; [reflexivity|].
      eexists. split; [reflexivity|]. cbn. auto.
    + intros H. apply Forall_app. split; [exact H|].
      constructor; [|constructor]. cbn [LearningTopic.name].
      split; [exact E | apply trim_idempotent].
  - cbn [fst snd]. split; [reflexivity|]. split.
    + intros H. exfalso. apply truthy_nonempty in H. congruence.
    + auto.
Qed.

Lemma submitTopic_spec_witness :
  submitTopic Sample.tickingHost "   " "a hint"
    (selfLearningStore Sample.threeTopics) 5%Z
  = ("   ", "a hint", selfLearningStore Sample.threeTopics, 5%Z).
Proof.
  apply (proj1 (submitTopic_spec Z Sample.tickingHost "   " "a hint"
                  (selfLearningStore Sample.threeTopics) 5%Z)).
  reflexivity.
Defined.



Section BracketFacts.

Lemma fromOpenBracket_suffix (s t : string) :
  Js.fromOpenBracket s = Some t ->
  exists a c r, s = a ++ t /\ t = String c r /\ Js.isChar 91 c = true.
Proof.
  induction s as [|c r IH]; cbn; [discriminate|].
  destruct (Js.isChar 91 c) eqn:E.
  - intros H. inversion H. subst t. exists EmptyString, c, r. auto.
  - intros H. destruct (IH H) as (a & c' & r' & H1 & H2 & H3).
    exists (String c a), c', r'. cbn. rewrite <- H1. auto.
Qed.

Lemma fromOpenBracket_none (s : string) :
  Js.fromOpenBracket s = None ->
  forall a c r, s = a ++ String c r -> Js.isChar 91 c = false.
Proof.
  induction s as [|d s IH]; cbn.
  - intros _ [|x a] c r H; cbn in H; discriminate.
  - destruct (Js.isChar 91 d) eqn:E; [discriminate|].
    intros H [|x a] c r Hs; cbn in Hs; inversion Hs; subst.
    + exact E.
    + eapply IH; [exact H | reflexivity].
Qed.

Lemma uptoLastCloseBracket_prefix (s p : string) :
  Js.uptoLastCloseBracket s = Some p ->
  exists q c b, s = p ++ b /\ p = q ++ String c EmptyString
                /\ Js.isChar 93 c = true.
Proof.
  revert p. induction s as [|d s IH]; intros p; cbn; [discriminate|].
  destruct (Js.uptoLastCloseBracket s) as [p'|] eqn:E.
  - intros H. inversion H. subst p.
    destruct (IH p' eq_refl) as (q & c & b & H1 & H2 & H3).
    exists (String d q), c, b. cbn. rewrite <- H1, <- H2. auto.
  - destruct (Js.isChar 93 d) eqn:Ed; [|discriminate].
    intros H. inversion H. subst p.
    exists EmptyString, d, s. auto.
Qed.

End BracketFacts.

(** X29.  What [distillInsights] cuts out of the model's answer for
    [JSON.parse] is a piece of the answer that starts with an opening
    bracket and ends with a closing bracket; an answer without an opening
    bracket gives nothing to parse. *)
Theorem matchArrayText_spec (text : string) :
  (forall m, Js.matchArrayText text = Some m ->
     exists before body after open close,
       text = before ++ m ++ after
       /\ m = String open (body ++ String close EmptyString)
       /\ Js.isChar 91 open = true
       /\ Js.isChar 93 close = true)
  /\ ((forall a c r, text = a ++ String c r -> Js.isChar 91 c = false) ->
      Js.matchArrayText text = None).
Proof.
  unfold Js.matchArrayText. split.
  - intros m. destruct (Js.fromOpenBracket text) as [t|] eqn:E; [|discriminate].
    destruct (fromOpenBracket_suffix _ _ E) as (a & c & r & H1 & H2 & H3).
    subst t. destruct (Js.uptoLastCloseBracket r) as [p|] eqn:Ep;
      [|discriminate].
    intros H. inversion H. subst m.
    destruct (uptoLastCloseBracket_prefix _ _ Ep) as (q & d & b & P1 & P2 & P3).
    exists a, q, b, c, d.
    split; [rewrite H1; rewrite P1 at 1; reflexivity|].
    split; [rewrite P2; reflexivity|]. auto.
  - intros Hno. destruct (Js.fromOpenBracket text) as [t|] eqn:E;
      [|reflexivity].
    destruct (fromOpenBracket_suffix _ _ E) as (a & c & r & H1 & H2 & H3).
    subst t. rewrite (Hno a c r H1) in H3. discriminate.
Qed.

Lemma matchArrayText_spec_witness :
  Js.matchArrayText "no array here" = None.
Proof.
  apply (proj2 (matchArrayText_spec "no array here")).
  intros a c r H.
  destruct (Js.isChar 91 c) eqn:E; [|reflexivity].
  exfalso.
  assert (Hf : Js.fromOpenBracket "no array here" = None) by reflexivity.
  rewrite (fromOpenBracket_none _ Hf a c r H) in E. discriminate.
Defined.

Section LedgerBound.
Context {W : Type} (h : Host W).

Lemma Forall2_length_eq {A B : Type} (R : A -> B -> Prop)
    (l : list A) (l' : list B) :
  Forall2 R l l' -> List.length l' = List.length l.
Proof. induction 1; cbn; congruence. Qed.

Lemma runLearningLoop_history_length (s : State W) :
  let before := List.length (SelfLearning.runHistory (selfLearningStore s)) in
  let after :=
    List.length
      (SelfLearning.runHistory
         (selfLearningStore (snd (runLearningLoop h s)))) in
  after = before \/ (ready s /\ after = Nat.min 20 (S before)).
Proof.
  cbv zeta.
  destruct (runLearningLoop_cases h s) as [E | [[e [_ E]] | Hready]];
    [rewrite E; left; reflexivity | rewrite E; left; reflexivity |].
  right. split; [exact Hready|].
  rewrite (runLearningLoop_ready h s Hready).
  pose proof (started_spec h s) as (Hh & _).
  pose proof (loopBody_Grows h
                (SelfLearning.activeTopics (selfLearningStore s))
                (started h s)) as (Gs & _).
  destruct (loopBody h _ (started h s)) as [[total|e] s2]; cbn [fst snd] in *;
    rewrite <- Gs in Hh.
  - unfold completed.
    pose proof (completeRun_history h (LearningRun.id (startedRun h s)) total
                  (selfLearningStore s2) (world s2)) as H1.
    destruct (SelfLearning.completeRun h _ _ _ _) as [sl3 w3].
    cbn [fst selfLearningStore] in *.
    rewrite H1, length_map, Hh. cbn [List.length].
    rewrite length_firstn. lia.
  - unfold failed.
    pose proof (failRun_history h (LearningRun.id (startedRun h s))
                  (errorMessage e) (selfLearningStore s2) (world s2)) as H1.
    destruct (SelfLearning.failRun h _ _ _ _) as [sl3 w3].
    cbn [fst selfLearningStore] in *.
    rewrite (Forall2_length_eq _ _ _ H1), Hh. cbn [List.length].
    rewrite length_firstn. lia.
Qed.
End LedgerBound.

(** X30.  A call of [runLearningLoop] adds at most one record to the
    ledger, and only when it gets past the guard and the pre-flight checks;
    a ledger of at most 20 records stays one, however the call ends. *)
Theorem runLearningLoop_ledger_bounded
    (W : Type) (h : Host W) (s : State W) :
  let before := List.length (SelfLearning.runHistory (selfLearningStore s)) in
  let after :=
    List.length
      (SelfLearning.runHistory
         (selfLearningStore (snd (runLearningLoop h s)))) in
  (after <= S before)%nat
  /\ (~ ready s -> after = before)
  /\ ((before <= 20)%nat -> (after <= 20)%nat).
Proof.
  cbv zeta.
  destruct (runLearningLoop_history_length h s) as [E | [Hr E]];
    cbv zeta in E; rewrite E.
  - repeat split; intros; lia.
  - split; [lia|]. split; [intros Hn; contradiction | lia].
Qed.

Lemma runLearningLoop_ledger_bounded_witness :
  (List.length
     (SelfLearning.runHistory
        (selfLearningStore
           (snd (runLearningLoop (Sample.stubHost Sample.flaky)
                   Sample.threeTopics)))) <= 20)%nat.
Proof.
  apply (proj2 (proj2 (runLearningLoop_ledger_bounded _
                         (Sample.stubHost Sample.flaky) Sample.threeTopics))).
  cbn. lia.
Defined.
(* ===================================================================== *)
(** * Where a run can fail, and what a failed run leaves *)
(* ===================================================================== *)

Section Failures.
Context {W : Type} (h : Host W).

Lemma forEach_app {A B : Type} (body : B -> A -> M W B) (l1 l2 : list A) :
  forall (acc : B) (s : State W),
  forEach body acc (l1 ++ l2) s
  = match forEach body acc l1 s with
    | (Returned a, s1) => forEach body a l2 s1
    | (Thrown e, s1) => (Thrown e, s1)
    end.
Proof.
  induction l1 as [|x l1 IH]; intros acc s; cbn [forEach app].
  - reflexivity.
  - unfold bind. destruct (body acc x s) as [[a|e] s1].
    + apply IH.
    + reflexivity.
Qed.

(** A loop that throws does so in the body, at one of the elements, after
    the elements before it went through. *)
Lemma forEach_thrown {A B : Type} (body : B -> A -> M W B) (l : list A) :
  forall (acc : B) (s : State W) (e : JsError) (s' : State W),
  forEach body acc l s = (Thrown e, s') ->
  exists l1 x l2 acc1 s1,
    l = (l1 ++ x :: l2)%list
    /\ forEach body acc l1 s = (Returned acc1, s1)
    /\ body acc1 x s1 = (Thrown e, s').
Proof.
  induction l as [|x l IH]; intros acc s e s' H; cbn [forEach] in H.
  - discriminate.
  - unfold bind in H. destruct (body acc x s) as [[a|e0] s0] eqn:E.
    + destruct (IH a s0 e s' H) as (l1 & y & l2 & acc1 & s1 & H1 & H2 & H3).
      exists (x :: l1), y, l2, acc1, s1.
      split; [rewrite H1; reflexivity|]. split; [|exact H3].
      cbn [forEach]. unfold bind. rewrite E. exact H2.
    + inversion H; subst. exists [], x, l, acc, s.
      split; [reflexivity|]. split; [reflexivity | exact E].
Qed.

(** A topic whose search throws passes the error on at once. *)
Lemma learnTopic_search_throws (c : ChatProvider) (total : Z)
    (topic : LearningTopic.t) (s : State W) (e : JsError) (w' : W) :
  search h (topicQuery topic) 4 (world s) = (Thrown e, w') ->
  learnTopic h c total topic s = (Thrown e, withWorld s w').
Proof.
  intros H. unfold learnTopic, bind, call. fold (topicQuery topic).
  rewrite H. reflexivity.
Qed.

(** Past its search a topic does not throw. *)
Lemma learnTopic_search_returns (c : ChatProvider) (total : Z)
    (topic : LearningTopic.t) (s : State W)
    (results : list WebSearchResult.t) (w' : W) :
  search h (topicQuery topic) 4 (world s) = (Returned results, w') ->
  exists n, fst (learnTopic h c total topic s) = Returned n.
Proof.
  intros H. unfold learnTopic. unfold bind at 1. unfold call.
  fold (topicQuery topic). rewrite H.
  match goal with
  | |- exists n, fst (?k ?s1) = Returned n =>
      assert (R : Returns k); [|exact (R s1)]
  end.
  destruct (List.length results =? 0)%nat; [apply returns_ret|].
  apply returns_bind; [apply returns_get | intros s0].
  apply returns_bind; [apply returns_readPages | intros pages].
  apply returns_bind; [apply returns_distillInsights | intros raw].
  apply returns_bind; [apply returns_get | intros s2].
  apply returns_saveInsights.
Qed.

(** So a topic throws only what its search throws. *)
Lemma learnTopic_thrown (c : ChatProvider) (total : Z)
    (topic : LearningTopic.t) (s : State W) (e : JsError) (s' : State W) :
  learnTopic h c total topic s = (Thrown e, s') ->
  exists w',
    search h (topicQuery topic) 4 (world s) = (Thrown e, w')
    /\ s' = withWorld s w'.
Proof.
  intros H.
  destruct (search h (topicQuery topic) 4 (world s)) as [[results|e0] w']
    eqn:E.
  - destruct (learnTopic_search_returns c total topic s results w' E)
      as [n Hn].
    rewrite H in Hn. discriminate.
  - rewrite (learnTopic_search_throws c total topic s e0 w' E) in H.
    inversion H; subst. exists w'. split; reflexivity.
Qed.

Lemma started_frame (s : State W) :
  consciousnessStore (started h s) = consciousnessStore s
  /\ webSearchStore (started h s) = webSearchStore s.
Proof.
  unfold started. destruct (SelfLearning.startRun h _ _ _) as [[r sl] w].
  split; reflexivity.
Qed.

(** The [try] block of a run: the provider, then the topics. *)
Lemma loopBody_provider (topics : list LearningTopic.t) (s : State W) :
  loopBody h topics (started h s)
  = match providerCall h s with
    | (Returned c, wp) =>
        forEach (learnTopic h c) 0%Z topics (withWorld (started h s) wp)
    | (Thrown e, wp) => (Thrown e, withWorld (started h s) wp)
    end.
Proof.
  unfold loopBody, providerCall, bind, get, call, withWorld.
  rewrite (proj1 (started_frame s)).
  destruct (getProviderInstance h _ _) as [[c|e] wp]; reflexivity.
Qed.

(** A failure of the provider is rethrown. *)
Lemma provider_failure_rethrown (s : State W) (e : JsError) (wp : W) :
  ready s ->
  providerCall h s = (Thrown e, wp) ->
  runLearningLoop h s
  = (Thrown e, failed h (startedRun h s) e (withWorld (started h s) wp)).
Proof.
  intros Hready Hp.
  rewrite (runLearningLoop_ready h s Hready), loopBody_provider, Hp.
  reflexivity.
Qed.

(** A failure of a search is rethrown, and the run ends where the search
    left it: the topics after it are not gone through. *)
Lemma search_failure_rethrown (s : State W) (learnt : list LearningTopic.t)
    (t : LearningTopic.t) (saved : Z) (s1 : State W) (e : JsError)
    (w' : W) :
  ready s ->
  SearchFailsAt h s learnt t saved s1 e w' ->
  runLearningLoop h s
  = (Thrown e, failed h (startedRun h s) e (withWorld s1 w')).
Proof.
  intros Hready (c & wp & rest & Hp & Ht & Hl & Hs).
  rewrite (runLearningLoop_ready h s Hready), loopBody_provider, Hp, Ht.
  rewrite forEach_app, Hl. cbn [forEach]. unfold bind.
  rewrite (learnTopic_search_throws c saved t s1 e w' Hs). reflexivity.
Qed.

(** Nothing else makes a run throw past the pre-flight checks. *)
Lemma thrown_by_provider_or_search (s : State W) (e : JsError) :
  ready s ->
  fst (runLearningLoop h s) = Thrown e ->
  (exists wp, providerCall h s = (Thrown e, wp))
  \/ (exists learnt t saved s1 w', SearchFailsAt h s learnt t saved s1 e w').
Proof.
  intros Hready H.
  rewrite (runLearningLoop_ready h s Hready), loopBody_provider in H.
  destruct (providerCall h s) as [[c|e0] wp] eqn:Hp.
  - right.
    destruct (forEach (learnTopic h c) 0%Z
                (SelfLearning.activeTopics (selfLearningStore s))
                (withWorld (started h s) wp)) as [[total|e1] s2] eqn:Hf;
      cbn [fst] in H; [discriminate|].
    inversion H; subst e1.
    destruct (forEach_thrown _ _ _ _ _ _ Hf)
      as (l1 & x & l2 & acc1 & s1 & H1 & H2 & H3).
    destruct (learnTopic_thrown c acc1 x s1 e s2 H3) as (w' & Hs & _).
    exists l1, x, acc1, s1, w'. exists c, wp, l2. auto.
  - left. cbn [fst] in H. inversion H; subst. exists wp. reflexivity.
Qed.

(** What the topics before the failure saved is in the memory when the
    search fails. *)
Lemma saved_before_failure (s : State W) (learnt : list LearningTopic.t)
    (t : LearningTopic.t) (saved : Z) (s1 : State W) (e : JsError)
    (w' : W) :
  SearchFailsAt h s learnt t saved s1 e w' ->
  exists added,
    Memory.entries (memoryStore s1)
    = (Memory.entries (memoryStore s) ++ added)%list
    /\ Z.of_nat (List.length added) = saved
    /\ Forall selfLearned added.
Proof.
  intros (c & wp & rest & Hp & Ht & Hl & Hs).
  destruct (learnTopics_result h c learnt 0%Z (withWorld (started h s) wp))
    as (added & A1 & A2 & A3).
  rewrite Hl in A1, A3. cbn [fst snd] in A1, A3.
  exists added. split; [|split; [|exact A2]].
  - unfold AddedTo in A1. rewrite A1. cbn [withWorld memoryStore].
    rewrite started_memory. reflexivity.
  - rewrite (A3 saved eq_refl). lia.
Qed.

Lemma substring_prefix (n : nat) (s : string) :
  exists rest, s = substring 0 n s ++ rest.
Proof.
  revert s. induction n as [|n IH]; intros [|c s]; cbn.
  - exists EmptyString. reflexivity.
  - exists (String c s). reflexivity.
  - exists EmptyString. reflexivity.
  - destruct (IH s) as [rest Hr]. exists rest. rewrite <- Hr. reflexivity.
Qed.

End Failures.

(** C3 (amended).  The pre-flight configuration errors (no provider or
    model, web search not configured, no enabled topic) are thrown before
    anything is written.  Past them a run throws exactly when the provider
    cannot be obtained or the search for a topic throws, and it throws
    that very error: its record then ends [error] with the message of the
    error, and the run ends in the state the failed call left, so the
    topics after a failed search are not gone through.  Every other failure
    (fetching a page, generating, parsing the answer) is absorbed: the run
    returns and its record ends [done] with the count it returns. *)
Theorem runLearningLoop_failures (W : Type) (h : Host W) (s : State W) :
  (SelfLearning.enabled (selfLearningStore s) = true ->
   SelfLearning.isRunning (selfLearningStore s) = false ->
   ~ ready s ->
   exists e, configurationError e /\ runLearningLoop h s = (Thrown e, s))
  /\ (ready s ->
      (forall e wp,
         providerCall h s = (Thrown e, wp) ->
         runLearningLoop h s
         = (Thrown e,
            failed h (startedRun h s) e (withWorld (started h s) wp)))
      /\ (forall learnt t saved s1 e w',
            SearchFailsAt h s learnt t saved s1 e w' ->
            runLearningLoop h s
            = (Thrown e, failed h (startedRun h s) e (withWorld s1 w')))
      /\ (forall e,
            fst (runLearningLoop h s) = Thrown e ->
            (exists wp, providerCall h s = (Thrown e, wp))
            \/ (exists learnt t saved s1 w',
                  SearchFailsAt h s learnt t saved s1 e w'))
      /\ ((forall e wp, providerCall h s <> (Thrown e, wp)) ->
          (forall learnt t saved s1 e w',
             ~ SearchFailsAt h s learnt t saved s1 e w') ->
          exists total r,
            fst (runLearningLoop h s) = Returned total
            /\ SelfLearning.latestRun
                 (selfLearningStore (snd (runLearningLoop h s))) = Some r
            /\ LearningRun.status r = done
            /\ LearningRun.insightsSaved r = total)
      /\ (forall e,
            fst (runLearningLoop h s) = Thrown e ->
            exists r,
              SelfLearning.latestRun
                (selfLearningStore (snd (runLearningLoop h s))) = Some r
              /\ LearningRun.status r = error
              /\ LearningRun.error r = Some (errorMessage e))).
Proof.
  split; [apply runLearningLoop_preflight|].
  intros Hready.
  split; [intros e wp; apply provider_failure_rethrown; exact Hready|].
  split.
  { intros learnt t saved s1 e w' Hf.
    exact (search_failure_rethrown h s learnt t saved s1 e w' Hready Hf). }
  split; [intros e; apply thrown_by_provider_or_search; exact Hready|].
  pose proof (runLearningLoop_ready_outcome h s Hready) as [_ H].
  cbv zeta in H.
  split.
  - intros Hp Hs.
    destruct (fst (runLearningLoop h s)) as [total|e] eqn:E.
    + destruct H as (r & t & H1 & H2 & H3 & _). exists total, r. auto.
    + exfalso.
      destruct (thrown_by_provider_or_search h s e Hready E)
        as [[wp Hw] | (learnt & t & saved & s1 & w' & Hf)].
      * exact (Hp e wp Hw).
      * exact (Hs _ _ _ _ _ _ Hf).
  - intros e He. rewrite He in H.
    destruct H as [(r & H1 & H2 & H3 & _) _]. exists r. auto.
Qed.

Lemma runLearningLoop_failures_witness :
  (fst (runLearningLoop (Sample.stubHost Sample.flaky) Sample.threeTopics)
   = Thrown (ErrorObject "fetch failed")
   /\ snd (world (snd (runLearningLoop (Sample.stubHost Sample.flaky)
                         Sample.threeTopics)))
      = ["Rust async runtimes"; "Flaky topic"])
  /\ (exists total r,
        fst (runLearningLoop (Sample.faultyHost true false)
               Sample.threeTopics) = Returned total
        /\ SelfLearning.latestRun
             (selfLearningStore
                (snd (runLearningLoop (Sample.faultyHost true false)
                        Sample.threeTopics))) = Some r
        /\ LearningRun.status r = done
        /\ LearningRun.insightsSaved r = total)
  /\ (exists total r,
        fst (runLearningLoop (Sample.faultyHost false true)
               Sample.threeTopics) = Returned total
        /\ SelfLearning.latestRun
             (selfLearningStore
                (snd (runLearningLoop (Sample.faultyHost false true)
                        Sample.threeTopics))) = Some r
        /\ LearningRun.status r = done
        /\ LearningRun.insightsSaved r = total)
  /\ (exists total r,
        fst (runLearningLoop (Sample.faultyHost false false)
               Sample.threeTopics) = Returned total
        /\ SelfLearning.latestRun
             (selfLearningStore
                (snd (runLearningLoop (Sample.faultyHost false false)
                        Sample.threeTopics))) = Some r
        /\ LearningRun.status r = done
        /\ LearningRun.insightsSaved r = total).
Proof.
  split; [|split; [|split]].
  - rewrite (proj1 (proj2 (proj2 (runLearningLoop_failures _
               (Sample.stubHost Sample.flaky) Sample.threeTopics)
               ready_threeTopics))
               [Sample.topic "Rust async runtimes"]
               (Sample.topic "Flaky topic") 1%Z
               (snd (forEach (learnTopic (Sample.stubHost Sample.flaky)
                                "openai") 0%Z
                       [Sample.topic "Rust async runtimes"]
                       (withWorld
                          (started (Sample.stubHost Sample.flaky)
                             Sample.threeTopics)
                          (1700000000002%Z, []))))
               (ErrorObject "fetch failed")
               (1700000000004%Z, ["Rust async runtimes"; "Flaky topic"])).
    + split; vm_compute; reflexivity.
    + exists "openai", (1700000000002%Z, []), [Sample.topic "Go schedulers"].
      repeat split; vm_compute; reflexivity.
  - apply (proj1 (proj2 (proj2 (proj2 (proj2 (runLearningLoop_failures _
             (Sample.faultyHost true false) Sample.threeTopics)
             ready_threeTopics))))).
    + intros e wp H. vm_compute in H. discriminate.
    + intros learnt t saved s1 e w' (c & wp & rest & _ & _ & _ & H).
      cbn in H. discriminate.
  - apply (proj1 (proj2 (proj2 (proj2 (proj2 (runLearningLoop_failures _
             (Sample.faultyHost false true) Sample.threeTopics)
             ready_threeTopics))))).
    + intros e wp H. vm_compute in H. discriminate.
    + intros learnt t saved s1 e w' (c & wp & rest & _ & _ & _ & H).
      cbn in H. discriminate.
  - apply (proj1 (proj2 (proj2 (proj2 (proj2 (runLearningLoop_failures _
             (Sample.faultyHost false false) Sample.threeTopics)
             ready_threeTopics))))).
    + intros e wp H. vm_compute in H. discriminate.
    + intros learnt t saved s1 e w' (c & wp & rest & _ & _ & _ & H).
      cbn in H. discriminate.
Defined.

(** C10.  A run whose search fails after earlier topics have been learnt is
    not rolled back: it throws the error, the memory is the one those
    topics left, that is the memory the run started with plus the [saved]
    entries they added, and the record of the run ends [error] with zero
    [insightsSaved], however many entries were added. *)
Theorem failed_run_keeps_saved_entries
    (W : Type) (h : Host W) (s : State W) (learnt : list LearningTopic.t)
    (t : LearningTopic.t) (saved : Z) (s1 : State W) (e : JsError) (w' : W) :
  ready s ->
  SearchFailsAt h s learnt t saved s1 e w' ->
  let out := runLearningLoop h s in
  fst out = Thrown e
  /\ memoryStore (snd out) = memoryStore s1
  /\ (exists added,
        Memory.entries (memoryStore (snd out))
        = (Memory.entries (memoryStore s) ++ added)%list
        /\ Z.of_nat (List.length added) = saved
        /\ Forall selfLearned added)
  /\ (exists r,
        SelfLearning.latestRun (selfLearningStore (snd out)) = Some r
        /\ LearningRun.status r = error
        /\ LearningRun.error r = Some (errorMessage e)
        /\ LearningRun.insightsSaved r = 0%Z).
Proof.
  intros Hready Hf out.
  assert (E : out = (Thrown e,
                     failed h (startedRun h s) e (withWorld s1 w')))
    by exact (search_failure_rethrown h s learnt t saved s1 e w' Hready Hf).
  assert (Hm : memoryStore (snd out) = memoryStore s1).
  { rewrite E. cbn [snd]. rewrite failed_memory. reflexivity. }
  split; [rewrite E; reflexivity|].
  split; [exact Hm|].
  split.
  - rewrite Hm. exact (saved_before_failure h s learnt t saved s1 e w' Hf).
  - pose proof (runLearningLoop_ready_outcome h s Hready) as [_ H].
    cbv zeta in H. fold out in H. rewrite E in H. cbn [fst snd] in H.
    destruct H as [(r & H1 & H2 & H3 & H4) _].
    exists r. rewrite E. cbn [snd]. auto.
Qed.

Lemma failed_run_keeps_saved_entries_witness :
  let out := runLearningLoop (Sample.stubHost Sample.flaky)
               Sample.threeTopics in
  fst out = Thrown (ErrorObject "fetch failed")
  /\ (exists added,
        Memory.entries (memoryStore (snd out))
        = (Memory.entries (memoryStore Sample.threeTopics) ++ added)%list
        /\ Z.of_nat (List.length added) = 1%Z
        /\ Forall selfLearned added)
  /\ (exists r,
        SelfLearning.latestRun (selfLearningStore (snd out)) = Some r
        /\ LearningRun.status r = error
        /\ LearningRun.error r = Some "fetch failed"
        /\ LearningRun.insightsSaved r = 0%Z).
Proof.
  pose proof (failed_run_keeps_saved_entries _
                (Sample.stubHost Sample.flaky) Sample.threeTopics
                [Sample.topic "Rust async runtimes"]
                (Sample.topic "Flaky topic") 1%Z
                (snd (forEach (learnTopic (Sample.stubHost Sample.flaky)
                                 "openai") 0%Z
                        [Sample.topic "Rust async runtimes"]
                        (withWorld
                           (started (Sample.stubHost Sample.flaky)
                              Sample.threeTopics)
                           (1700000000002%Z, []))))
                (ErrorObject "fetch failed")
                (1700000000004%Z, ["Rust async runtimes"; "Flaky topic"])
                ready_threeTopics) as H.
  cbv zeta in *.
  destruct H as (H1 & _ & H3 & H4).
  - exists "openai", (1700000000002%Z, []), [Sample.topic "Go schedulers"].
    repeat split; vm_compute; reflexivity.
  - split; [exact H1|]. split; [exact H3 | exact H4].
Defined.

(** X18.  [readPage] never throws and hands on what the reader service
    answered, cut to 6000 characters: the page itself when it has no more
    than 6000 characters, its first 6000 otherwise.  A failed request reads
    as the empty page.  Of the state only the world moves, as the request
    left it. *)
Theorem readPage_bounded (W : Type) (h : Host W) (url : string) (s : State W) :
  let request := ofetch h ("https://r.jina.ai/" ++ url) (world s) in
  (forall page,
     fst request = Returned page ->
     exists content rest,
       fst (readPage h url s) = Returned content
       /\ page = content ++ rest
       /\ Z.of_nat (String.length content)
          = Z.min 6000 (Z.of_nat (String.length page))
       /\ ((Z.of_nat (String.length page) <= 6000)%Z -> content = page))
  /\ (forall e,
        fst request = Thrown e -> fst (readPage h url s) = Returned "")
  /\ snd (readPage h url s) = withWorld s (snd request).
Proof.
  cbv zeta. unfold readPage, tryCatch, bind, call, ret, withWorld.
  destruct (ofetch h ("https://r.jina.ai/" ++ url) (world s))
    as [[page|err] w'] eqn:E; cbn [fst snd].
  - split; [|split; [discriminate | reflexivity]].
    intros p Hp. inversion Hp; subst p.
    destruct (substring_prefix (Z.to_nat 6000) page) as [rest Hr].
    exists (Js.sliceStr 6000 page), rest. unfold Js.sliceStr.
    split; [reflexivity|]. split; [exact Hr|].
    destruct (Z.le_gt_cases (Z.of_nat (String.length page)) 6000) as [L | G].
    + rewrite substring_all by lia. split; [lia | reflexivity].
    + rewrite substring_length_exact by lia. split; lia.
  - split; [discriminate|]. split; [|reflexivity].
    intros e He. reflexivity.
Qed.

Lemma readPage_bounded_witness :
  exists content rest,
    fst (readPage (Sample.stubHost Sample.reliable) "https://a"
           Sample.endToEnd) = Returned content
    /\ Sample.page300 = content ++ rest
    /\ Z.of_nat (String.length content)
       = Z.min 6000 (Z.of_nat (String.length Sample.page300))
    /\ ((Z.of_nat (String.length Sample.page300) <= 6000)%Z ->
        content = Sample.page300).
Proof.
  apply (proj1 (readPage_bounded _ (Sample.stubHost Sample.reliable)
                  "https://a" Sample.endToEnd)).
  reflexivity.
Defined.
